(** * satpy.readers: dataset identity resolution and multi-granule assembly

    A shallow embedding of the resolution/assembly core of
    [satpy/readers/__init__.py]: the [DatasetDict] registry keyed by
    [DatasetID] tuples, [Reader.get_dataset_key], the granule filter
    [ConfigBasedReader._get_swathsegment], [MultiFileReader] and
    [ReaderFinder.get_filenames].

    Conventions of the embedding.
    - Python values are the inductive [pyval]; an [int] is a [Z], a [float]
      is the rational it denotes (a finite float is a rational; NaN and the
      infinities are left out, and arithmetic on floats is taken exact).
    - [datetime] objects are integers counting a fixed unit of time.
    - A raised exception is [Raise e]; exceptions raised by the statements of
      this file carry their class and message, exceptions coming out of a
      collaborator (a per-file reader, numpy) are [External].
    - A dict whose iteration order is observed (the registry) is a list of
      bindings in iteration order, which is insertion order (Python 3.7 and
      later); a dict that is only looked up is a [gmap].
    - Ordering comparisons between values of unrelated types raise
      [TypeError], as Python 3 does. *)

From Stdlib Require Import ZArith QArith Qabs Lia Permutation Sorted.
From stdpp Require Import base option list strings gmap.

Open Scope string_scope.

(** ** Exceptions and the error monad *)

Inductive exn :=
| ValueError (msg : string)
| TypeError (msg : string)
| KeyError (msg : string)
| IndexError (msg : string)
| NotImplementedError (msg : string)
| External (who : string).

Inductive result (A : Type) :=
| OK (a : A)
| Raise (e : exn).
Arguments OK {A} a.
Arguments Raise {A} e.

#[global] Instance result_ret : MRet result := λ A a, OK a.
#[global] Instance result_bind : MBind result := λ A B f m,
  match m with OK a => f a | Raise e => Raise e end.
#[global] Instance result_fmap : FMap result := λ A B f m,
  match m with OK a => OK (f a) | Raise e => Raise e end.

(** The call raised an exception of class [ValueError]. *)
Definition is_ValueError {A} (r : result A) : Prop :=
  ∃ msg, r = Raise (ValueError msg).

Definition is_OK {A} (r : result A) : bool :=
  match r with OK _ => true | Raise _ => false end.

(** A list comprehension [[x for x in l if p(x)]] whose test may raise. *)
Fixpoint filterM {A} (p : A → result bool) (l : list A) : result (list A) :=
  match l with
  | [] => OK []
  | x :: l' =>
      b ← p x;
      r ← filterM p l';
      OK (if b : bool then x :: r else r)
  end.

(** [[f(x) for x in l]] with [f] that may raise. *)
Fixpoint mapM_result {A B} (f : A → result B) (l : list A) : result (list B) :=
  match l with
  | [] => OK []
  | x :: l' => y ← f x; r ← mapM_result f l'; OK (y :: r)
  end.

(** ** [sorted(l, key=...)]: the stable sort *)

Section Sorting.
Context {A K : Type} (leb : K → K → bool) (key : A → K).

Fixpoint insert_by (x : A) (l : list A) : list A :=
  match l with
  | [] => [x]
  | y :: l' => if leb (key x) (key y) then x :: l else y :: insert_by x l'
  end.

Definition sorted_by (l : list A) : list A := foldr insert_by [] l.

(** The key of [x] is equivalent to [c]. *)
Definition key_is (c : K) (x : A) : bool := leb (key x) c && leb c (key x).
End Sorting.

(** ** Python values *)

Module Py.

Inductive pynum :=
| PInt (z : Z)
| PFloat (q : Q).

Definition num_val (n : pynum) : Q :=
  match n with PInt z => inject_Z z | PFloat q => q end.

Definition num_eqb (a b : pynum) : bool := Qeq_bool (num_val a) (num_val b).
Definition num_leb (a b : pynum) : bool := Qle_bool (num_val a) (num_val b).

Inductive pyval :=
| PNone
| PNum (n : pynum)
| PStr (s : string)
| PTuple (l : list pynum)
| PList (l : list pynum).

Inductive pytype := TNone | TInt | TFloat | TStr | TTuple | TList.

#[global] Instance pytype_eq_dec : EqDecision pytype.
Proof. solve_decision. Defined.

(** [type(v)] *)
Definition type_of (v : pyval) : pytype :=
  match v with
  | PNone => TNone
  | PNum (PInt _) => TInt
  | PNum (PFloat _) => TFloat
  | PStr _ => TStr
  | PTuple _ => TTuple
  | PList _ => TList
  end.

Fixpoint nums_eqb (l1 l2 : list pynum) : bool :=
  match l1, l2 with
  | [], [] => true
  | a :: l1', b :: l2' => num_eqb a b && nums_eqb l1' l2'
  | _, _ => false
  end.

(** [a == b] *)
Definition py_eqb (a b : pyval) : bool :=
  match a, b with
  | PNone, PNone => true
  | PNum x, PNum y => num_eqb x y
  | PStr s, PStr t => bool_decide (s = t)
  | PTuple x, PTuple y => nums_eqb x y
  | PList x, PList y => nums_eqb x y
  | _, _ => false
  end.

(** Lexicographic [<=] of sequences of numbers. *)
Fixpoint nums_leb (l1 l2 : list pynum) : bool :=
  match l1, l2 with
  | [], _ => true
  | _ :: _, [] => false
  | a :: l1', b :: l2' =>
      if num_eqb a b then nums_leb l1' l2' else num_leb a b
  end.

(** [a <= b] *)
Definition py_le (a b : pyval) : result bool :=
  match a, b with
  | PNum x, PNum y => OK (num_leb x y)
  | PStr s, PStr t => OK (String.leb s t)
  | PTuple x, PTuple y => OK (nums_leb x y)
  | PList x, PList y => OK (nums_leb x y)
  | _, _ => Raise (TypeError "'<=' not supported between instances")
  end.

(** [lo <= x <= hi]: the second comparison, and its operand [hi], are
    evaluated only when the first one holds. *)
Definition chain_le (lo x : pyval) (hi : result pyval) : result bool :=
  c ← py_le lo x;
  if c : bool then h ← hi; py_le x h else OK false.

(** [v[i]] for a non-negative index *)
Definition subscript (v : pyval) (i : nat) : result pyval :=
  match v with
  | PTuple l | PList l =>
      match l !! i with
      | Some x => OK (PNum x)
      | None => Raise (IndexError "index out of range")
      end
  | PStr s =>
      match String.get i s with
      | Some c => OK (PStr (String c EmptyString))
      | None => Raise (IndexError "string index out of range")
      end
  | _ => Raise (TypeError "object is not subscriptable")
  end.

(** [a - b] on numbers: an [int] for two [int]s, a [float] otherwise *)
Definition num_sub (a b : pynum) : pynum :=
  match a, b with
  | PInt x, PInt y => PInt (x - y)
  | _, _ => PFloat (num_val a - num_val b)
  end.

(** [a - b] *)
Definition py_sub (a b : pyval) : result pynum :=
  match a, b with
  | PNum x, PNum y => OK (num_sub x y)
  | _, _ => Raise (TypeError "unsupported operand type(s) for -")
  end.

(** [abs(n)] *)
Definition py_abs (n : pynum) : pynum :=
  match n with
  | PInt z => PInt (Z.abs z)
  | PFloat q => PFloat (Qabs q)
  end.

(** Truth value of [v] in a boolean context. *)
Definition truthy (v : pyval) : bool :=
  match v with
  | PNone => false
  | PNum n => negb (Qeq_bool (num_val n) 0)
  | PStr s => negb (bool_decide (s = ""))
  | PTuple l | PList l => negb (bool_decide (l = []))
  end.

Definition is_None (v : pyval) : bool :=
  match v with PNone => true | _ => false end.

(** [isinstance(v, numbers.Number)] *)
Definition is_number (v : pyval) : bool :=
  match v with PNum _ => true | _ => false end.

(** [isinstance(v, (str, six.text_type))] *)
Definition is_str (v : pyval) : bool :=
  match v with PStr _ => true | _ => false end.

(** [isinstance(v, (list, tuple)) and len(v) == 3] *)
Definition is_seq3 (v : pyval) : bool :=
  match v with
  | PTuple l | PList l => bool_decide (length l = 3)
  | _ => false
  end.

(** A list cannot be hashed, hence cannot be (part of) a dict key. *)
Definition hashable (v : pyval) : bool :=
  match v with PList _ => false | _ => true end.

(** [x in l] for a list [l] *)
Definition py_in (x : pyval) (l : list pyval) : bool :=
  existsb (py_eqb x) l.

End Py.
Import Py.

(** ** [DatasetID]: the composite key *)

Record DatasetID := mkDatasetID {
  name : pyval;
  wavelength : pyval;
  resolution : pyval;
  polarization : pyval;
  calibration : pyval
}.

(** Equality of the named tuples, field by field. *)
Definition did_eqb (a b : DatasetID) : bool :=
  py_eqb (name a) (name b) && py_eqb (wavelength a) (wavelength b)
  && py_eqb (resolution a) (resolution b)
  && py_eqb (polarization a) (polarization b)
  && py_eqb (calibration a) (calibration b).

(** A full key: all five fields are set. *)
Definition full_key (a : DatasetID) : bool :=
  negb (is_None (name a)) && negb (is_None (wavelength a))
  && negb (is_None (resolution a)) && negb (is_None (polarization a))
  && negb (is_None (calibration a)).

Definition did_hashable (a : DatasetID) : bool :=
  hashable (name a) && hashable (wavelength a) && hashable (resolution a)
  && hashable (polarization a) && hashable (calibration a).

(** The reading of a wavelength [(min, center, max)]: does the interval
    contain [q], and how far is its center from [q]. *)
Definition in_interval (q : pynum) (k : DatasetID) : bool :=
  match wavelength k with
  | PTuple [lo; _; hi] => num_leb lo q && num_leb q hi
  | _ => false
  end.

Definition distance (q : pynum) (k : DatasetID) : pynum :=
  match wavelength k with
  | PTuple [_; center; _] => py_abs (num_sub center q)
  | _ => PInt 0
  end.

(** The calibration of [k] is unset or one of the default choices,
    [brightness_temperature] and [reflectance]. *)
Definition default_calibrated (k : DatasetID) : bool :=
  is_None (calibration k)
  || py_in (calibration k) [PStr "brightness_temperature"; PStr "reflectance"].

(** The wavelength of [k] is unset or an interval. *)
Definition interval_or_unset (k : DatasetID) : Prop :=
  wavelength k = PNone ∨ ∃ lo center hi, wavelength k = PTuple [lo; center; hi].

(** A key given to the registry: a [DatasetID], or any other value (a name,
    a wavelength). *)
Inductive pykey :=
| KId (d : DatasetID)
| KVal (v : pyval).

(** Objects stored in a registry are references into a heap of metadata
    dicts: the heap maps an object to its [info] dict (a [Projectable]) or to
    itself (a plain dict). *)
Definition ref := nat.
Definition heap := ref → gmap string pyval.

Definition heap_set (h : heap) (r : ref) (d : gmap string pyval) : heap :=
  λ r', if bool_decide (r' = r) then d else h r'.

(** [d.get(k)] *)
Definition dict_get_default (d : gmap string pyval) (k : string) : pyval :=
  default PNone (d !! k).

(** ** The built-in [dict] under the registry *)

Section BaseDict.
Context {V : Type}.

Definition keys (R : list (DatasetID * V)) : list DatasetID := R.*1.

Fixpoint dict_lookup (R : list (DatasetID * V)) (k : DatasetID) : option V :=
  match R with
  | [] => None
  | (k', v) :: R' => if did_eqb k' k then Some v else dict_lookup R' k
  end.

(** [dict.__setitem__]: an equal key keeps its place (and the key object
    stored first), a new key goes last. *)
Fixpoint dict_store (R : list (DatasetID * V)) (k : DatasetID) (v : V)
  : list (DatasetID * V) :=
  match R with
  | [] => [(k, v)]
  | (k', v') :: R' =>
      if did_eqb k' k then (k', v) :: R' else (k', v') :: dict_store R' k v
  end.

Definition dict_setitem (R : list (DatasetID * V)) (k : DatasetID) (v : V)
  : result (list (DatasetID * V)) :=
  if did_hashable k then OK (dict_store R k v)
  else Raise (TypeError "unhashable type: 'list'").

Definition dict_getitem (R : list (DatasetID * V)) (k : DatasetID) : result V :=
  if did_hashable k then
    match dict_lookup R k with
    | Some v => OK v
    | None => Raise (KeyError "")
    end
  else Raise (TypeError "unhashable type: 'list'").

(** The invariant of a dict: its keys are hashable and no two of them are
    equal. *)
Fixpoint dict_wf (R : list (DatasetID * V)) : bool :=
  match R with
  | [] => true
  | (k, _) :: R' =>
      did_hashable k && forallb (λ k', negb (did_eqb k k')) (keys R')
      && dict_wf R'
  end.
End BaseDict.

(** ** [class DatasetDict(dict)] *)

Module DatasetDict.
Section DatasetDict.
Context {V : Type}.
Local Abbreviation t := (list (DatasetID * V)).

Definition _name_match (a b : pyval) : bool := py_eqb a b.

Definition wl_error : exn :=
  ValueError "Can only compare wavelengths of length 1 or 3".

Definition _wl_match (a b : pyval) : result bool :=
  if bool_decide (type_of a = type_of b) then OK (py_eqb a b)
  else if is_seq3 a then
    lo ← subscript a 0; chain_le lo b (subscript a 2)
  else if is_seq3 b then
    lo ← subscript b 0; chain_le lo a (subscript b 2)
  else Raise wl_error.

(** The loop of [get_key] for a number: the first key whose wavelength is
    set and matches; falling off the loop returns [None]. *)
Fixpoint first_wl_match (ks : list DatasetID) (key : pyval)
  : result (option DatasetID) :=
  match ks with
  | [] => OK None
  | k :: ks' =>
      if is_None (wavelength k) then first_wl_match ks' key
      else
        b ← _wl_match (wavelength k) key;
        if b : bool then OK (Some k) else first_wl_match ks' key
  end.

Fixpoint first_name_match (ks : list DatasetID) (key : pyval)
  : option DatasetID :=
  match ks with
  | [] => None
  | k :: ks' =>
      if _name_match (name k) key then Some k else first_name_match ks' key
  end.

(** One round of [get_keys_by_datasetid], for the field read by [field]. *)
Definition filter_field (is_wl : bool) (field : DatasetID → pyval)
    (did : DatasetID) (ks : list DatasetID) : result (list DatasetID) :=
  if is_None (field did) then OK ks
  else if is_wl then
    filterM (λ k, if is_None (field k) then OK false
                  else _wl_match (field k) (field did)) ks
  else
    OK (filter (λ k, negb (is_None (field k)) && py_eqb (field k) (field did)) ks).

Definition get_keys_by_datasetid (R : t) (did : DatasetID)
  : result (list DatasetID) :=
  ks ← filter_field false name did (keys R);
  ks ← filter_field true wavelength did ks;
  ks ← filter_field false resolution did ks;
  ks ← filter_field false polarization did ks;
  filter_field false calibration did ks.

Definition get_key (R : t) (key : pykey) : result (option DatasetID) :=
  match key with
  | KId did =>
      res ← get_keys_by_datasetid R did;
      match res with
      | [] => OK None
      | [k] => OK (Some k)
      | _ => Raise (KeyError "No unique dataset matching")
      end
  | KVal v =>
      if is_number v then first_wl_match (keys R) v
      else OK (first_name_match (keys R) v)
  end.

(** An optional filter argument of [get_keys]: a scalar stands for the
    one-element tuple. *)
Inductive selector :=
| SOne (v : pyval)
| SMany (l : list pyval).

Definition selector_values (s : selector) : list pyval :=
  match s with SOne v => [v] | SMany l => l end.

Definition narrow (field : DatasetID → pyval) (s : option selector)
    (ks : list DatasetID) : list DatasetID :=
  match s with
  | None => ks
  | Some sel =>
      filter (λ k, negb (is_None (field k))
                   && py_in (field k) (selector_values sel)) ks
  end.

Definition get_keys (R : t) (name_or_wl : pyval)
    (resolution' polarization' calibration' : option selector)
  : result (list DatasetID) :=
  ks ← (if is_number name_or_wl then
          filterM (λ k, _wl_match (wavelength k) name_or_wl) (keys R)
        else if is_str name_or_wl then
          OK (filter (λ k, _name_match (name k) name_or_wl) (keys R))
        else Raise (TypeError "First argument must be a wavelength or name"));
  OK (narrow calibration calibration'
        (narrow polarization polarization'
           (narrow resolution resolution' ks))).

Definition __getitem__ (R : t) (item : pykey) : result V :=
  key ← get_key R item;
  match key with
  | None => Raise (KeyError "No dataset matching found")
  | Some k => dict_getitem R k
  end.
End DatasetDict.

(** [__setitem__] mutates the metadata dict [d] of the value before it
    stores (or refuses) it, so it runs on the heap; the registry itself is
    replaced only when the call returns. *)

(** First half: the key to store under. A key that is no [DatasetID] is
    looked up, and made from the metadata when nothing is found. *)
Definition resolve_key (d : gmap string pyval) (R : list (DatasetID * ref))
    (key : pykey) : result DatasetID :=
  match key with
  | KId k => OK k
  | KVal old_key =>
      found ← get_key R key;
      match found with
      | Some k => OK k
      | None =>
          let new_name :=
            if is_str old_key then old_key else dict_get_default d "name" in
          let k := {| name := new_name;
                      resolution := dict_get_default d "resolution";
                      wavelength := dict_get_default d "wavelength_range";
                      polarization := dict_get_default d "polarization";
                      calibration := dict_get_default d "calibration" |} in
          if is_None (name k) && is_None (wavelength k) then
            Raise (ValueError
              "One of 'name' or 'wavelength_range' info values should be set.")
          else OK k
      end
  end.

Definition wavelength_conflict : exn :=
  TypeError "Can't change the wavelength of a dataset".

(** Second half: the metadata take the fields of the key, the wavelength
    is checked, the value is stored. *)
Definition store_under (h : heap) (R : list (DatasetID * ref))
    (k : DatasetID) (value : ref) : heap * result (list (DatasetID * ref)) :=
  let d := <["polarization" := polarization k]>
           (<["calibration" := calibration k]>
            (<["resolution" := resolution k]>
             (<["name" := name k]> (h value)))) in
  let h' := heap_set h value d in
  match d !! "wavelength_range" with
  | Some w =>
      if negb (py_eqb w (wavelength k)) then
        (h', Raise wavelength_conflict)
      else (h', dict_setitem R k value)
  | None => (h', dict_setitem R k value)
  end.

Definition __setitem__ (h : heap) (R : list (DatasetID * ref))
    (key : pykey) (value : ref) : heap * result (list (DatasetID * ref)) :=
  match resolve_key (h value) R key with
  | Raise e => (h, Raise e)
  | OK k => store_under h R k value
  end.
End DatasetDict.

(** ** [class Reader]: lookup of a configured dataset *)

Module Reader.
Section Reader.
Context {V : Type}.
(** [self.datasets] *)
Context (datasets : list (DatasetID * V)).

(** [ds.wavelength and (ds.wavelength[0] <= key <= ds.wavelength[2])] *)
Definition wl_contains (key : pyval) (ds : DatasetID) : result bool :=
  if truthy (wavelength ds) then
    lo ← subscript (wavelength ds) 0;
    chain_le lo key (subscript (wavelength ds) 2)
  else OK false.

(** [abs(ch.wavelength[1] - key)] *)
Definition center_distance (key : pyval) (ch : DatasetID) : result pynum :=
  c ← subscript (wavelength ch) 1;
  d ← py_sub c key;
  OK (py_abs d).

Definition sorted_by_distance (key : pyval) (ds : list DatasetID)
  : result (list DatasetID) :=
  decorated ← mapM_result (λ ch, d ← center_distance key ch; OK (d, ch)) ds;
  OK ((sorted_by num_leb fst decorated).*2).

(** The first and the last branch on [key]: by wavelength, by name. *)
Definition candidates (key : pyval) : result (list DatasetID) :=
  if is_number key then
    ds ← filterM (wl_contains key) (keys datasets);
    ds ← sorted_by_distance key ds;
    match ds with
    | [] => Raise (KeyError "Can't find any projectable at this wavelength")
    | _ => OK ds
    end
  else
    match filter (λ ds_id, py_eqb (name ds_id) key) (keys datasets) with
    | [] => Raise (KeyError "Can't find any projectable called by this name")
    | ds => OK ds
    end.

Definition default_calibration : list pyval :=
  [PStr "brightness_temperature"; PStr "reflectance"].

Definition calibration_levels : list pyval :=
  [PStr "brightness_temperature"; PStr "reflectance"; PStr "radiance";
   PStr "counts"].

(** The code after the branch on [key]: the three optional filters. *)
Definition narrow (ds : list DatasetID)
    (calibration' resolution' polarization' : option (list pyval))
  : result (list DatasetID) :=
  let cal := default default_calibration calibration' in
  let ds := match resolution' with
            | Some r => filter (λ ds_id, py_in (resolution ds_id) r) ds
            | None => ds
            end in
  let cal := filter (λ x, py_in x cal) calibration_levels in
  let ds := filter (λ ds_id, is_None (calibration ds_id)
                             || py_in (calibration ds_id) cal) ds in
  let ds := match polarization' with
            | Some p => filter (λ ds_id, py_in (polarization ds_id) p) ds
            | None => ds
            end in
  match ds with
  | [] => Raise (KeyError "Can't find any projectable matching")
  | _ => OK ds
  end.

(** [get_dataset_key(key, ..., aslist=True)] *)
Definition get_dataset_key_aslist (key : pykey)
    (calibration' resolution' polarization' : option (list pyval))
  : result (list DatasetID) :=
  match key with
  | KVal v =>
      ds ← candidates v;
      narrow ds calibration' resolution' polarization'
  | KId did =>
      ds ← (if negb (is_None (name did)) then
              ds ← candidates (name did); narrow ds None None None
            else if negb (is_None (wavelength did)) then
              ds ← candidates (wavelength did); narrow ds None None None
            else Raise (KeyError "Can't find any projectable"));
      narrow ds ((λ _, [calibration did]) <$> calibration')
                ((λ _, [resolution did]) <$> resolution')
                ((λ _, [polarization did]) <$> polarization')
  end.

(** [get_dataset_key(key, ...)] with [aslist=False]: [datasets[0]]. *)
Definition get_dataset_key (key : pykey)
    (calibration' resolution' polarization' : option (list pyval))
  : result DatasetID :=
  ds ← get_dataset_key_aslist key calibration' resolution' polarization';
  match ds with
  | d :: _ => OK d
  | [] => Raise (IndexError "list index out of range")
  end.
End Reader.
End Reader.

(** ** Collaborators *)

(** What a call into a collaborator (a per-file reader, numpy, the parser)
    gives back: a value, or an exception of its own. *)
Inductive outcome (A : Type) :=
| Returned (a : A)
| Failed (what : string).
Arguments Returned {A} a.
Arguments Failed {A} what.

Definition call {A} (o : outcome A) : result A :=
  match o with Returned a => OK a | Failed w => Raise (External w) end.

(** ** [class GenericFileReader]: the per-file reader handle

    The class is abstract; a handle is the record of what its subclass
    answers. [ring_lonlats] is [None] for the pair [(None, None)] of the base
    class. [get_swath_data] is given the shape of the row slice it has to
    fill in place. *)
Module GenericFileReader.
Record t {Ring MD : Type} := mk {
  filename : string;
  start_time : Z;
  end_time : Z;
  ring_lonlats : option Ring;
  get_shape : string → outcome (list nat);
  getitem : string → outcome MD;
  get_swath_data : string → list nat → outcome unit
}.
Arguments t : clear implicits.
End GenericFileReader.

(** ** [class ConfigBasedReader]: the granule filter *)

Module ConfigBasedReader.
Section ConfigBasedReader.
Context {Area Ring MD : Type}.
(** [poly.intersection(contour_poly) is not None], with the polygon
    arithmetic of trollsched *)
Context (intersects : Area → Ring → bool).
Local Abbreviation handle := (GenericFileReader.t Ring MD).

(** The attributes of [self] the filter reads. *)
Record options := mk_options {
  area : option Area;
  start_time : option Z;
  end_time : option Z
}.

(** The body of the loop: is [file_reader] appended? *)
Definition selected (self : options) (file_reader : handle) : result bool :=
  let file_start := GenericFileReader.start_time file_reader in
  let file_end := GenericFileReader.end_time file_reader in
  match area self with
  | Some a =>
      match GenericFileReader.ring_lonlats file_reader with
      | None =>
          Raise (ValueError
            "Granule selection by area is not supported by this reader")
      | Some ring => OK (intersects a ring)
      end
  | None =>
      match start_time self with
      | None => OK true
      | Some st =>
          match end_time self with
          | None => OK ((file_start <=? st) && (st <=? file_end))%Z
          | Some et =>
              OK (((st <=? file_start) && (file_start <=? et))
                  || ((st <=? file_end) && (file_end <=? et)))%Z
          end
      end
  end.

Definition _get_swathsegment (self : options) (file_readers : list handle)
  : result (list handle) :=
  segment_readers ← filterM (selected self) file_readers;
  OK (sorted_by Z.leb GenericFileReader.start_time segment_readers).
End ConfigBasedReader.
End ConfigBasedReader.

(** ** [class MultiFileReader] *)

Module MultiFileReader.
Section MultiFileReader.
Context {Ring MD : Type}.
(** [np.concatenate(arrays, axis=axis)] and the one-element list
    [[value]] *)
Context (np_concatenate : list MD → Z → outcome MD) (singleton : MD → MD).
Local Abbreviation handle := (GenericFileReader.t Ring MD).

Record t := mk {
  file_type : string;
  file_readers : list handle;
  (** item name to the [dtype] of its [FileKey] *)
  file_keys : gmap string string
}.

(** The masked array handed back: its shape, its dtype, and for every
    granule, in order, the rows [(start, stop)] it has filled. *)
Record masked_array := mk_ma {
  ma_shape : list nat;
  ma_dtype : string;
  ma_filled : list (nat * nat)
}.

(** [x[0]] and [x[-1]] of a shape tuple *)
Definition shape_first (x : list nat) : result nat :=
  match x with
  | r :: _ => OK r
  | [] => Raise (IndexError "tuple index out of range")
  end.

Definition shape_last (x : list nat) : result nat :=
  match last x with
  | Some c => OK c
  | None => Raise (IndexError "tuple index out of range")
  end.

(** Number of rows of the view [a[start : stop]] of an array of [n] rows. *)
Definition slice_rows (n start stop : nat) : nat :=
  Nat.min stop n - Nat.min start n.

(** The fill loop over [zip(granule_shapes, self.file_readers)]. *)
Fixpoint fill (item : string) (output_shape : list nat) (idx : nat)
    (granules : list (list nat * handle)) : result (list (nat * nat)) :=
  match granules with
  | [] => OK []
  | (granule_shape, file_reader) :: rest =>
      rows ← shape_first granule_shape;
      let view := slice_rows (hd 0 output_shape) idx (idx + rows)
                  :: tl output_shape in
      _ ← call (GenericFileReader.get_swath_data file_reader item view);
      filled ← fill item output_shape (idx + rows) rest;
      OK ((idx, idx + rows) :: filled)
  end.

(** The consecutive row slices, from row [idx] on, of granules with the
    given numbers of rows. *)
Fixpoint row_slices (idx : nat) (rows : list nat) : list (nat * nat) :=
  match rows with
  | [] => []
  | r :: rows' => (idx, idx + r) :: row_slices (idx + r) rows'
  end.

Definition get_swath_data (self : t) (item : string)
    (filename : option string) : result masked_array :=
  match file_keys self !! item with
  | None => Raise (KeyError item)
  | Some dtype =>
      granule_shapes ←
        mapM_result (λ x, call (GenericFileReader.get_shape x item))
                    (file_readers self);
      rows ← mapM_result shape_first granule_shapes;
      let num_rows := foldr Nat.add 0 rows in
      match granule_shapes with
      | [] => Raise (IndexError "list index out of range")
      | first :: _ =>
          output_shape ←
            (if bool_decide (length first < 2) then OK [num_rows]
             else num_cols ← shape_last first; OK [num_rows; num_cols]);
          match filename with
          | Some (String _ _) =>
              Raise (NotImplementedError
                "Saving data arrays to disk is not supported yet")
          | _ =>
              filled ← fill item output_shape 0
                            (zip granule_shapes (file_readers self));
              OK {| ma_shape := output_shape; ma_dtype := dtype;
                    ma_filled := filled |}
          end
      end
  end.

Definition join_methods : list string :=
  ["append"; "extend_granule"; "append_granule"; "first"].

Definition load_metadata (self : t) (item : string)
    (join_method : string) (axis : Z) : result MD :=
  if negb (bool_decide (join_method ∈ join_methods)) then
    Raise (ValueError ("Unknown metadata 'join_method': " +:+ join_method))
  else if bool_decide (join_method = "extend_granule") then
    vs ← mapM_result (λ fr, call (GenericFileReader.getitem fr item))
                     (file_readers self);
    call (np_concatenate vs axis)
  else if bool_decide (join_method = "append_granule") then
    vs ← mapM_result (λ fr, singleton <$> call (GenericFileReader.getitem fr item))
                     (file_readers self);
    call (np_concatenate vs axis)
  else if bool_decide (join_method = "append") then
    vs ← mapM_result (λ fr, call (GenericFileReader.getitem fr item))
                     (file_readers self);
    call (np_concatenate vs axis)
  else
    match file_readers self with
    | fr :: _ => call (GenericFileReader.getitem fr item)
    | [] => Raise (IndexError "list index out of range")
    end.
End MultiFileReader.
End MultiFileReader.

(** ** [class ReaderFinder]: discovery of files on disk *)

Module ReaderFinder.

(** [s.endswith(suffix)] *)
Definition endswith (s suffix : string) : bool :=
  let n := String.length s in
  let m := String.length suffix in
  (m <=? n)%nat && String.eqb (String.substring (n - m) m s) suffix.

(** What [parser.parse(filename)] extracts from a file name, as far as
    [get_filenames] reads it. *)
Record metadata := mk_metadata {
  md_start_time : option Z;
  md_end_time : option Z;
  md_nominal_time : option Z
}.

(** The entries of [reader_info] read here: [reader_info["start_time"]]
    ([None] when the key is absent, [Some None] when its value is [None]),
    [reader_info.get("end_time")] and [reader_info["file_patterns"]]. *)
Record reader_info := mk_reader_info {
  start_time : option (option Z);
  end_time : option Z;
  file_patterns : list string
}.

(** Time is counted in microseconds. *)
Definition day : Z := 86400000000.
Definition date (t : Z) : Z := (t / day)%Z.
Definition time (t : Z) : Z := (t mod day)%Z.
Definition combine (d tm : Z) : Z := (d * day + tm)%Z.
(** [datetime(1950, 1, 1)], counted from 1970-01-01 *)
Definition datetime_1950_1_1 : Z := (-7305 * day)%Z.

(** An end time before the start time is an end time of day only: it is
    moved to the day of the start, or to the next one. *)
Definition fix_end_time (md : metadata) : result metadata :=
  match md_end_time md with
  | None => OK md
  | Some e =>
      match md_start_time md with
      | None => Raise (KeyError "start_time")
      | Some s =>
          if (e <? s)%Z then
            let mdate := date s in
            let mtime := time e in
            let mdate := if (mtime <? time s)%Z then (mdate + 1)%Z else mdate in
            OK {| md_start_time := md_start_time md;
                  md_end_time := Some (combine mdate mtime);
                  md_nominal_time := md_nominal_time md |}
          else OK md
      end
  end.

(** The time test on one file: is its name appended? *)
Definition in_time (reader_start : Z) (reader_end : option Z)
    (md : metadata) : result bool :=
  let meta_start :=
    match md_start_time md with
    | Some s => Some s
    | None => md_nominal_time md
    end in
  let meta_end := default datetime_1950_1_1 (md_end_time md) in
  match reader_end with
  | Some reader_end =>
      match meta_start with
      | None => Raise (TypeError "'<=' not supported between instances")
      | Some meta_start =>
          OK (((reader_start <=? meta_start) && (meta_start <=? reader_end))
              || ((reader_start <=? meta_end) && (meta_end <=? reader_end)))%Z
      end
  | None =>
      covers ←
        (if bool_decide (is_Some (md_end_time md)) then
           match meta_start with
           | None => Raise (TypeError "'<=' not supported between instances")
           | Some meta_start =>
               OK ((meta_start <=? reader_start) && (reader_start <=? meta_end))%Z
           end
         else OK false);
      if covers : bool then OK true
      else OK (bool_decide (meta_start = Some reader_start))
  end.

Section ReaderFinder.
(** [os.path.join], [Parser(pattern).globify(info)], [glob.iglob] and
    [Parser(pattern).parse(filename)] ([None] when it raises
    [ValueError]) *)
Context (path_join : string → string → string)
        (globify : string → gmap string pyval → string)
        (iglob : string → list string)
        (parse : string → string → option metadata).

Definition empty_metadata : metadata :=
  {| md_start_time := None; md_end_time := None; md_nominal_time := None |}.

Definition file_wanted (reader_start : Z) (reader_end : option Z)
    (pattern filename : string) : result bool :=
  md ← fix_end_time (default empty_metadata (parse pattern filename));
  in_time reader_start reader_end md.

(** The loop over the patterns. Next to its result it gives the patterns
    handed to [glob.iglob], in order. *)
Fixpoint scan (info : gmap string pyval) (base_dir : option string)
    (reader_start : Z) (reader_end : option Z) (patterns : list string)
  : list string * result (list string) :=
  match patterns with
  | [] => ([], OK [])
  | pattern :: rest =>
      let pattern :=
        match base_dir with
        | Some (String _ _ as dir) => path_join dir pattern
        | _ => pattern
        end in
      let g := globify pattern info in
      match filterM (file_wanted reader_start reader_end pattern) (iglob g) with
      | Raise e => ([g], Raise e)
      | OK found =>
          let '(globbed, r) := scan info base_dir reader_start reader_end rest in
          (g :: globbed, (λ more, (found ++ more)%list) <$> r)
      end
  end.

(** [get_filenames(reader_info, base_dir)] on a finder whose [self.info]
    is [self_info]: the patterns globbed, and the result. *)
Definition get_filenames (self_info : gmap string pyval)
    (reader_info : reader_info) (base_dir : option string)
  : list string * result (list string) :=
  let info := filter (λ kv, ¬ endswith kv.1 "_time") self_info in
  match start_time reader_info with
  | None => ([], Raise (KeyError "start_time"))
  | Some None =>
      ([], Raise (ValueError
         "'start_time' keyword required with 'sensor' and 'reader' keyword arguments"))
  | Some (Some reader_start) =>
      let '(globbed, r) :=
        scan info base_dir reader_start (end_time reader_info)
             (file_patterns reader_info) in
      (globbed, sorted_by String.leb id <$> r)
  end.
End ReaderFinder.
End ReaderFinder.

(** ** Sample data *)

Module Sample.
Definition interval (lo center hi : Q) : pyval :=
  PTuple [PFloat lo; PFloat center; PFloat hi].

Definition channel (nm : string) (wl : pyval) (res : Z) (cal : string)
  : DatasetID :=
  {| name := PStr nm; wavelength := wl; resolution := PNum (PInt res);
     polarization := PNone; calibration := PStr cal |}.

Definition VIS006 : DatasetID :=
  channel "VIS006" (interval 0.56 0.635 0.71) 3000 "reflectance".
Definition VIS008 : DatasetID :=
  channel "VIS008" (interval 0.74 0.81 0.88) 3000 "reflectance".
Definition IR_108 : DatasetID :=
  channel "IR_108" (interval 9.8 10.8 11.8) 3000 "brightness_temperature".
(** A key without wavelength, as a reader registers for a derived field. *)
Definition cloud_mask : DatasetID :=
  {| name := PStr "cloud_mask"; wavelength := PNone;
     resolution := PNum (PInt 3000); polarization := PNone;
     calibration := PNone |}.

(** Granules: per-file handles over a file of the given coverage and
    native shape, the same shape for every item. [strict] refuses, the way
    a numpy assignment does, a row slice whose trailing dimensions are
    not those of its data, [lenient] fills whatever slice it is given. *)
Definition strict (nm : string) (s e : Z) (shape : list nat) (value : Z)
  : GenericFileReader.t unit Z :=
  {| GenericFileReader.filename := nm;
     GenericFileReader.start_time := s;
     GenericFileReader.end_time := e;
     GenericFileReader.ring_lonlats := None;
     GenericFileReader.get_shape := λ _, Returned shape;
     GenericFileReader.getitem := λ _, Returned value;
     GenericFileReader.get_swath_data := λ _ view,
       if bool_decide (tl view = tl shape) then Returned ()
       else Failed "could not broadcast input array" |}.

Definition lenient (nm : string) (s e : Z) (shape : list nat) (value : Z)
  : GenericFileReader.t unit Z :=
  {| GenericFileReader.filename := nm;
     GenericFileReader.start_time := s;
     GenericFileReader.end_time := e;
     GenericFileReader.ring_lonlats := None;
     GenericFileReader.get_shape := λ _, Returned shape;
     GenericFileReader.getitem := λ _, Returned value;
     GenericFileReader.get_swath_data := λ _ _, Returned () |}.

Definition g1 := strict "g1" 10 20 [3; 5] 10.
Definition g2 := strict "g2" 15 25 [2; 5] 20.
Definition g3 := strict "g3" 30 40 [4; 5] 30.

(** No area, the time window [(12, 18)]. *)
Definition window_12_18 : ConfigBasedReader.options (Area := unit) :=
  {| ConfigBasedReader.area := None;
     ConfigBasedReader.start_time := Some 12%Z;
     ConfigBasedReader.end_time := Some 18%Z |}.

Definition no_area (_ : unit) (_ : unit) : bool := false.

(** Coverage of a handle. *)
Definition coverage {Ring MD} (fr : GenericFileReader.t Ring MD) : Z * Z :=
  (GenericFileReader.start_time fr, GenericFileReader.end_time fr).

(** A directory with two files, whose names carry their start time. *)
Definition path_join (dir p : string) : string := dir +:+ "/" +:+ p.
Definition globify (pattern : string) (_ : gmap string pyval) : string :=
  pattern.
Definition iglob (g : string) : list string :=
  if String.eqb g "*.nc" then ["b_0020.nc"; "a_0010.nc"] else [].
Definition parse (_ filename : string) : option ReaderFinder.metadata :=
  if String.eqb filename "a_0010.nc" then
    Some {| ReaderFinder.md_start_time := Some 10%Z;
            ReaderFinder.md_end_time := None;
            ReaderFinder.md_nominal_time := None |}
  else if String.eqb filename "b_0020.nc" then
    Some {| ReaderFinder.md_start_time := Some 20%Z;
            ReaderFinder.md_end_time := None;
            ReaderFinder.md_nominal_time := None |}
  else None.

Definition request : gmap string pyval :=
  {[ "platform" := PStr "Meteosat-10"; "start_time" := PNum (PInt 5) ]}.

Definition reader_without_start : ReaderFinder.reader_info :=
  {| ReaderFinder.start_time := Some None;
     ReaderFinder.end_time := None;
     ReaderFinder.file_patterns := ["*.nc"] |}.

Definition reader_5_30 : ReaderFinder.reader_info :=
  {| ReaderFinder.start_time := Some (Some 5%Z);
     ReaderFinder.end_time := Some 30%Z;
     ReaderFinder.file_patterns := ["*.nc"] |}.

(** Two granules of shapes (3,5) and (2,6), read leniently. *)
Definition h1 := lenient "h1" 0 10 [3; 5] 0.
Definition h2 := lenient "h2" 10 20 [2; 6] 0.
(** The same two granules, read strictly. *)
Definition s1 := strict "h1" 0 10 [3; 5] 0.
Definition s2 := strict "h2" 10 20 [2; 6] 0.

Definition swath (readers : list (GenericFileReader.t unit Z))
  : MultiFileReader.t :=
  {| MultiFileReader.file_type := "hrit";
     MultiFileReader.file_readers := readers;
     MultiFileReader.file_keys := {[ "radiance" := "float32" ]} |}.

(** Two channels over 0.8: a wide one centered at 0.6, registered first,
    and a narrow one centered at 0.8, calibrated to radiance only. *)
Definition wide : DatasetID :=
  channel "wide" (interval 0.5 0.6 0.9) 1000 "reflectance".
Definition narrow : DatasetID :=
  channel "narrow" (interval 0.7 0.8 0.9) 1000 "radiance".
Definition two_channels : list (DatasetID * unit) :=
  [(wide, ()); (narrow, ())].

(** Full keys of one name: the channel with its interval, and the same
    channel given by its central wavelength alone. *)
Definition full_interval : DatasetID :=
  {| name := PStr "VIS006"; wavelength := interval 0.56 0.635 0.71;
     resolution := PNum (PInt 3000); polarization := PStr "H";
     calibration := PStr "reflectance" |}.
Definition full_scalar : DatasetID :=
  {| name := PStr "VIS006"; wavelength := PNum (PFloat 0.635);
     resolution := PNum (PInt 3000); polarization := PStr "H";
     calibration := PStr "reflectance" |}.
Definition full_other : DatasetID :=
  {| name := PStr "VIS008"; wavelength := interval 0.74 0.81 0.88;
     resolution := PNum (PInt 3000); polarization := PStr "H";
     calibration := PStr "reflectance" |}.

(** Heaps: no object has metadata; object 1 carries the interval of
    VIS006; object 2 carries that of VIS008. *)
Definition no_metadata : heap := λ _, ∅.
Definition with_ranges : heap :=
  heap_set
    (heap_set no_metadata 1
       {[ "wavelength_range" := interval 0.56 0.635 0.71 ]})
    2 {[ "wavelength_range" := interval 0.74 0.81 0.88 ]}.
End Sample.

(** ** More sample data *)

Module Sample2.
(** Readers of the granule filter: without any filter, with the single
    time 17, and with an area under two different time settings. *)
Definition unfiltered : ConfigBasedReader.options (Area := unit) :=
  {| ConfigBasedReader.area := None;
     ConfigBasedReader.start_time := None;
     ConfigBasedReader.end_time := Some 18%Z |}.
Definition at_17 : ConfigBasedReader.options (Area := unit) :=
  {| ConfigBasedReader.area := None;
     ConfigBasedReader.start_time := Some 17%Z;
     ConfigBasedReader.end_time := None |}.
Definition over_area : ConfigBasedReader.options (Area := unit) :=
  {| ConfigBasedReader.area := Some ();
     ConfigBasedReader.start_time := Some 12%Z;
     ConfigBasedReader.end_time := Some 18%Z |}.
Definition over_area_untimed : ConfigBasedReader.options (Area := unit) :=
  {| ConfigBasedReader.area := Some ();
     ConfigBasedReader.start_time := None;
     ConfigBasedReader.end_time := None |}.

(** A registry of three objects, and the key a bare name "VIS006" makes
    out of the metadata of object 1 of [Sample.with_ranges]. *)
Definition registry : list (DatasetID * ref) :=
  [(Sample.VIS006, 0); (Sample.VIS008, 1); (Sample.cloud_mask, 2)].
Definition by_name_VIS006 : DatasetID :=
  {| name := PStr "VIS006"; wavelength := Sample.interval 0.56 0.635 0.71;
     resolution := PNone; polarization := PNone; calibration := PNone |}.
Definition query_VIS006 : DatasetID :=
  {| name := PStr "VIS006"; wavelength := PNum (PFloat 0.6);
     resolution := PNone; polarization := PNone; calibration := PNone |}.
End Sample2.

(** ** [class DatasetDict]: membership, deletion, [get_item] *)

Module DatasetDictMethods.
Import DatasetDict.
Section DatasetDictMethods.
Context {V : Type}.

(** [dict.__delitem__]: the binding of the first equal key goes; [None]
    when there is none. *)
Fixpoint dict_remove (R : list (DatasetID * V)) (k : DatasetID)
  : option (list (DatasetID * V)) :=
  match R with
  | [] => None
  | (k', v) :: R' =>
      if did_eqb k' k then Some R' else cons (k', v) <$> dict_remove R' k
  end.

(** [dict.__contains__] and [dict.__delitem__] on what [get_key] gave back,
    which is [None] when nothing was found. [None] is hashable and never a
    key of the registry. *)
Definition dict_contains (R : list (DatasetID * V)) (key : option DatasetID)
  : result bool :=
  match key with
  | None => OK false
  | Some k =>
      if did_hashable k then OK (existsb (λ k', did_eqb k' k) (keys R))
      else Raise (TypeError "unhashable type: 'list'")
  end.

Definition dict_delitem (R : list (DatasetID * V)) (key : option DatasetID)
  : result (list (DatasetID * V)) :=
  match key with
  | None => Raise (KeyError "None")
  | Some k =>
      if did_hashable k then
        match dict_remove R k with
        | Some R' => OK R'
        | None => Raise (KeyError "")
        end
      else Raise (TypeError "unhashable type: 'list'")
  end.

Definition __contains__ (R : list (DatasetID * V)) (item : pykey)
  : result bool :=
  key ← get_key R item;
  dict_contains R key.

Definition __delitem__ (R : list (DatasetID * V)) (key : pykey)
  : result (list (DatasetID * V)) :=
  key ← get_key R key;
  dict_delitem R key.

Definition get_item (R : list (DatasetID * V)) (name_or_wl : pyval)
    (resolution' polarization' calibration' : option selector) : result V :=
  ks ← get_keys R name_or_wl resolution' polarization' calibration';
  match ks with
  | [] => Raise (KeyError "No keys found matching provided filters")
  | k :: _ => __getitem__ R (KId k)
  end.
End DatasetDictMethods.
End DatasetDictMethods.

(** A stored key [k] answers the query [did]: on every field set in the
    query it is set and equal, the wavelength of the query being a number
    inside the interval of [k], or equal to it. *)
Definition field_compatible (field : DatasetID → pyval) (did k : DatasetID)
  : bool :=
  is_None (field did)
  || (negb (is_None (field k)) && py_eqb (field k) (field did)).

Definition wavelength_compatible (did k : DatasetID) : bool :=
  match wavelength did with
  | PNone => true
  | PNum q => in_interval q k
  | w => py_eqb (wavelength k) w
  end.

Definition compatible (did k : DatasetID) : bool :=
  field_compatible name did k && wavelength_compatible did k
  && field_compatible resolution did k
  && field_compatible polarization did k
  && field_compatible calibration did k.

(** The wavelength of a query: unset, a number or a tuple. *)
Definition wavelength_query (w : pyval) : bool :=
  match w with PNone | PNum _ | PTuple _ => true | _ => false end.

(** ** [class ReaderFinder]: readers for given files *)

Module ReaderFinderFiles.

(** The entries of [reader_info] read here: its name, its file patterns
    and the [filenames] assigned to it so far. *)
Record reader_files := mk_reader_files {
  reader_name : string;
  file_patterns : list string;
  filenames : list string
}.

(** What [_find_files_readers] ends with: the readers it has yielded, the
    [IOError] on the files no reader configuration knows, or an exception
    that came up on the way. *)
Inductive found (A : Type) :=
| Readers (readers : A)
| IOError (unknown : list string)
| Aborted (e : exn).
Arguments Readers {A} readers.
Arguments IOError {A} unknown.
Arguments Aborted {A} e.

(** [l.remove(x)]: the first occurrence goes; [ValueError] without one. *)
Fixpoint list_remove (x : string) (l : list string) : result (list string) :=
  match l with
  | [] => Raise (ValueError "list.remove(x): x not in list")
  | y :: l' => if String.eqb y x then OK l' else cons y <$> list_remove x l'
  end.

Section ReaderFinderFiles.
(** [os.path.join], [trollsift.parser.globify], [os.path.basename] and
    [fnmatch.fnmatch] *)
Context (path_join : string → string → string)
        (globify : string → string)
        (basename : string → string)
        (fnmatch : string → string → bool).
(** [_read_reader_config] on the configuration files of a name ([None]
    when it raises [ValueError]; the [filenames] it returns are empty), and
    [_load_reader] *)
Context {Rdr : Type}
        (read_config : string → option (string * list string))
        (load_reader : reader_files → outcome Rdr).

(** The pattern a configured [file_pattern] is matched as. *)
Definition glob_of (base_dir : option string) (file_pattern : string)
  : string :=
  globify match base_dir with
          | Some (String _ _ as dir) => path_join dir file_pattern
          | _ => file_pattern
          end.

(** The test of the inner loop: [file_pattern] claims [filename]. *)
Definition claims (base_dir : option string) (file_pattern filename : string)
  : bool :=
  fnmatch (basename filename) (basename (glob_of base_dir file_pattern)).

(** No pattern of the list claims [filename]; no pattern of any readable
    configuration of the list does. *)
Definition unclaimed (base_dir : option string) (patterns : list string)
    (filename : string) : bool :=
  forallb (λ p, negb (claims base_dir p filename)) patterns.

Definition unknown_to (base_dir : option string) (configs : list string)
    (filename : string) : bool :=
  forallb (λ config_fn,
             match read_config config_fn with
             | Some (_, patterns) => unclaimed base_dir patterns filename
             | None => true
             end) configs.

(** The inner loop, over the copy [list(files)] made when it starts. *)
Fixpoint assign_pattern (pattern : string) (snapshot : list string)
    (assigned files : list string) : result (list string * list string) :=
  match snapshot with
  | [] => OK (assigned, files)
  | filename :: rest =>
      if fnmatch (basename filename) (basename pattern) then
        files' ← list_remove filename files;
        assign_pattern pattern rest (assigned ++ [filename])%list files'
      else assign_pattern pattern rest assigned files
  end.

Fixpoint assign_patterns (base_dir : option string) (patterns : list string)
    (assigned files : list string) : result (list string * list string) :=
  match patterns with
  | [] => OK (assigned, files)
  | file_pattern :: rest =>
      '(assigned', files') ←
        assign_pattern (glob_of base_dir file_pattern) files assigned files;
      assign_patterns base_dir rest assigned' files'
  end.

(** [assign_matching_files(reader_info, *files, base_dir=...)]: the
    [reader_info] with the files appended to its [filenames], and the files
    left. *)
Definition assign_matching_files (reader_info : reader_files)
    (files : list string) (base_dir : option string)
  : result (reader_files * list string) :=
  '(assigned, remaining) ←
    assign_patterns base_dir (file_patterns reader_info)
      (filenames reader_info) files;
  OK ({| reader_name := reader_name reader_info;
         file_patterns := file_patterns reader_info;
         filenames := assigned |}, remaining).

(** The loop of [_find_files_readers] over the configuration files found,
    given by their base names: the readers yielded and the files left. *)
Fixpoint find_loop (base_dir : option string) (configs : list string)
    (reader_names : list string) (files : list string)
  : result (list Rdr * list string) :=
  match configs with
  | [] => OK ([], files)
  | config_fn :: rest =>
      if bool_decide (config_fn ∈ reader_names) then
        find_loop base_dir rest reader_names files
      else
        match read_config config_fn with
        | None => find_loop base_dir rest reader_names files
        | Some (nm, patterns) =>
            let reader_names := config_fn :: reader_names in
            '(reader_info, files) ←
              assign_matching_files
                {| reader_name := nm; file_patterns := patterns;
                   filenames := [] |} files base_dir;
            yielded ←
              match filenames reader_info with
              | [] => OK []
              | _ => r ← call (load_reader reader_info); OK [r]
              end;
            match files with
            | [] => OK (yielded, [])
            | _ =>
                '(more, files) ← find_loop base_dir rest reader_names files;
                OK ((yielded ++ more)%list, files)
            end
        end
  end.

(** [list(self._find_files_readers(files))] *)
Definition _find_files_readers (base_dir : option string)
    (configs : list string) (files : list string) : found (list Rdr) :=
  match find_loop base_dir configs [] files with
  | OK (readers, []) => Readers readers
  | OK (_, unknown) => IOError unknown
  | Raise e => Aborted e
  end.
End ReaderFinderFiles.
End ReaderFinderFiles.

(** ** [class ConfigBasedReader]: file types and the readers of a new instance *)

Module ConfigBasedReaderFiles.

(** How the tail of [__init__] ends: with [self.file_readers], with one of
    its two [IOError]s, or with an exception that came up on the way (the
    [ValueError] for no file of a known type among them). *)
Inductive built (A : Type) :=
| Built (file_readers : A)
| NoFilesMatching
| VaryingNumbers (file_type_name : string)
| Stopped (e : exn).
Arguments Built {A} file_readers.
Arguments NoFilesMatching {A}.
Arguments VaryingNumbers {A} file_type_name.
Arguments Stopped {A} e.

Section ConfigBasedReaderFiles.
Context {Area Ring MD : Type} (intersects : Area → Ring → bool).
Local Abbreviation handle := (GenericFileReader.t Ring MD).
(** [trollsift.parser.globify] and [fnmatch.fnmatch]; the class of the
    per-file readers of a file type (an import that may fail), which makes
    a handle out of a file name *)
Context (globify : string → string)
        (fnmatch : string → string → bool)
        (file_reader_class : string → outcome (string → outcome handle)).

(** The test on one file name: a wildcard is put in front of the pattern
    for the directories. *)
Definition matches (file_pattern fn : string) : bool :=
  fnmatch fn ("*" +:+ globify file_pattern).

(** No pattern of the list matches [fn]; no pattern of any file type of
    the list does. *)
Definition unmatched (file_patterns : list string) (fn : string) : bool :=
  forallb (λ p, negb (matches p fn)) file_patterns.

Definition unidentified_by (file_types : list (string * list string))
    (fn : string) : bool :=
  forallb (λ ft, unmatched ft.2 fn) file_types.

(** The loop over the remaining file names for one pattern:
    [tmp_matching] and [tmp_remaining]. *)
Fixpoint match_pattern (cls : string → outcome handle) (file_pattern : string)
    (remaining_filenames : list string) : result (list handle * list string) :=
  match remaining_filenames with
  | [] => OK ([], [])
  | fn :: rest =>
      if matches file_pattern fn then
        reader ← call (cls fn);
        '(tmp_matching, tmp_remaining) ← match_pattern cls file_pattern rest;
        OK (reader :: tmp_matching, tmp_remaining)
      else
        '(tmp_matching, tmp_remaining) ← match_pattern cls file_pattern rest;
        OK (tmp_matching, fn :: tmp_remaining)
  end.

(** The loop over the patterns of one file type: its readers and the file
    names left. *)
Fixpoint match_patterns (cls : string → outcome handle)
    (file_patterns remaining_filenames : list string)
  : result (list handle * list string) :=
  match file_patterns with
  | [] => OK ([], remaining_filenames)
  | file_pattern :: rest =>
      '(tmp_matching, tmp_remaining) ←
        match_pattern cls file_pattern remaining_filenames;
      '(more, remaining) ← match_patterns cls rest tmp_remaining;
      OK ((tmp_matching ++ more)%list, remaining)
  end.

(** The loop over [self.file_types], a dict from the name of a file type
    to its patterns, in the order of the configuration: the file types
    with their readers, and the file names left, which are logged. *)
Fixpoint identify_loop (file_types : list (string * list string))
    (remaining_filenames : list string)
  : result (list (string * list handle) * list string) :=
  match file_types with
  | [] => OK ([], remaining_filenames)
  | (file_type_name, file_patterns) :: rest =>
      cls ← call (file_reader_class file_type_name);
      '(readers, remaining) ←
        match_patterns cls file_patterns remaining_filenames;
      let entry := match readers with
                   | [] => []
                   | _ => [(file_type_name, readers)]
                   end in
      match remaining with
      | [] => OK (entry, [])
      | _ =>
          '(more, unidentified) ← identify_loop rest remaining;
          OK ((entry ++ more)%list, unidentified)
      end
  end.

Definition identify_file_types (file_types : list (string * list string))
    (filenames : list string) : result (list (string * list handle)) :=
  fst <$> identify_loop file_types filenames.

(** The loop at the end of [__init__] over the identified file types, with
    [num_files] going along. *)
Fixpoint build_file_readers (self : ConfigBasedReader.options (Area:=Area))
    (file_keys : gmap string string)
    (file_types : list (string * list handle)) (num_files : nat)
  : built (list (string * MultiFileReader.t (Ring:=Ring) (MD:=MD))) :=
  match file_types with
  | [] => Built []
  | (file_type_name, file_type_files) :: rest =>
      match ConfigBasedReader._get_swathsegment intersects self file_type_files with
      | Raise e => Stopped e
      | OK segment =>
          match segment with
          | [] => NoFilesMatching
          | _ =>
              if negb (num_files =? 0)%nat
                 && negb (length segment =? num_files)%nat
              then VaryingNumbers file_type_name
              else
                match build_file_readers self file_keys rest (length segment) with
                | Built more =>
                    Built ((file_type_name,
                            {| MultiFileReader.file_type := file_type_name;
                               MultiFileReader.file_readers := file_type_files;
                               MultiFileReader.file_keys := file_keys |})
                           :: more)
                | stopped => stopped
                end
          end
      end
  end.

(** [__init__], from [identify_file_types] on. *)
Definition init_file_readers (self : ConfigBasedReader.options (Area:=Area))
    (file_keys : gmap string string)
    (file_types : list (string * list string)) (filenames : list string)
  : built (list (string * MultiFileReader.t (Ring:=Ring) (MD:=MD))) :=
  match identify_file_types file_types filenames with
  | Raise e => Stopped e
  | OK [] =>
      Stopped (ValueError
        "No input files found matching the configured file types")
  | OK identified => build_file_readers self file_keys identified 0
  end.
End ConfigBasedReaderFiles.
End ConfigBasedReaderFiles.

(** ** Sample data: files on disk *)

Module SampleFiles.
(** A file of one hour before midnight whose name gives the end time as a
    time of day: 23:30 to 00:10. *)
Definition hour : Z := 3600000000.
Definition overnight : ReaderFinder.metadata :=
  {| ReaderFinder.md_start_time := Some (23 * hour + hour / 2)%Z;
     ReaderFinder.md_end_time := Some (hour / 6)%Z;
     ReaderFinder.md_nominal_time := None |}.

(** A directory with a file over the times 0 to 100 next to a file
    starting at 10. *)
Definition iglob (g : string) : list string :=
  if String.eqb g "*.nc" then ["long_0000_0100.nc"; "a_0010.nc"] else [].
Definition parse (_ filename : string) : option ReaderFinder.metadata :=
  if String.eqb filename "long_0000_0100.nc" then
    Some {| ReaderFinder.md_start_time := Some 0%Z;
            ReaderFinder.md_end_time := Some 100%Z;
            ReaderFinder.md_nominal_time := None |}
  else Sample.parse "" filename.

(** The same pattern twice. *)
Definition twice_5_30 : ReaderFinder.reader_info :=
  {| ReaderFinder.start_time := Some (Some 5%Z);
     ReaderFinder.end_time := Some 30%Z;
     ReaderFinder.file_patterns := ["*.nc"; "*.nc"] |}.

(** The request of [Sample.request] at another time. *)
Definition request_later : gmap string pyval :=
  {[ "platform" := PStr "Meteosat-10"; "start_time" := PNum (PInt 7) ]}.
End SampleFiles.

(** ** Sample data: granules of one dimension *)

Module SampleVectors.
Definition t1 := Sample.strict "t1" 10 20 [3] 10.
Definition t2 := Sample.strict "t2" 20 30 [4] 20.
End SampleVectors.

(** ** [ReaderFinder._find_reader]: the reader asked for by name *)

Module ReaderFinderReader.
Import ReaderFinderFiles.

(** The [reader] argument: a reader object, or a string, the name of a
    reader or the path of a configuration file. *)
Inductive reader_arg (Rdr : Type) :=
| Instance (r : Rdr)
| Named (reader : string).
Arguments Instance {Rdr} r.
Arguments Named {Rdr} reader.

(** The entries of what [_read_reader_config] returns that are read here;
    its [filenames] are the empty list, and [start_time] and [end_time] are
    always there, [None] included. *)
Record config := mk_config {
  cfg_name : string;
  cfg_file_patterns : list string;
  cfg_start_time : option Z;
  cfg_end_time : option Z
}.

(** How [_find_reader] ends: with a reader, with the [IOError] on the files
    it cannot open, with the [RuntimeError] for a reader without files, or
    with an exception that came up on the way. *)
Inductive found_reader (Rdr : Type) :=
| Found (r : Rdr)
| CannotOpen (files : list string)
| NoFilenames (name : string)
| Interrupted (e : exn).
Arguments Found {Rdr} r.
Arguments CannotOpen {Rdr} files.
Arguments NoFilenames {Rdr} name.
Arguments Interrupted {Rdr} e.

Section ReaderFinderReader.
(** [os.path.join], [os.path.basename], [os.path.exists],
    [fnmatch.fnmatch], [glob.iglob]; [trollsift.parser.globify] of a
    pattern, and [Parser(pattern).globify(info)] and
    [Parser(pattern).parse(filename)] ([None] when it raises
    [ValueError]) *)
Context (path_join : string → string → string)
        (basename : string → string)
        (path_exists : string → bool)
        (fnmatch : string → string → bool)
        (iglob : string → list string)
        (globify_pattern : string → string)
        (globify : string → gmap string pyval → string)
        (parse : string → string → option ReaderFinder.metadata).
(** [config_search_paths(path, self.ppp_config_dir)],
    [self._read_reader_config] and [self._load_reader] *)
Context {Rdr : Type}
        (config_search_paths : string → list string)
        (_read_reader_config : list string → result config)
        (_load_reader : reader_files → outcome Rdr).

(** The configuration files of a reader given by a string. *)
Definition config_files_of (reader : string) : result (list string) :=
  if negb (path_exists reader) then
    let config_fn :=
      match String.index 0 "." reader with
      | None => reader +:+ ".cfg"
      | Some _ => reader
      end in
    match config_search_paths (path_join "readers" config_fn) with
    | [] => Raise (ValueError ("Can't find config file for reader: " +:+ reader))
    | config_files => OK config_files
    end
  else
    let config_fn := basename reader in
    OK (reader :: config_search_paths (path_join "readers" config_fn)).

Definition load (reader_info : reader_files) : found_reader Rdr :=
  match _load_reader reader_info with
  | Returned r => Found r
  | Failed who => Interrupted (External who)
  end.

(** [self._find_reader(reader, filenames)] on a finder with the given
    [self.info] and [self.base_dir]: the patterns it has globbed on disk,
    and how it ends. *)
Definition _find_reader (self_info : gmap string pyval)
    (base_dir : option string) (reader : reader_arg Rdr)
    (filenames : option (list string))
  : list string * found_reader Rdr :=
  match reader with
  | Instance r => ([], Found r)
  | Named reader =>
      match config_files ← config_files_of reader;
            _read_reader_config config_files with
      | Raise e => ([], Interrupted e)
      | OK cfg =>
          match filenames with
          | Some ((_ :: _) as files) =>
              match assign_matching_files path_join globify_pattern basename
                      fnmatch
                      {| reader_name := cfg_name cfg;
                         file_patterns := cfg_file_patterns cfg;
                         filenames := [] |} files base_dir with
              | Raise e => ([], Interrupted e)
              | OK (reader_info, []) => ([], load reader_info)
              | OK (_, remaining) => ([], CannotOpen remaining)
              end
          | _ =>
              let '(globbed, names) :=
                ReaderFinder.get_filenames path_join globify iglob parse
                  self_info
                  {| ReaderFinder.start_time := Some (cfg_start_time cfg);
                     ReaderFinder.end_time := cfg_end_time cfg;
                     ReaderFinder.file_patterns := cfg_file_patterns cfg |}
                  base_dir in
              match names with
              | Raise e => (globbed, Interrupted e)
              | OK [] => (globbed, NoFilenames (cfg_name cfg))
              | OK names =>
                  (globbed,
                   load {| reader_name := cfg_name cfg;
                           file_patterns := cfg_file_patterns cfg;
                           filenames := names |})
              end
          end
      end
  end.
End ReaderFinderReader.
End ReaderFinderReader.

(** ** Sample data: reader configurations *)

Module SampleFinder.
Import ReaderFinderReader.
(** Two configurations, found under their names: [hrit] with the times 5
    and 30, [untimed] without times; both with the pattern [*.nc]. Readers
    are loaded as the information they are made from. *)
Definition path_exists (_ : string) : bool := false.
Definition basename (path : string) : string := path.
Definition globify_pattern (pattern : string) : string := pattern.
Definition fnmatch (name pattern : string) : bool :=
  if String.eqb pattern "*.nc" then ReaderFinder.endswith name ".nc"
  else String.eqb name pattern.
Definition config_search_paths (path : string) : list string :=
  if String.eqb path "readers/hrit.cfg" then ["/etc/readers/hrit.cfg"]
  else if String.eqb path "readers/untimed.cfg" then ["/etc/readers/untimed.cfg"]
  else [].
Definition _read_reader_config (config_files : list string) : result config :=
  match config_files with
  | ["/etc/readers/hrit.cfg"] =>
      OK {| cfg_name := "hrit"; cfg_file_patterns := ["*.nc"];
            cfg_start_time := Some 5%Z; cfg_end_time := Some 30%Z |}
  | ["/etc/readers/untimed.cfg"] =>
      OK {| cfg_name := "untimed"; cfg_file_patterns := ["*.nc"];
            cfg_start_time := None; cfg_end_time := None |}
  | _ => Raise (ValueError "No valid configuration files found")
  end.
Definition _load_reader (reader_info : ReaderFinderFiles.reader_files)
  : outcome ReaderFinderFiles.reader_files :=
  Returned reader_info.
End SampleFinder.

(** ** Sample data: file types *)

Module SampleFileTypes.
(** One file type, [hrit], for the files ending in [.nc]; its class reads
    every file as a granule of shape (3, 5) over the times 0 to 10. *)
Definition fnmatch (name pattern : string) : bool :=
  String.eqb pattern "**.nc" && ReaderFinder.endswith name ".nc".
Definition file_reader_class (_ : string)
  : outcome (string → outcome (GenericFileReader.t unit Z)) :=
  Returned (λ fn, Returned (Sample.strict fn 0 10 [3; 5] 0)).
Definition file_types : list (string * list string) := [("hrit", ["*.nc"])].
Definition filenames : list string := ["b.nc"; "notes.txt"; "a.nc"].
Definition file_readers : list (string * MultiFileReader.t) :=
  [("hrit",
    {| MultiFileReader.file_type := "hrit";
       MultiFileReader.file_readers :=
         [Sample.strict "b.nc" 0 10 [3; 5] 0; Sample.strict "a.nc" 0 10 [3; 5] 0];
       MultiFileReader.file_keys := {[ "radiance" := "float32" ]} |})].
End SampleFileTypes.

(** * Properties *)

(** ** The error monad *)

Lemma filterM_pure {A} (p : A → result bool) (q : A → bool) (l : list A) :
  (∀ x, x ∈ l → p x = OK (q x)) → filterM p l = OK (filter q l).
Proof.
  induction l as [|x l IH]; intros Hp; [reflexivity|].
  simpl. rewrite (Hp x) by constructor. simpl.
  rewrite IH by (intros y Hy; apply Hp; now constructor). simpl.
  rewrite filter_cons. destruct (q x); reflexivity.
Qed.

Lemma filterM_raise {A} (p : A → result bool) (l : list A) (x : A) (e : exn) :
  x ∈ l → p x = Raise e →
  (∀ y, y ∈ l → is_OK (p y) = true ∨ p y = Raise e) →
  filterM p l = Raise e.
Proof.
  induction l as [|y l IH]; intros Hx Hpx Hall; [inversion Hx|].
  simpl. destruct (Hall y) as [Hy|Hy]; [constructor | |now rewrite Hy].
  destruct (p y) as [b|e'] eqn:E; [simpl | discriminate].
  apply elem_of_cons in Hx as [->|Hx]; [congruence|].
  rewrite IH; [reflexivity | assumption | assumption |].
  intros z Hz. apply Hall. now constructor.
Qed.

(** ** Equality of Python values is an equivalence *)

Lemma num_eqb_refl a : num_eqb a a = true.
Proof. apply Qeq_bool_iff. reflexivity. Qed.

Lemma num_eqb_sym a b : num_eqb a b = num_eqb b a.
Proof.
  unfold num_eqb. apply eq_true_iff_eq.
  rewrite !Qeq_bool_iff. split; intros H; now symmetry.
Qed.

Lemma num_eqb_trans a b c :
  num_eqb a b = true → num_eqb b c = true → num_eqb a c = true.
Proof.
  unfold num_eqb. rewrite !Qeq_bool_iff. intros H1 H2. now rewrite H1.
Qed.

Lemma nums_eqb_refl l : nums_eqb l l = true.
Proof. induction l; simpl; [reflexivity|]. now rewrite num_eqb_refl. Qed.

Lemma nums_eqb_sym l1 l2 : nums_eqb l1 l2 = nums_eqb l2 l1.
Proof.
  revert l2. induction l1 as [|a l1 IH]; intros [|b l2]; simpl; try reflexivity.
  now rewrite num_eqb_sym, IH.
Qed.

Lemma nums_eqb_trans l1 l2 l3 :
  nums_eqb l1 l2 = true → nums_eqb l2 l3 = true → nums_eqb l1 l3 = true.
Proof.
  revert l2 l3. induction l1 as [|a l1 IH]; intros [|b l2] [|c l3]; simpl;
    try congruence.
  rewrite !andb_true_iff. intros [H1 H2] [H3 H4]. split.
  - eapply num_eqb_trans; eassumption.
  - eapply IH; eassumption.
Qed.

Lemma py_eqb_refl a : py_eqb a a = true.
Proof.
  destruct a; simpl; auto using num_eqb_refl, nums_eqb_refl.
  now apply bool_decide_eq_true.
Qed.

Lemma py_eqb_sym a b : py_eqb a b = py_eqb b a.
Proof.
  destruct a, b; simpl; auto using num_eqb_sym, nums_eqb_sym.
  apply bool_decide_ext. split; congruence.
Qed.

Lemma py_eqb_trans a b c :
  py_eqb a b = true → py_eqb b c = true → py_eqb a c = true.
Proof.
  destruct a, b, c; simpl; try congruence;
    eauto using num_eqb_trans, nums_eqb_trans.
  rewrite !bool_decide_eq_true. congruence.
Qed.

Lemma did_eqb_refl a : did_eqb a a = true.
Proof. unfold did_eqb. now rewrite !py_eqb_refl. Qed.

Lemma did_eqb_sym a b : did_eqb a b = did_eqb b a.
Proof.
  unfold did_eqb.
  now rewrite (py_eqb_sym (name a)), (py_eqb_sym (wavelength a)),
    (py_eqb_sym (resolution a)), (py_eqb_sym (polarization a)),
    (py_eqb_sym (calibration a)).
Qed.

Lemma did_eqb_trans a b c :
  did_eqb a b = true → did_eqb b c = true → did_eqb a c = true.
Proof.
  unfold did_eqb. rewrite !andb_true_iff.
  intros [[[[? ?] ?] ?] ?] [[[[? ?] ?] ?] ?].
  repeat split; eapply py_eqb_trans; eassumption.
Qed.

(** ** Wavelength matching *)

Section wl_match_facts.
Import DatasetDict.

Lemma wl_match_same_type (a b : pyval) :
  type_of a = type_of b → _wl_match a b = OK (py_eqb a b).
Proof. intros H. unfold _wl_match. now rewrite bool_decide_eq_true_2. Qed.

Lemma wl_match_other_types (a b : pyval) :
  type_of a ≠ type_of b → is_seq3 a = false → is_seq3 b = false →
  _wl_match a b = Raise wl_error.
Proof.
  intros Ht Ha Hb. unfold _wl_match.
  now rewrite bool_decide_eq_false_2, Ha, Hb.
Qed.

(** A stored wavelength against a number: a boolean, or the
    [ValueError]. *)
Lemma wl_match_number (w : pyval) (n : pynum) :
  is_OK (_wl_match w (PNum n)) = true ∨ _wl_match w (PNum n) = Raise wl_error.
Proof.
  unfold _wl_match. case_bool_decide; [now left|].
  destruct (is_seq3 w) eqn:Hw.
  - left. destruct w as [| | |l|l]; try discriminate;
      simpl in Hw; apply bool_decide_eq_true in Hw;
      destruct l as [|x [|y [|z [|]]]]; try discriminate; simpl;
      unfold chain_le; simpl; destruct (num_leb x n); reflexivity.
  - now right.
Qed.
End wl_match_facts.

Section wl_match_claims.
Import DatasetDict.

(** C1, as the code has it: for two composite keys whose wavelengths are
    both length-3 tuples with unequal values, [_wl_match] returns [False];
    no error is raised, operands of one type are compared with [==]. *)
Theorem wl_match_unequal_intervals (a b : DatasetID) (la lb : list pynum) :
  wavelength a = PTuple la → wavelength b = PTuple lb →
  length la = 3 → length lb = 3 →
  py_eqb (wavelength a) (wavelength b) = false →
  _wl_match (wavelength a) (wavelength b) = OK false.
Proof.
  intros Ha Hb _ _ Hne. rewrite wl_match_same_type, Hne; [reflexivity|].
  now rewrite Ha, Hb.
Qed.

Lemma wl_match_unequal_intervals_witness :
  _wl_match (wavelength Sample.VIS006) (wavelength Sample.VIS008) = OK false.
Proof.
  apply (wl_match_unequal_intervals Sample.VIS006 Sample.VIS008
           [PFloat 0.56; PFloat 0.635; PFloat 0.71]
           [PFloat 0.74; PFloat 0.81; PFloat 0.88]);
    reflexivity.
Defined.

(** C1 as stated fails: the intervals of VIS006 and VIS008 are unequal
    length-3 tuples, and comparing them raises nothing. *)
Lemma wl_match_unequal_intervals_no_error :
  ¬ (∀ (a b : DatasetID) (la lb : list pynum),
       wavelength a = PTuple la → wavelength b = PTuple lb →
       length la = 3 → length lb = 3 →
       py_eqb (wavelength a) (wavelength b) = false →
       ∃ msg, _wl_match (wavelength a) (wavelength b) = Raise (ValueError msg)).
Proof.
  intros H.
  destruct (H Sample.VIS006 Sample.VIS008 _ _ eq_refl eq_refl eq_refl eq_refl
              eq_refl) as [msg Hmsg].
  vm_compute in Hmsg. discriminate Hmsg.
Qed.

(** C10: operands of different types, neither of them a length-3 list or
    tuple, make [_wl_match] raise [ValueError]; hence [get_keys] with a
    number raises [ValueError] as soon as one stored key has no
    wavelength, whatever the other keys and the optional filters are. *)
Theorem wl_match_mixed_types_raise :
  (∀ a b : pyval,
     type_of a ≠ type_of b → is_seq3 a = false → is_seq3 b = false →
     _wl_match a b = Raise wl_error)
  ∧ (∀ (V : Type) (R : list (DatasetID * V)) (q : pynum)
       (res pol cal : option selector) (k : DatasetID),
       k ∈ keys R → wavelength k = PNone →
       get_keys R (PNum q) res pol cal = Raise wl_error).
Proof.
  split; [exact wl_match_other_types|].
  intros V R q res pol cal k Hk Hwl. unfold get_keys. simpl.
  rewrite (filterM_raise _ _ k wl_error); [reflexivity | assumption | |].
  - rewrite Hwl. destruct q; reflexivity.
  - intros y _. apply wl_match_number.
Qed.

Lemma wl_match_mixed_types_raise_witness :
  _wl_match (PNum (PInt 1)) (PNum (PFloat 1)) = Raise wl_error
  ∧ _wl_match PNone (PNum (PFloat 0.6)) = Raise wl_error
  ∧ get_keys [(Sample.VIS006, tt); (Sample.cloud_mask, tt)]
      (PNum (PFloat 0.6)) None None None = Raise wl_error.
Proof.
  destruct wl_match_mixed_types_raise as [H1 H2]. split; [|split].
  - apply H1; [discriminate | reflexivity | reflexivity].
  - apply H1; [discriminate | reflexivity | reflexivity].
  - apply (H2 unit _ _ None None None Sample.cloud_mask); [|reflexivity].
    apply list_elem_of_In. simpl. right. left. reflexivity.
Defined.
End wl_match_claims.

(** ** The stable sort *)

Section sorted_by_facts.
Context {A K : Type} (leb : K → K → bool) (key : A → K).
Hypothesis leb_total : ∀ a b, leb a b = false → leb b a = true.
Hypothesis leb_trans : ∀ a b c, leb a b = true → leb b c = true → leb a c = true.

Local Abbreviation le_key := (λ x y, leb (key x) (key y) = true).

Lemma insert_by_perm (x : A) (l : list A) : insert_by leb key x l ≡ₚ x :: l.
Proof.
  induction l as [|y l IH]; simpl; [reflexivity|].
  destruct (leb (key x) (key y)); [reflexivity|].
  rewrite IH. apply Permutation_swap.
Qed.

Lemma sorted_by_perm (l : list A) : sorted_by leb key l ≡ₚ l.
Proof.
  induction l as [|x l IH]; simpl; [reflexivity|].
  unfold sorted_by in *. simpl. now rewrite insert_by_perm, IH.
Qed.

Lemma insert_by_sorted (x : A) (l : list A) :
  StronglySorted le_key l → StronglySorted le_key (insert_by leb key x l).
Proof.
  induction 1 as [|y l Hs IH Hy]; simpl.
  - constructor; constructor.
  - destruct (leb (key x) (key y)) eqn:E.
    + constructor; [now constructor|]. constructor; [assumption|].
      eapply Forall_impl; [exact Hy|]. simpl. intros z Hz.
      eapply leb_trans; eassumption.
    + constructor; [assumption|].
      rewrite insert_by_perm. constructor; [|assumption].
      now apply leb_total.
Qed.

Lemma sorted_by_sorted (l : list A) : StronglySorted le_key (sorted_by leb key l).
Proof.
  induction l as [|x l IH]; [constructor|].
  unfold sorted_by in *. simpl. now apply insert_by_sorted.
Qed.

(** Stability: the elements whose key is equivalent to [c] come out in the
    order they went in. *)
Lemma insert_by_stable (c : K) (x : A) (l : list A) :
  filter (key_is leb key c) (insert_by leb key x l)
  = filter (key_is leb key c) (x :: l).
Proof.
  induction l as [|y l IH]; simpl; [reflexivity|].
  destruct (leb (key x) (key y)) eqn:E; [reflexivity|].
  rewrite filter_cons, IH, !filter_cons.
  destruct (key_is leb key c y) eqn:Hy, (key_is leb key c x) eqn:Hx; simpl;
    try reflexivity.
  exfalso. unfold key_is in *.
  apply andb_true_iff in Hy as [_ Hy]. apply andb_true_iff in Hx as [Hx _].
  rewrite (leb_trans _ _ _ Hx Hy) in E. discriminate.
Qed.

Lemma sorted_by_stable (c : K) (l : list A) :
  filter (key_is leb key c) (sorted_by leb key l) = filter (key_is leb key c) l.
Proof.
  induction l as [|x l IH]; [reflexivity|].
  unfold sorted_by in *. simpl.
  now rewrite insert_by_stable, !filter_cons, IH.
Qed.
End sorted_by_facts.

Lemma StronglySorted_weaken {A} (R S : A → A → Prop) (l : list A) :
  (∀ x y, R x y → S x y) → StronglySorted R l → StronglySorted S l.
Proof.
  intros HRS. induction 1 as [|x l Hs IH Hx]; constructor; [assumption|].
  eapply Forall_impl; [exact Hx|]. intros y. apply HRS.
Qed.

Lemma Zleb_total (a b : Z) : (a <=? b)%Z = false → (b <=? a)%Z = true.
Proof. lia. Qed.

Lemma Zleb_trans (a b c : Z) :
  (a <=? b)%Z = true → (b <=? c)%Z = true → (a <=? c)%Z = true.
Proof. lia. Qed.

(** ** The granule filter *)

Section swathsegment_claims.
Import ConfigBasedReader.
Context {Area Ring MD : Type} (intersects : Area → Ring → bool).
Local Abbreviation handle := (GenericFileReader.t Ring MD).
Local Abbreviation fstart := (GenericFileReader.start_time (Ring:=Ring) (MD:=MD)).
Local Abbreviation fend := (GenericFileReader.end_time (Ring:=Ring) (MD:=MD)).

(** The test of the interval mode. *)
Local Abbreviation in_window st et :=
  (λ fr : handle, (st ≤ fstart fr ≤ et)%Z ∨ (st ≤ fend fr ≤ et)%Z).

Lemma selected_interval (self : options) (st et : Z) (fr : handle) :
  area self = None → start_time self = Some st → end_time self = Some et →
  selected intersects self fr = OK (bool_decide (in_window st et fr)).
Proof.
  intros Ha Hs He. unfold selected. rewrite Ha, Hs, He. f_equal.
  case_bool_decide; lia.
Qed.

(** C3: in time-interval mode the filter keeps a granule exactly when its
    start time or its end time lies in the closed interval, and hands the
    kept granules back sorted by start time, granules of equal start time
    in their original order. *)
Theorem get_swathsegment_interval (self : options) (st et : Z)
    (file_readers : list handle) :
  area self = None → start_time self = Some st → end_time self = Some et →
  ∃ segment,
    _get_swathsegment intersects self file_readers = OK segment
    ∧ segment ≡ₚ filter (in_window st et) file_readers
    ∧ StronglySorted (λ x y, (fstart x ≤ fstart y)%Z) segment
    ∧ ∀ t : Z, filter (λ x, fstart x = t) segment
               = filter (λ x, fstart x = t)
                   (filter (in_window st et) file_readers).
Proof.
  intros Ha Hs He. unfold _get_swathsegment.
  rewrite (filterM_pure _ (λ fr, bool_decide (in_window st et fr)))
    by (intros; now apply selected_interval).
  simpl.
  assert (Hf : filter (λ fr : handle, bool_decide (in_window st et fr)) file_readers
               = filter (in_window st et) file_readers).
  { apply list_filter_iff. intros x. apply bool_decide_spec. }
  rewrite Hf. eexists. split; [reflexivity|]. split; [|split].
  - apply sorted_by_perm.
  - eapply StronglySorted_weaken;
      [|apply (sorted_by_sorted Z.leb fstart Zleb_total Zleb_trans)].
    intros x y. simpl. lia.
  - intros t.
    assert (Hk : ∀ x : handle, fstart x = t ↔ key_is Z.leb fstart t x).
    { intros x. unfold key_is. rewrite andb_True, !Is_true_true. lia. }
    rewrite !(list_filter_iff _ _ _ Hk).
    apply sorted_by_stable, Zleb_trans.
Qed.
End swathsegment_claims.

Section swathsegment_samples.
Import ConfigBasedReader.

Lemma get_swathsegment_interval_witness :
  ∃ segment,
    _get_swathsegment Sample.no_area Sample.window_12_18
      [Sample.g1; Sample.g2; Sample.g3] = OK segment
    ∧ segment ≡ₚ filter
        (λ fr, (12 ≤ GenericFileReader.start_time fr ≤ 18)%Z
               ∨ (12 ≤ GenericFileReader.end_time fr ≤ 18)%Z)
        [Sample.g1; Sample.g2; Sample.g3]
    ∧ StronglySorted
        (λ x y, (GenericFileReader.start_time x
                 ≤ GenericFileReader.start_time y)%Z) segment
    ∧ ∀ t : Z,
        filter (λ x, GenericFileReader.start_time x = t) segment
        = filter (λ x, GenericFileReader.start_time x = t)
            (filter
               (λ fr, (12 ≤ GenericFileReader.start_time fr ≤ 18)%Z
                      ∨ (12 ≤ GenericFileReader.end_time fr ≤ 18)%Z)
               [Sample.g1; Sample.g2; Sample.g3]).
Proof.
  apply (get_swathsegment_interval Sample.no_area Sample.window_12_18 12 18);
    reflexivity.
Defined.

(** C4, as the code has it: of three granules covering (10,20), (15,25)
    and (30,40), the window (12,18) keeps the second one only. The first
    one starts before the window and ends after it, so neither of its
    times lies in the window. *)
Theorem get_swathsegment_window_12_18 {Area Ring MD : Type}
    (intersects : Area → Ring → bool) (self : options)
    (a b c : GenericFileReader.t Ring MD) :
  area self = None → start_time self = Some 12%Z → end_time self = Some 18%Z →
  Sample.coverage a = (10, 20)%Z →
  Sample.coverage b = (15, 25)%Z →
  Sample.coverage c = (30, 40)%Z →
  _get_swathsegment intersects self [a; b; c] = OK [b].
Proof.
  intros Ha Hs He [= Ha1 Ha2] [= Hb1 Hb2] [= Hc1 Hc2].
  unfold _get_swathsegment. simpl. unfold selected.
  rewrite Ha, Hs, He, Ha1, Ha2, Hb1, Hb2, Hc1, Hc2. reflexivity.
Qed.

Lemma get_swathsegment_window_12_18_witness :
  _get_swathsegment Sample.no_area Sample.window_12_18
    [Sample.g1; Sample.g2; Sample.g3] = OK [Sample.g2].
Proof.
  apply get_swathsegment_window_12_18; reflexivity.
Defined.

(** C4 as stated fails: the filter does not hand back the granules
    covering (10,20) and (15,25). *)
Lemma get_swathsegment_window_12_18_not_first_two :
  ¬ ∃ segment,
      _get_swathsegment Sample.no_area Sample.window_12_18
        [Sample.g1; Sample.g2; Sample.g3] = OK segment
      ∧ Sample.coverage <$> segment = [(10, 20)%Z; (15, 25)%Z].
Proof.
  intros (segment & Hseg & Hcov).
  vm_compute in Hseg. injection Hseg as <-. discriminate Hcov.
Qed.
End swathsegment_samples.

(** ** Joining metadata across granules *)

Section load_metadata_claims.
Import MultiFileReader.
Context {Ring MD : Type}.
Context (np_concatenate : list MD → Z → outcome MD) (singleton : MD → MD).

Lemma call_not_ValueError {A} (o : outcome A) : ¬ is_ValueError (call o).
Proof. intros [msg H]. destruct o; discriminate H. Qed.

Lemma bind_not_ValueError {A B} (m : result A) (f : A → result B) :
  ¬ is_ValueError m → (∀ a, ¬ is_ValueError (f a)) → ¬ is_ValueError (m ≫= f).
Proof.
  intros Hm Hf [msg H]. destruct m as [a|e]; simpl in H.
  - apply (Hf a). now exists msg.
  - apply Hm. injection H as ->. now exists msg.
Qed.

Lemma mapM_not_ValueError {A B} (f : A → result B) (l : list A) :
  (∀ x, ¬ is_ValueError (f x)) → ¬ is_ValueError (mapM_result f l).
Proof.
  intros Hf. induction l as [|x l IH]; simpl.
  - intros [msg H]. discriminate H.
  - apply bind_not_ValueError; [apply Hf|]. intros y.
    apply bind_not_ValueError; [apply IH|]. intros r [msg H]. discriminate H.
Qed.

End load_metadata_claims.

(** ** Discovery of files by time *)

Section get_filenames_claims.
Import ReaderFinder.
Context (path_join : string → string → string)
        (globify : string → gmap string pyval → string)
        (iglob : string → list string)
        (parse : string → string → option metadata).

(** When the scan runs to its end, every configured pattern has been
    handed to [glob.iglob]. *)
Lemma scan_globs_every_pattern info base_dir reader_start reader_end patterns
    globbed found :
  scan path_join globify iglob parse info base_dir reader_start reader_end
    patterns = (globbed, OK found) →
  length globbed = length patterns.
Proof.
  revert globbed found. induction patterns as [|p ps IH]; simpl;
    intros globbed found H.
  - now injection H as <- <-.
  - destruct (filterM _ _) as [fs|e]; [|discriminate H].
    destruct (scan _ _ _ _ _ _ _ _ ps) as [tr r] eqn:E.
    destruct r as [more|e]; simpl in H; [|discriminate H].
    injection H as <- <-. simpl. f_equal. eapply IH. reflexivity.
Qed.

(** C9: with the start time missing ([None]) in the reader information,
    [get_filenames] raises its [ValueError] and no pattern has been
    globbed; and it never returns file names (not even none) unless a
    start time was there. *)
Theorem get_filenames_requires_start_time (self_info : gmap string pyval)
    (ri : reader_info) (base_dir : option string) :
  (start_time ri = Some None →
   get_filenames path_join globify iglob parse self_info ri base_dir
   = ([], Raise (ValueError
        "'start_time' keyword required with 'sensor' and 'reader' keyword arguments")))
  ∧ (∀ globbed filenames,
       get_filenames path_join globify iglob parse self_info ri base_dir
       = (globbed, OK filenames) →
       ∃ t, start_time ri = Some (Some t)).
Proof.
  unfold get_filenames. split.
  - intros ->. reflexivity.
  - intros globbed filenames H.
    destruct (start_time ri) as [[t|]|]; [now exists t | |];
      injection H as _ H; discriminate H.
Qed.
End get_filenames_claims.

Section discovery_samples.
Import ReaderFinder MultiFileReader.

Example get_filenames_in_window :
  get_filenames Sample.path_join Sample.globify Sample.iglob Sample.parse
    Sample.request Sample.reader_5_30 None
  = (["*.nc"], OK ["a_0010.nc"; "b_0020.nc"]).
Proof. vm_compute. reflexivity. Qed.

Lemma get_filenames_requires_start_time_witness :
  get_filenames Sample.path_join Sample.globify Sample.iglob Sample.parse
    Sample.request Sample.reader_without_start None
  = ([], Raise (ValueError
       "'start_time' keyword required with 'sensor' and 'reader' keyword arguments"))
  ∧ ∃ t, start_time Sample.reader_5_30 = Some (Some t).
Proof.
  split.
  - apply (get_filenames_requires_start_time Sample.path_join Sample.globify
             Sample.iglob Sample.parse). reflexivity.
  - apply (get_filenames_requires_start_time Sample.path_join Sample.globify
             Sample.iglob Sample.parse Sample.request Sample.reader_5_30 None)
      with (globbed := ["*.nc"]) (filenames := ["a_0010.nc"; "b_0020.nc"]).
    vm_compute. reflexivity.
Defined.

End discovery_samples.

(** ** Concatenation of granules *)

Lemma mapM_result_Forall2 {A B} (f : A → result B) (l : list A) (l' : list B) :
  Forall2 (λ x y, f x = OK y) l l' → mapM_result f l = OK l'.
Proof.
  induction 1 as [|x y l l' Hxy _ IH]; simpl; [reflexivity|].
  now rewrite Hxy, IH.
Qed.

Section get_swath_data_claims.
Import MultiFileReader.
Context {Ring MD : Type}.
Local Abbreviation handle := (GenericFileReader.t Ring MD).

(** The granule accepts the rows of width [c] that are meant for it. *)
Local Abbreviation fills item c :=
  (λ (fr : handle) (sh : list nat),
     GenericFileReader.get_shape fr item = Returned sh
     ∧ sh ≠ []
     ∧ GenericFileReader.get_swath_data fr item [hd 0 sh; c] = Returned ()).

Lemma slice_rows_exact (n idx r : nat) :
  (idx + r ≤ n)%nat → slice_rows n idx (idx + r) = r.
Proof. unfold slice_rows. lia. Qed.

Local Arguments slice_rows : simpl never.

Lemma shape_first_all (shapes : list (list nat)) :
  Forall (λ sh, sh ≠ []) shapes →
  mapM_result shape_first shapes = OK (hd 0 <$> shapes).
Proof.
  induction 1 as [|[|r sh] shapes Hne _ IH]; simpl; [reflexivity|congruence|].
  now rewrite IH.
Qed.

Lemma fill_row_slices (item : string) (c n : nat) (readers : list handle)
    (shapes : list (list nat)) (idx : nat) :
  Forall2 (fills item c) readers shapes →
  (idx + foldr Nat.add 0 (hd 0 <$> shapes) ≤ n)%nat →
  fill item [n; c] idx (zip shapes readers)
  = OK (row_slices idx (hd 0 <$> shapes)).
Proof.
  intros H. revert idx.
  induction H as [|fr sh readers shapes (Hsh & Hne & Hfill) _ IH];
    intros idx Hle; [reflexivity|].
  destruct sh as [|r sh']; [congruence|]. simpl in *.
  change (list_fmap (list nat) nat (hd 0) shapes) with (hd 0 <$> shapes) in *.
  rewrite slice_rows_exact by lia.
  rewrite Hfill. simpl. rewrite IH by lia. reflexivity.
Qed.

(** Whatever the shapes, [get_swath_data] has no error of its own for
    them: once the item is known and every granule has a shape, the first
    one of two dimensions or more, an error can only come out of a
    per-file reader. *)
Lemma fill_raises_external (item : string) (output_shape : list nat)
    (granules : list (list nat * handle)) (idx : nat) (e : exn) :
  Forall (λ g, g.1 ≠ []) granules →
  fill item output_shape idx granules = Raise e → ∃ who, e = External who.
Proof.
  intros H. revert idx.
  induction H as [|[sh fr] granules Hne _ IH]; intros idx; [discriminate|].
  destruct sh as [|r sh]; [now destruct Hne|]. simpl.
  destruct (GenericFileReader.get_swath_data fr item _) as [[]|who]; simpl;
    [|intros [= <-]; eauto].
  destruct (fill item output_shape (idx + r) granules) eqn:E; simpl;
    [discriminate|].
  intros [= <-]. now apply (IH (idx + r)).
Qed.

Lemma get_swath_data_raises_external (self : t (Ring:=Ring) (MD:=MD))
    (item dtype : string) (first : list nat) (others : list (list nat))
    (e : exn) :
  file_keys self !! item = Some dtype →
  Forall2 (λ fr sh, GenericFileReader.get_shape fr item = Returned sh ∧ sh ≠ [])
    (file_readers self) (first :: others) →
  (2 ≤ length first)%nat →
  get_swath_data self item None = Raise e → ∃ who, e = External who.
Proof.
  intros Hkey Hall Hlen. unfold get_swath_data. rewrite Hkey.
  rewrite (mapM_result_Forall2 _ _ (first :: others)).
  2:{ eapply Forall2_impl; [exact Hall|]. intros fr sh (-> & _). reflexivity. }
  unfold mbind at 1, result_bind at 1.
  rewrite shape_first_all.
  2:{ eapply Forall2_Forall_r; [exact Hall|].
      apply Forall_forall. intros sh _ fr (_ & Hne). exact Hne. }
  unfold mbind at 1, result_bind at 1.
  rewrite bool_decide_eq_false_2 by lia.
  destruct (last first) as [c|] eqn:Hlast;
    [|destruct first; [simpl in Hlen; lia | now apply last_None in Hlast]].
  unfold shape_last. rewrite Hlast.
  unfold mbind at 1, result_bind at 1. unfold mbind at 1, result_bind at 1.
  destruct (fill _ _ _ _) eqn:E; [discriminate|]. intros [= <-].
  apply fill_raises_external in E; [exact E|].
  apply Forall_forall. intros [sh fr] Hin. simpl.
  apply elem_of_zip_l in Hin.
  eapply Forall2_Forall_r in Hall; [|apply Forall_forall; intros ? _ ? (_ & H); exact H].
  eapply Forall_forall in Hall; eassumption.
Qed.

(** C7, as the code has it: for a non-empty sequence of granules, the
    first of native shape (.., c) with two dimensions or more, whose
    readers fill the rows of width [c] handed to them, [get_swath_data]
    returns a masked array of shape (sum of the leading dimensions, c),
    filled in granule order by consecutive row slices. The width is that
    of the first granule; that the other granules have it too is not
    checked here. *)
Theorem get_swath_data_shape (self : t (Ring:=Ring) (MD:=MD))
    (item dtype : string) (first : list nat) (others : list (list nat))
    (c : nat) :
  file_keys self !! item = Some dtype →
  Forall2 (fills item c) (file_readers self) (first :: others) →
  (2 ≤ length first)%nat → last first = Some c →
  get_swath_data self item None
  = OK {| ma_shape := [foldr Nat.add 0 (hd 0 <$> first :: others); c];
          ma_dtype := dtype;
          ma_filled := row_slices 0 (hd 0 <$> first :: others) |}.
Proof.
  intros Hkey Hall Hlen Hlast. unfold get_swath_data. rewrite Hkey.
  rewrite (mapM_result_Forall2 _ _ (first :: others)).
  2:{ eapply Forall2_impl; [exact Hall|]. intros fr sh (-> & _). reflexivity. }
  unfold mbind at 1, result_bind at 1.
  rewrite shape_first_all.
  2:{ eapply Forall2_Forall_r; [exact Hall|].
      apply Forall_forall. intros sh _ fr (_ & Hne & _). exact Hne. }
  unfold mbind at 1, result_bind at 1.
  rewrite bool_decide_eq_false_2 by lia.
  unfold shape_last. rewrite Hlast.
  unfold mbind at 1, result_bind at 1. unfold mbind at 1, result_bind at 1.
  rewrite (fill_row_slices item c _ _ (first :: others) 0 Hall) by (simpl; lia).
  reflexivity.
Qed.
End get_swath_data_claims.

Section get_swath_data_samples.
Import MultiFileReader.

Lemma get_swath_data_shape_witness :
  get_swath_data (Sample.swath [Sample.g1; Sample.g2]) "radiance" None
  = OK {| ma_shape := [5; 5]; ma_dtype := "float32";
          ma_filled := [(0, 3); (3, 5)] |}.
Proof.
  apply (get_swath_data_shape (Sample.swath [Sample.g1; Sample.g2])
           "radiance" "float32" [3; 5] [[2; 5]] 5).
  - reflexivity.
  - repeat constructor; discriminate.
  - simpl. lia.
  - reflexivity.
Defined.

(** C7 as stated fails: granules of shapes (3,5) and (2,6) disagree on
    the trailing dimension, and with readers that fill what they are
    handed [get_swath_data] returns an array of shape (5,5). *)
Lemma get_swath_data_no_shape_check :
  ¬ (∀ (self : t (Ring:=unit) (MD:=Z)) (item : string) fr1 fr2 sh1 sh2,
       file_readers self = [fr1; fr2] →
       GenericFileReader.get_shape fr1 item = Returned sh1 →
       GenericFileReader.get_shape fr2 item = Returned sh2 →
       last sh1 ≠ last sh2 →
       ∃ e, get_swath_data self item None = Raise e).
Proof.
  intros H.
  destruct (H (Sample.swath [Sample.h1; Sample.h2]) "radiance"
              Sample.h1 Sample.h2 [3; 5] [2; 6] eq_refl eq_refl eq_refl)
    as [e He].
  - discriminate.
  - vm_compute in He. discriminate He.
Qed.

Example get_swath_data_lenient :
  get_swath_data (Sample.swath [Sample.h1; Sample.h2]) "radiance" None
  = OK {| ma_shape := [5; 5]; ma_dtype := "float32";
          ma_filled := [(0, 3); (3, 5)] |}.
Proof. vm_compute. reflexivity. Qed.

(** The error on a mismatch is that of the per-file reader, if it has
    one. *)
Example get_swath_data_strict :
  get_swath_data (Sample.swath [Sample.s1; Sample.s2]) "radiance" None
  = Raise (External "could not broadcast input array").
Proof. vm_compute. reflexivity. Qed.
End get_swath_data_samples.

(** ** More on the stable sort: maps, filters and the head *)

Section sorted_by_more.
Context {A K : Type} (leb : K → K → bool) (key : A → K).
Hypothesis leb_total : ∀ a b, leb a b = false → leb b a = true.
Hypothesis leb_trans : ∀ a b c, leb a b = true → leb b c = true → leb a c = true.

Lemma sorted_by_fmap {B} (f : B → A) (l : list B) :
  sorted_by leb key (f <$> l) = f <$> sorted_by leb (key ∘ f) l.
Proof.
  induction l as [|x l IH]; [reflexivity|].
  rewrite fmap_cons. unfold sorted_by in *. simpl. rewrite IH.
  generalize (foldr (insert_by leb (key ∘ f)) [] l). clear.
  intros l. induction l as [|y l IH]; [reflexivity|].
  simpl. destruct (leb (key (f x)) (key (f y))); [reflexivity|].
  now rewrite !fmap_cons, <- IH.
Qed.

Lemma leb_refl a : leb a a = true.
Proof.
  destruct (leb a a) eqn:E; [reflexivity|].
  pose proof (leb_total _ _ E). congruence.
Qed.

Lemma filter_insert_by (p : A → bool) (x : A) (l : list A) :
  StronglySorted (λ a b, leb (key a) (key b) = true) l →
  filter p (insert_by leb key x l)
  = if p x then insert_by leb key x (filter p l) else filter p l.
Proof.
  induction 1 as [|y l Hs IH Hy]; simpl.
  - rewrite filter_cons. destruct (p x); reflexivity.
  - destruct (leb (key x) (key y)) eqn:E.
    + rewrite !filter_cons. destruct (p x) eqn:Hx, (p y) eqn:Hpy; simpl;
        rewrite ?E; try reflexivity.
      clear IH. induction l as [|z l IHl]; [reflexivity|].
      rewrite filter_cons. inversion Hy as [|? ? Hyz Hy']; subst.
      inversion Hs as [|? ? Hs' Hz]; subst.
      destruct (p z); simpl.
      * now rewrite (leb_trans _ _ _ E Hyz).
      * now apply IHl.
    + rewrite !filter_cons, IH.
      destruct (p x) eqn:Hx, (p y) eqn:Hpy; simpl; rewrite ?E; reflexivity.
Qed.

Lemma filter_sorted_by (p : A → bool) (l : list A) :
  filter p (sorted_by leb key l) = sorted_by leb key (filter p l).
Proof.
  induction l as [|x l IH]; [reflexivity|].
  rewrite filter_cons. unfold sorted_by in *. simpl.
  rewrite filter_insert_by by apply (sorted_by_sorted leb key leb_total leb_trans).
  rewrite IH. destruct (p x); reflexivity.
Qed.

(** The head of the sorted list is the first element of least key. *)
Lemma sorted_by_head (l : list A) (k : A) (rest : list A) :
  sorted_by leb key l = k :: rest →
  ∃ l1 l2, l = (l1 ++ k :: l2)%list
    ∧ (∀ y, y ∈ l1 → leb (key y) (key k) = false)
    ∧ (∀ y, y ∈ l2 → leb (key k) (key y) = true).
Proof.
  revert k rest. induction l as [|x l IH]; intros k rest; [discriminate|].
  unfold sorted_by in *. simpl.
  destruct (foldr (insert_by leb key) [] l) as [|m tl] eqn:E; simpl.
  - intros [= <- <-]. exists [], l. split; [reflexivity|]. split.
    + intros y Hy. inversion Hy.
    + assert (Hl : l = []).
      { apply Permutation_nil. rewrite <- E. apply (sorted_by_perm leb key). }
      subst l. intros y Hy. inversion Hy.
  - destruct (IH m tl eq_refl) as (l1 & l2 & -> & H1 & H2).
    destruct (leb (key x) (key m)) eqn:Hxm.
    + intros [= <- <-]. exists [], (l1 ++ m :: l2)%list.
      split; [reflexivity|]. split; [intros y Hy; inversion Hy|].
      intros y Hy. apply (leb_trans _ _ _ Hxm).
      apply elem_of_app in Hy as [Hy|Hy]; [now apply leb_total, H1|].
      apply elem_of_cons in Hy as [->|Hy]; [apply leb_refl | now apply H2].
    + intros [= <- <-]. exists (x :: l1), l2. split; [reflexivity|]. split.
      * intros y Hy. apply elem_of_cons in Hy as [->|Hy]; [assumption | now apply H1].
      * assumption.
Qed.
End sorted_by_more.

Lemma num_leb_total (a b : pynum) : num_leb a b = false → num_leb b a = true.
Proof.
  unfold num_leb. intros H. apply Qle_bool_iff.
  destruct (Qlt_le_dec (num_val b) (num_val a)) as [Hlt|Hle].
  - now apply Qlt_le_weak.
  - apply Qle_bool_iff in Hle. congruence.
Qed.

Lemma num_leb_trans (a b c : pynum) :
  num_leb a b = true → num_leb b c = true → num_leb a c = true.
Proof.
  unfold num_leb. rewrite !Qle_bool_iff. apply Qle_trans.
Qed.

Lemma num_leb_false (a b : pynum) :
  num_leb a b = false ↔ (num_val b < num_val a)%Q.
Proof.
  unfold num_leb. split.
  - intros H. apply Qnot_le_lt. intros Hle. apply Qle_bool_iff in Hle. congruence.
  - intros Hlt. destruct (Qle_bool _ _) eqn:E; [|reflexivity].
    apply Qle_bool_iff in E. exfalso. eapply Qlt_not_le; eassumption.
Qed.

(** ** Lookup by wavelength *)

Section lookup_by_number.
Context {V : Type} (R : list (DatasetID * V)) (q : pynum).

Lemma wl_match_interval (k : DatasetID) (lo c hi : pynum) :
  wavelength k = PTuple [lo; c; hi] →
  DatasetDict._wl_match (wavelength k) (PNum q) = OK (in_interval q k).
Proof.
  intros H. unfold DatasetDict._wl_match, in_interval. rewrite H.
  rewrite bool_decide_eq_false_2 by (destruct q; discriminate).
  simpl. unfold chain_le. simpl. destruct (num_leb lo q); reflexivity.
Qed.

Lemma first_wl_match_head (ks : list DatasetID) :
  (∀ k, k ∈ ks → interval_or_unset k) →
  DatasetDict.first_wl_match ks (PNum q) = OK (head (filter (in_interval q) ks)).
Proof.
  induction ks as [|k ks IH]; intros Hwf; [reflexivity|].
  simpl. rewrite filter_cons.
  specialize (IH (λ k' Hk', Hwf k' (list_elem_of_further _ _ _ Hk'))).
  destruct (Hwf k) as [Hk|(lo & c & hi & Hk)]; [constructor| |].
  - assert (Hin : in_interval q k = false)
      by (unfold in_interval; now rewrite Hk).
    rewrite Hin, Hk. exact IH.
  - rewrite (wl_match_interval k lo c hi Hk).
    assert (Hset : is_None (wavelength k) = false) by now rewrite Hk.
    rewrite Hset. simpl.
    destruct (in_interval q k); [reflexivity | exact IH].
Qed.

Lemma wl_contains_interval (k : DatasetID) :
  interval_or_unset k → Reader.wl_contains (PNum q) k = OK (in_interval q k).
Proof.
  intros [Hk|(lo & c & hi & Hk)]; unfold Reader.wl_contains, in_interval;
    rewrite Hk; [reflexivity|].
  simpl. unfold chain_le. simpl. destruct (num_leb lo q); reflexivity.
Qed.

Lemma center_distance_interval (k : DatasetID) :
  in_interval q k = true →
  Reader.center_distance (PNum q) k = OK (distance q k).
Proof.
  unfold in_interval, Reader.center_distance, distance.
  destruct (wavelength k) as [| | |[|lo [|c [|hi [|]]]]|]; try discriminate.
  reflexivity.
Qed.

(** The sort key is the distance from the center of the interval. *)
Lemma distance_value (k : DatasetID) (lo c hi : pynum) :
  wavelength k = PTuple [lo; c; hi] →
  (num_val (distance q k) == Qabs (num_val c - num_val q))%Q.
Proof.
  intros H. unfold distance. rewrite H.
  destruct c as [x|x], q as [y|y]; try reflexivity.
  change (inject_Z (Z.abs (x - y)) == Qabs (inject_Z x - inject_Z y))%Q.
  unfold Qminus. rewrite <- inject_Z_opp, <- inject_Z_plus. reflexivity.
Qed.

Lemma sorted_by_distance_interval (ds : list DatasetID) :
  (∀ k, k ∈ ds → in_interval q k = true) →
  Reader.sorted_by_distance (PNum q) ds = OK (sorted_by num_leb (distance q) ds).
Proof.
  intros Hds. unfold Reader.sorted_by_distance.
  rewrite (mapM_result_Forall2 _ _ ((λ ch, (distance q ch, ch)) <$> ds)).
  - simpl. f_equal.
    rewrite (sorted_by_fmap num_leb fst (λ ch, (distance q ch, ch))).
    rewrite <- list_fmap_compose. apply list_fmap_id.
  - apply Forall2_fmap_r, Forall_Forall2_diag, Forall_forall.
    intros k Hk. now rewrite center_distance_interval by now apply Hds.
Qed.

Lemma narrow_defaults (ds : list DatasetID) :
  Reader.narrow ds None None None
  = match filter default_calibrated ds with
    | [] => Raise (KeyError "Can't find any projectable matching")
    | l => OK l
    end.
Proof. unfold Reader.narrow. simpl. now destruct (filter _ ds). Qed.

End lookup_by_number.

Section lookup_by_number_samples.


End lookup_by_number_samples.

(** ** The built-in dict *)

Lemma filter_none {A} (p : A → bool) (l : list A) :
  (∀ x, x ∈ l → p x = false) → filter p l = [].
Proof.
  induction l as [|x l IH]; intros H; [reflexivity|].
  rewrite filter_cons, (H x) by constructor. simpl.
  apply IH. intros y Hy. apply H. now constructor.
Qed.

Section dict_facts.
Context {V : Type}.
Implicit Types (R : list (DatasetID * V)) (k : DatasetID) (v : V).

Lemma keys_store R k v :
  keys (dict_store R k v) = keys R
  ∨ keys (dict_store R k v) = (keys R ++ [k])%list.
Proof.
  induction R as [|[k' v'] R IH]; simpl; [now right|].
  destruct (did_eqb k' k); simpl; [now left|].
  destruct IH as [IH|IH]; unfold keys in *; rewrite IH; auto.
Qed.

Lemma keys_store_known R k v :
  (∃ k', k' ∈ keys R ∧ did_eqb k' k = true) →
  keys (dict_store R k v) = keys R.
Proof.
  induction R as [|[k' v'] R IH]; simpl; intros (k0 & Hin & Heq).
  - inversion Hin.
  - destruct (did_eqb k' k) eqn:E; simpl; [reflexivity|].
    apply elem_of_cons in Hin as [->|Hin]; [congruence|].
    unfold keys in *. rewrite IH; [reflexivity|]. eauto.
Qed.

Lemma keys_store_new R k v :
  (∀ k', k' ∈ keys R → did_eqb k' k = false) →
  keys (dict_store R k v) = (keys R ++ [k])%list.
Proof.
  induction R as [|[k' v'] R IH]; simpl; intros Hnew; [reflexivity|].
  rewrite (Hnew k') by constructor. simpl.
  unfold keys in *. rewrite IH; [reflexivity|].
  intros k0 Hk0. apply Hnew. now constructor.
Qed.

Lemma elem_of_keys_store R k v k' :
  k' ∈ keys (dict_store R k v) → k' ∈ keys R ∨ k' = k.
Proof.
  destruct (keys_store R k v) as [->| ->]; [now left|].
  rewrite elem_of_app, list_elem_of_singleton. tauto.
Qed.

(** After [R[k] = v] exactly one stored key equals [k], and it holds [v]. *)
Lemma store_lookup R k v :
  dict_wf R = true → did_hashable k = true →
  ∃ k0, filter (λ k', did_eqb k' k) (keys (dict_store R k v)) = [k0]
        ∧ dict_lookup (dict_store R k v) k0 = Some v
        ∧ did_hashable k0 = true.
Proof.
  intros Hwf Hk. induction R as [|[k1 v1] R IH]; simpl.
  - exists k. rewrite filter_cons, did_eqb_refl. simpl. auto.
  - simpl in Hwf. apply andb_true_iff in Hwf as [Hwf1 Hwf].
    apply andb_true_iff in Hwf1 as [Hh1 Hfresh].
    rewrite forallb_forall in Hfresh.
    destruct (did_eqb k1 k) eqn:E; simpl.
    + exists k1. rewrite filter_cons, E, did_eqb_refl. simpl.
      split; [|now split]. f_equal. apply filter_none.
      intros k' Hk'. destruct (did_eqb k' k) eqn:E'; [|reflexivity].
      apply list_elem_of_In, Hfresh, negb_true_iff in Hk'.
      rewrite did_eqb_sym in E'.
      now rewrite (did_eqb_trans _ _ _ E E') in Hk'.
    + destruct (IH Hwf) as (k0 & Hf & Hl & Hh). exists k0.
      rewrite filter_cons, E. simpl. split; [exact Hf|]. split; [|exact Hh].
      destruct (did_eqb k1 k0) eqn:E0; [|exact Hl].
      assert (Hk0 : k0 ∈ filter (λ k', did_eqb k' k) (keys (dict_store R k v)))
        by (rewrite Hf; constructor).
      apply list_elem_of_filter in Hk0 as [Hk0 _]. apply Is_true_true in Hk0.
      now rewrite (did_eqb_trans _ _ _ E0 Hk0) in E.
Qed.
End dict_facts.

(** ** Assignment and lookup in the registry *)

Section registry_facts.
Import DatasetDict.

(** The test of one round of [get_keys_by_datasetid]. *)
Local Abbreviation agrees field did :=
  (λ k : DatasetID, negb (is_None (field k)) && py_eqb (field k) (field did)).

Lemma filter_field_plain (field : DatasetID → pyval) (did : DatasetID)
    (ks : list DatasetID) :
  is_None (field did) = false →
  filter_field false field did ks = OK (filter (agrees field did) ks).
Proof. intros H. unfold filter_field. now rewrite H. Qed.

Lemma filter_field_wavelength (did : DatasetID) (ks : list DatasetID) :
  is_None (wavelength did) = false →
  (∀ k, k ∈ ks → wavelength k = PNone
                 ∨ type_of (wavelength k) = type_of (wavelength did)) →
  filter_field true wavelength did ks = OK (filter (agrees wavelength did) ks).
Proof.
  intros H Hty. unfold filter_field. rewrite H. apply filterM_pure.
  intros k Hk. destruct (Hty k Hk) as [Hw|Hw].
  - now rewrite Hw.
  - rewrite (wl_match_same_type _ _ Hw). now destruct (is_None (wavelength k)).
Qed.

Lemma agrees_full (field : DatasetID → pyval) (did k : DatasetID) :
  is_None (field did) = false →
  agrees field did k = py_eqb (field k) (field did).
Proof.
  intros H. cbv beta. destruct (field k); try reflexivity.
  destruct (field did); [discriminate H | reflexivity..].
Qed.

Lemma get_keys_by_datasetid_full {V} (R : list (DatasetID * V)) (did : DatasetID) :
  full_key did = true →
  (∀ k, k ∈ keys R → py_eqb (name k) (name did) = true →
        wavelength k = PNone
        ∨ type_of (wavelength k) = type_of (wavelength did)) →
  get_keys_by_datasetid R did = OK (filter (λ k, did_eqb k did) (keys R)).
Proof.
  unfold full_key. rewrite !andb_true_iff, !negb_true_iff.
  intros [[[[Hn Hw] Hr] Hp] Hc] Hty. unfold get_keys_by_datasetid.
  rewrite (filter_field_plain name) by assumption. simpl.
  rewrite filter_field_wavelength; [|assumption|].
  2:{ intros k Hk. apply list_elem_of_filter in Hk as [Hk Hin].
      apply Hty; [assumption|]. rewrite agrees_full in Hk by assumption.
      now apply Is_true_true. }
  simpl. rewrite (filter_field_plain resolution) by assumption. simpl.
  rewrite (filter_field_plain polarization) by assumption. simpl.
  rewrite (filter_field_plain calibration) by assumption. f_equal.
  rewrite !list_filter_filter. apply list_filter_iff. intros k.
  rewrite !agrees_full by assumption. unfold did_eqb.
  rewrite !andb_True. tauto.
Qed.

End registry_facts.

Section registry_samples.
Import DatasetDict.



(** And a value whose metadata carry another [wavelength_range] is not
    stored at all. *)
Example setitem_full_key_conflict :
  snd (__setitem__ Sample.with_ranges [] (KId Sample.full_interval) 2)
  = Raise (TypeError "Can't change the wavelength of a dataset").
Proof. vm_compute. reflexivity. Qed.
End registry_samples.

(** ** Registering under a name *)

Section setitem_by_name.
Import DatasetDict.
Implicit Types (h : heap) (R : list (DatasetID * ref)) (k : DatasetID).

Lemma first_name_match_Some (ks : list DatasetID) (key : pyval) k :
  first_name_match ks key = Some k →
  k ∈ ks ∧ py_eqb (name k) key = true.
Proof.
  induction ks as [|k' ks IH]; simpl; [discriminate|].
  unfold _name_match. destruct (py_eqb (name k') key) eqn:E.
  - intros [= <-]. split; [constructor | assumption].
  - intros H. destruct (IH H). split; [now constructor | assumption].
Qed.

Lemma first_name_match_None (ks : list DatasetID) (key : pyval) k :
  first_name_match ks key = None → k ∈ ks → py_eqb (name k) key = false.
Proof.
  induction ks as [|k' ks IH]; simpl; intros H Hk; [inversion Hk|].
  unfold _name_match in H. destruct (py_eqb (name k') key) eqn:E; [discriminate|].
  apply elem_of_cons in Hk as [->|Hk]; [assumption | now apply IH].
Qed.

Lemma first_name_match_last (ks : list DatasetID) (key : pyval) k :
  first_name_match ks key = None → py_eqb (name k) key = true →
  first_name_match (ks ++ [k]) key = Some k.
Proof.
  induction ks as [|k' ks IH]; simpl; unfold _name_match; intros H Hk.
  - now rewrite Hk.
  - destruct (py_eqb (name k') key); [discriminate | now apply IH].
Qed.

Lemma store_under_OK h R k v h' R' :
  store_under h R k v = (h', OK R') → R' = dict_store R k v.
Proof.
  unfold store_under, dict_setitem.
  destruct (_ !! "wavelength_range") as [w|];
    [destruct (negb _); [discriminate|]|];
    destruct (did_hashable k); intros [= _ <-] || discriminate; reflexivity.
Qed.

Lemma store_under_conflict h R k v w :
  h v !! "wavelength_range" = Some w → py_eqb w (wavelength k) = false →
  ∃ h', store_under h R k v = (h', Raise wavelength_conflict).
Proof.
  intros Hw Hne. unfold store_under.
  rewrite !lookup_insert_ne, Hw, Hne by discriminate. simpl. eauto.
Qed.

(** C6: after a value has been registered under a bare name, the name
    resolves to a stored key, whose wavelength is the [wavelength_range] of
    that value when the name was new; registering under the name a value
    whose metadata carry a [wavelength_range] different from the wavelength
    of that key raises the conflict error. The same holds when the key is a
    [DatasetID]. No assignment removes or alters a stored key. *)
Theorem setitem_wavelength_conflict h R :
  (∀ (nm : string) (v1 : ref) h1 R1,
     __setitem__ h R (KVal (PStr nm)) v1 = (h1, OK R1) →
     ∃ k, get_key R1 (KVal (PStr nm)) = OK (Some k)
          ∧ name k = PStr nm
          ∧ (first_name_match (keys R) (PStr nm) = None →
             wavelength k = dict_get_default (h v1) "wavelength_range")
          ∧ ∀ (v2 : ref) (w2 : pyval),
              h1 v2 !! "wavelength_range" = Some w2 →
              py_eqb w2 (wavelength k) = false →
              ∃ h2, __setitem__ h1 R1 (KVal (PStr nm)) v2
                    = (h2, Raise wavelength_conflict))
  ∧ (∀ k (v2 : ref) (w2 : pyval),
       h v2 !! "wavelength_range" = Some w2 →
       py_eqb w2 (wavelength k) = false →
       ∃ h2, __setitem__ h R (KId k) v2 = (h2, Raise wavelength_conflict))
  ∧ (∀ (key : pykey) (v : ref) h' R',
       __setitem__ h R key v = (h', OK R') →
       ∃ new, keys R' = (keys R ++ new)%list).
Proof.
  split; [|split].
  - intros nm v1 h1 R1. unfold __setitem__ at 1, resolve_key. simpl.
    destruct (first_name_match (keys R) (PStr nm)) as [k0|] eqn:Hfind.
    + intros Hset. pose proof (store_under_OK _ _ _ _ _ _ Hset) as ->.
      destruct (first_name_match_Some _ _ _ Hfind) as [Hin Hname].
      assert (Hkeys : keys (dict_store R k0 v1) = keys R).
      { apply keys_store_known. exists k0. split; [assumption|apply did_eqb_refl]. }
      exists k0. simpl. rewrite Hkeys, Hfind.
      split; [reflexivity|]. split.
      { destruct (name k0); try discriminate.
        simpl in Hname. apply bool_decide_eq_true in Hname. now subst. }
      split; [discriminate|].
      intros v2 w2 Hw Hne. unfold __setitem__, resolve_key. simpl.
      rewrite Hkeys, Hfind. now apply (store_under_conflict _ _ _ _ w2).
    + simpl. set (k := {| name := PStr nm |}).
      intros Hset. pose proof (store_under_OK _ _ _ _ _ _ Hset) as ->.
      assert (Hkeys : keys (dict_store R k v1) = (keys R ++ [k])%list).
      { apply keys_store_new. intros k' Hk'. unfold did_eqb, k. simpl.
        now rewrite (first_name_match_None _ _ _ Hfind Hk'). }
      assert (Hlast : first_name_match (keys R ++ [k]) (PStr nm) = Some k).
      { apply first_name_match_last; [assumption|]. apply py_eqb_refl. }
      exists k. simpl. rewrite Hkeys, Hlast.
      split; [reflexivity|]. split; [reflexivity|]. split; [reflexivity|].
      intros v2 w2 Hw Hne. unfold __setitem__, resolve_key. simpl.
      rewrite Hkeys, Hlast. now apply (store_under_conflict _ _ _ _ w2).
  - intros k v2 w2 Hw Hne. unfold __setitem__, resolve_key.
    now apply (store_under_conflict _ _ _ _ w2).
  - intros key v h' R'. unfold __setitem__.
    destruct (resolve_key (h v) R key) as [k|e]; [|discriminate].
    intros Hset. pose proof (store_under_OK _ _ _ _ _ _ Hset) as ->.
    destruct (keys_store R k v) as [-> | ->]; [exists [] | exists [k]];
      [now rewrite app_nil_r | reflexivity].
Qed.
End setitem_by_name.

Section setitem_by_name_samples.
Import DatasetDict.

Lemma setitem_wavelength_conflict_witness :
  ∃ h1 R1 h2 h3,
    __setitem__ Sample.with_ranges [] (KVal (PStr "VIS006")) 1 = (h1, OK R1)
    ∧ __setitem__ h1 R1 (KVal (PStr "VIS006")) 2 = (h2, Raise wavelength_conflict)
    ∧ __setitem__ Sample.with_ranges [] (KId Sample.cloud_mask) 2
      = (h3, Raise wavelength_conflict)
    ∧ ∃ new, keys R1 = ([] ++ new)%list.
Proof.
  destruct (setitem_wavelength_conflict Sample.with_ranges []) as (H1 & H2 & H3).
  pose (r := __setitem__ Sample.with_ranges [] (KVal (PStr "VIS006")) 1).
  pose (k1 := {| name := PStr "VIS006";
                 wavelength := Sample.interval 0.56 0.635 0.71;
                 resolution := PNone; polarization := PNone;
                 calibration := PNone |}).
  assert (Hset : r = (fst r, OK [(k1, 1)])) by reflexivity.
  destruct (H1 "VIS006" 1 (fst r) [(k1, 1)] Hset) as (k & Hk & _ & _ & Hconflict).
  injection Hk as <-.
  destruct (Hconflict 2 (Sample.interval 0.74 0.81 0.88) eq_refl eq_refl)
    as [h2 Hh2].
  destruct (H2 Sample.cloud_mask 2 (Sample.interval 0.74 0.81 0.88)
              eq_refl eq_refl) as [h3 Hh3].
  exists (fst r), [(k1, 1)], h2, h3.
  split; [exact Hset|]. split; [exact Hh2|]. split; [exact Hh3|].
  exact (H3 _ _ _ _ Hset).
Defined.
End setitem_by_name_samples.

(** ** The granule filter in its other modes *)

Lemma filterM_ext {A} (p q : A → result bool) (l : list A) :
  (∀ x, x ∈ l → p x = q x) → filterM p l = filterM q l.
Proof.
  induction l as [|x l IH]; intros H; [reflexivity|].
  simpl. rewrite (H x) by constructor.
  rewrite IH; [reflexivity|]. intros y Hy. apply H. now constructor.
Qed.

Lemma filterM_sublist {A} (p : A → result bool) (l r : list A) :
  filterM p l = OK r → sublist r l.
Proof.
  revert r. induction l as [|x l IH]; simpl; intros r.
  - intros [= <-]. constructor.
  - destruct (p x) as [b|e]; [simpl | discriminate].
    destruct (filterM p l) as [r'|e]; [simpl | discriminate].
    intros [= <-]. destruct b; [apply sublist_skip | apply sublist_cons]; now apply IH.
Qed.

Section swathsegment_modes.
Import ConfigBasedReader.
Context {Area Ring MD : Type} (intersects : Area → Ring → bool).
Local Abbreviation handle := (GenericFileReader.t Ring MD).
Local Abbreviation fstart := (GenericFileReader.start_time (Ring:=Ring) (MD:=MD)).
Local Abbreviation fend := (GenericFileReader.end_time (Ring:=Ring) (MD:=MD)).

Lemma swathsegment_of_filter (self : options) (keep : handle → Prop)
    `{!∀ fr, Decision (keep fr)} (file_readers : list handle) :
  (∀ fr, fr ∈ file_readers →
         selected intersects self fr = OK (bool_decide (keep fr))) →
  ∃ segment,
    _get_swathsegment intersects self file_readers = OK segment
    ∧ segment ≡ₚ filter keep file_readers
    ∧ StronglySorted (λ x y, (fstart x ≤ fstart y)%Z) segment
    ∧ ∀ t : Z, filter (λ x, fstart x = t) segment
               = filter (λ x, fstart x = t) (filter keep file_readers).
Proof.
  intros Hsel. unfold _get_swathsegment.
  rewrite (filterM_pure _ (λ fr, bool_decide (keep fr))) by exact Hsel.
  simpl.
  assert (Hf : filter (λ fr : handle, bool_decide (keep fr)) file_readers
               = filter keep file_readers).
  { apply list_filter_iff. intros x. apply bool_decide_spec. }
  rewrite Hf. eexists. split; [reflexivity|]. split; [|split].
  - apply sorted_by_perm.
  - eapply StronglySorted_weaken;
      [|apply (sorted_by_sorted Z.leb fstart Zleb_total Zleb_trans)].
    intros x y. simpl. lia.
  - intros t.
    assert (Hk : ∀ x : handle, fstart x = t ↔ key_is Z.leb fstart t x).
    { intros x. unfold key_is. rewrite andb_True, !Is_true_true. lia. }
    rewrite !(list_filter_iff _ _ _ Hk).
    apply sorted_by_stable, Zleb_trans.
Qed.

(** X1: with neither an area nor a start time the filter keeps every
    granule: the result is the input sorted by start time, granules of
    equal start time in their original order. *)
Theorem get_swathsegment_unfiltered (self : options)
    (file_readers : list handle) :
  area self = None → start_time self = None →
  ∃ segment,
    _get_swathsegment intersects self file_readers = OK segment
    ∧ segment ≡ₚ file_readers
    ∧ StronglySorted (λ x y, (fstart x ≤ fstart y)%Z) segment
    ∧ ∀ t : Z, filter (λ x, fstart x = t) segment
               = filter (λ x, fstart x = t) file_readers.
Proof.
  intros Ha Hs.
  destruct (swathsegment_of_filter self (λ _, True) file_readers)
    as (seg & Hseg & Hperm & Hsorted & Hstable).
  { intros fr _. unfold selected. now rewrite Ha, Hs. }
  assert (Hall : filter (λ _ : handle, True) file_readers = file_readers).
  { clear. induction file_readers as [|x l IH]; [reflexivity|].
    rewrite filter_cons. simpl. now rewrite IH. }
  rewrite Hall in *. eauto.
Qed.

(** X2: with a start time and no end time (and no area) the filter keeps
    exactly the granules that cover the start time, both ends included,
    sorted by start time. *)
Theorem get_swathsegment_timestamp (self : options) (t : Z)
    (file_readers : list handle) :
  area self = None → start_time self = Some t → end_time self = None →
  ∃ segment,
    _get_swathsegment intersects self file_readers = OK segment
    ∧ segment ≡ₚ filter (λ fr, (fstart fr ≤ t ≤ fend fr)%Z) file_readers
    ∧ StronglySorted (λ x y, (fstart x ≤ fstart y)%Z) segment.
Proof.
  intros Ha Hs He.
  destruct (swathsegment_of_filter self
              (λ fr, (fstart fr ≤ t ≤ fend fr)%Z) file_readers)
    as (seg & Hseg & Hperm & Hsorted & _); [|eauto].
  intros fr _. unfold selected. rewrite Ha, Hs, He. f_equal.
  case_bool_decide; lia.
Qed.

(** X3: with an area, one granule without ring coordinates makes the
    filter raise [ValueError], whatever the time window is; it does not
    fall back on the times. *)
Theorem get_swathsegment_area_needs_ring (self : options) (a : Area)
    (file_readers : list handle) (fr : handle) :
  area self = Some a → fr ∈ file_readers →
  GenericFileReader.ring_lonlats fr = None →
  _get_swathsegment intersects self file_readers
  = Raise (ValueError
      "Granule selection by area is not supported by this reader").
Proof.
  intros Ha Hin Hring. unfold _get_swathsegment.
  rewrite (filterM_raise _ _ fr
             (ValueError
                "Granule selection by area is not supported by this reader"));
    [reflexivity | assumption | |].
  - unfold selected. now rewrite Ha, Hring.
  - intros y _. unfold selected. rewrite Ha.
    destruct (GenericFileReader.ring_lonlats y); [now left | now right].
Qed.

(** X4: with an area the time window plays no part: two readers with the
    same area select the same granules, whatever their start and end times
    are. *)
Theorem get_swathsegment_area_ignores_time (self self' : options) (a : Area)
    (file_readers : list handle) :
  area self = Some a → area self' = Some a →
  _get_swathsegment intersects self file_readers
  = _get_swathsegment intersects self' file_readers.
Proof.
  intros Ha Ha'. unfold _get_swathsegment.
  rewrite (filterM_ext (selected intersects self) (selected intersects self'));
    [reflexivity|].
  intros fr _. unfold selected. now rewrite Ha, Ha'.
Qed.

(** X5: in every mode, what the filter returns is sorted by start time and
    is made of granules it was given, none of them more often than it
    came in. *)
Theorem get_swathsegment_sorted_selection (self : options)
    (file_readers segment : list handle) :
  _get_swathsegment intersects self file_readers = OK segment →
  segment ⊆+ file_readers
  ∧ StronglySorted (λ x y, (fstart x ≤ fstart y)%Z) segment.
Proof.
  unfold _get_swathsegment.
  destruct (filterM _ file_readers) as [kept|e] eqn:E; [simpl | discriminate].
  intros [= <-]. split.
  - rewrite (sorted_by_perm Z.leb fstart kept).
    apply sublist_submseteq. eapply filterM_sublist, E.
  - eapply StronglySorted_weaken;
      [|apply (sorted_by_sorted Z.leb fstart Zleb_total Zleb_trans)].
    intros x y. simpl. lia.
Qed.
End swathsegment_modes.

Section swathsegment_modes_samples.
Import ConfigBasedReader.

Lemma get_swathsegment_unfiltered_witness :
  ∃ segment,
    _get_swathsegment Sample.no_area Sample2.unfiltered
      [Sample.g3; Sample.g1; Sample.g2] = OK segment
    ∧ segment ≡ₚ [Sample.g3; Sample.g1; Sample.g2]
    ∧ StronglySorted
        (λ x y, (GenericFileReader.start_time x
                 ≤ GenericFileReader.start_time y)%Z) segment
    ∧ ∀ t : Z,
        filter (λ x, GenericFileReader.start_time x = t) segment
        = filter (λ x, GenericFileReader.start_time x = t)
            [Sample.g3; Sample.g1; Sample.g2].
Proof.
  apply (get_swathsegment_unfiltered Sample.no_area Sample2.unfiltered);
    reflexivity.
Defined.

Lemma get_swathsegment_timestamp_witness :
  ∃ segment,
    _get_swathsegment Sample.no_area Sample2.at_17
      [Sample.g3; Sample.g2; Sample.g1] = OK segment
    ∧ segment ≡ₚ filter
        (λ fr, (GenericFileReader.start_time fr ≤ 17
                ≤ GenericFileReader.end_time fr)%Z)
        [Sample.g3; Sample.g2; Sample.g1]
    ∧ StronglySorted
        (λ x y, (GenericFileReader.start_time x
                 ≤ GenericFileReader.start_time y)%Z) segment.
Proof.
  apply (get_swathsegment_timestamp Sample.no_area Sample2.at_17 17);
    reflexivity.
Defined.

Lemma get_swathsegment_area_needs_ring_witness :
  _get_swathsegment Sample.no_area Sample2.over_area [Sample.g1; Sample.g2]
  = Raise (ValueError
      "Granule selection by area is not supported by this reader").
Proof.
  apply (get_swathsegment_area_needs_ring Sample.no_area Sample2.over_area ()
           _ Sample.g2); [reflexivity | | reflexivity].
  apply list_elem_of_In. simpl. right. left. reflexivity.
Defined.

Lemma get_swathsegment_area_ignores_time_witness :
  _get_swathsegment Sample.no_area Sample2.over_area [Sample.g1; Sample.g2]
  = _get_swathsegment Sample.no_area Sample2.over_area_untimed
      [Sample.g1; Sample.g2].
Proof.
  apply (get_swathsegment_area_ignores_time Sample.no_area _ _ ());
    reflexivity.
Defined.

Lemma get_swathsegment_sorted_selection_witness :
  [Sample.g2] ⊆+ [Sample.g1; Sample.g2; Sample.g3]
  ∧ StronglySorted
      (λ x y, (GenericFileReader.start_time x
               ≤ GenericFileReader.start_time y)%Z) [Sample.g2].
Proof.
  apply (get_swathsegment_sorted_selection Sample.no_area Sample.window_12_18).
  reflexivity.
Defined.
End swathsegment_modes_samples.

(** ** Lookup of a configured dataset by name, by [DatasetID], by calibration *)

Section get_dataset_key_facts.
Context {V : Type} (R : list (DatasetID * V)).

Lemma filter_idem {A} (p : A → bool) (l : list A) :
  filter p (filter p l) = filter p l.
Proof.
  rewrite list_filter_filter. apply list_filter_iff. intros x. tauto.
Qed.

Lemma narrow_defaults_idem (ds l : list DatasetID) :
  Reader.narrow ds None None None = OK l →
  Reader.narrow l None None None = OK l.
Proof.
  rewrite !narrow_defaults.
  destruct (filter default_calibrated ds) as [|k ks] eqn:E; [discriminate|].
  intros [= <-]. rewrite <- E, filter_idem, E. reflexivity.
Qed.

(** X6: looked up by a name with default arguments, the reader returns the
    first stored key, in iteration order, of that name whose calibration is
    unset, [brightness_temperature] or [reflectance]; without such a key it
    raises [KeyError]. *)
Theorem get_dataset_key_by_name (key : pyval) :
  is_number key = false →
  match Reader.get_dataset_key R (KVal key) None None None with
  | OK k =>
      head (filter default_calibrated
              (filter (λ ds_id, py_eqb (name ds_id) key) (keys R))) = Some k
  | Raise e =>
      filter default_calibrated
        (filter (λ ds_id, py_eqb (name ds_id) key) (keys R)) = []
      ∧ ∃ msg, e = KeyError msg
  end.
Proof.
  intros Hkey.
  unfold Reader.get_dataset_key, Reader.get_dataset_key_aslist, Reader.candidates.
  rewrite Hkey.
  destruct (filter (λ ds_id, py_eqb (name ds_id) key) (keys R)) as [|c cs] eqn:E.
  { simpl. split; [reflexivity | eauto]. }
  unfold mbind at 2, result_bind at 2. rewrite narrow_defaults.
  destruct (filter default_calibrated (c :: cs)) as [|k ks]; simpl;
    [split; [reflexivity | eauto] | reflexivity].
Qed.

(** X7: looked up by a [DatasetID] with default arguments, the reader looks
    at the name of the key alone, or at its wavelength alone when it has no
    name: the other fields of the key play no part. *)
Theorem get_dataset_key_by_id (did : DatasetID) :
  is_None (name did) && is_None (wavelength did) = false →
  Reader.get_dataset_key R (KId did) None None None
  = Reader.get_dataset_key R
      (KVal (if is_None (name did) then wavelength did else name did))
      None None None.
Proof.
  intros Hset. unfold Reader.get_dataset_key. f_equal.
  unfold Reader.get_dataset_key_aslist. simpl.
  destruct (is_None (name did)) eqn:Hn; simpl.
  - simpl in Hset. rewrite Hset. simpl.
    destruct (Reader.candidates R (wavelength did)) as [ds|e]; [simpl|reflexivity].
    destruct (Reader.narrow ds None None None) as [l|e] eqn:E; [simpl|reflexivity].
    now apply narrow_defaults_idem in E.
  - destruct (Reader.candidates R (name did)) as [ds|e]; [simpl|reflexivity].
    destruct (Reader.narrow ds None None None) as [l|e] eqn:E; [simpl|reflexivity].
    now apply narrow_defaults_idem in E.
Qed.

(** X8: of the [calibration] argument only the levels it contains matter,
    among the four known ones: their order in the argument, and any other
    entry, change nothing in what is returned. *)
Theorem get_dataset_key_calibration_set (key : pykey)
    (cal1 cal2 : list pyval) (res pol : option (list pyval)) :
  (∀ x, x ∈ Reader.calibration_levels → py_in x cal1 = py_in x cal2) →
  Reader.get_dataset_key R key (Some cal1) res pol
  = Reader.get_dataset_key R key (Some cal2) res pol.
Proof.
  intros Hcal. unfold Reader.get_dataset_key. f_equal.
  destruct key as [did|v]; [reflexivity|].
  unfold Reader.get_dataset_key_aslist.
  destruct (Reader.candidates R v) as [ds|e]; [simpl|reflexivity].
  unfold Reader.narrow. simpl.
  assert (Hlevels :
    filter (λ x, py_in x cal1) Reader.calibration_levels
    = filter (λ x, py_in x cal2) Reader.calibration_levels).
  { unfold Reader.calibration_levels in *.
    rewrite !filter_cons, !filter_nil.
    rewrite !(Hcal (PStr _)) by (apply list_elem_of_In; simpl; tauto).
    reflexivity. }
  now rewrite Hlevels.
Qed.
End get_dataset_key_facts.

Section get_dataset_key_samples.

Lemma get_dataset_key_by_name_witness :
  match Reader.get_dataset_key Sample.two_channels (KVal (PStr "wide"))
          None None None with
  | OK k =>
      head (filter default_calibrated
              (filter (λ ds_id, py_eqb (name ds_id) (PStr "wide"))
                 (keys Sample.two_channels))) = Some k
  | Raise e =>
      filter default_calibrated
        (filter (λ ds_id, py_eqb (name ds_id) (PStr "wide"))
           (keys Sample.two_channels)) = []
      ∧ ∃ msg, e = KeyError msg
  end.
Proof. apply get_dataset_key_by_name. reflexivity. Defined.

Lemma get_dataset_key_by_id_witness :
  Reader.get_dataset_key Sample.two_channels
    (KId {| name := PStr "wide"; wavelength := PNone;
            resolution := PNum (PInt 250); polarization := PStr "V";
            calibration := PStr "counts" |}) None None None
  = Reader.get_dataset_key Sample.two_channels (KVal (PStr "wide"))
      None None None.
Proof.
  apply (get_dataset_key_by_id Sample.two_channels
           {| name := PStr "wide"; wavelength := PNone;
              resolution := PNum (PInt 250); polarization := PStr "V";
              calibration := PStr "counts" |}).
  reflexivity.
Defined.

Lemma get_dataset_key_calibration_set_witness :
  Reader.get_dataset_key Sample.two_channels (KVal (PNum (PFloat 0.8)))
    (Some [PStr "radiance"; PStr "reflectance"]) None None
  = Reader.get_dataset_key Sample.two_channels (KVal (PNum (PFloat 0.8)))
      (Some [PStr "reflectance"; PStr "albedo"; PStr "radiance"]) None None.
Proof.
  apply get_dataset_key_calibration_set.
  intros x Hx. apply list_elem_of_In in Hx. simpl in Hx.
  destruct Hx as [<-|[<-|[<-|[<-|[]]]]]; reflexivity.
Defined.
End get_dataset_key_samples.

(** ** Lookup by [DatasetID] *)

Section get_key_by_id.
Import DatasetDict.
Context {V : Type}.
Implicit Types (R : list (DatasetID * V)) (did k : DatasetID).

Lemma filter_all {A} (l : list A) : filter (λ _ : A, true) l = l.
Proof.
  induction l as [|x l IH]; [reflexivity|].
  rewrite filter_cons, IH. reflexivity.
Qed.

Lemma filter_field_compatible (field : DatasetID → pyval) did
    (ks : list DatasetID) :
  filter_field false field did ks = OK (filter (field_compatible field did) ks).
Proof.
  unfold filter_field, field_compatible.
  destruct (is_None (field did)); simpl; [|reflexivity].
  now rewrite filter_all.
Qed.

Lemma filter_field_wavelength_compatible did (ks : list DatasetID) :
  (∀ k, k ∈ ks → interval_or_unset k) →
  wavelength_query (wavelength did) = true →
  filter_field true wavelength did ks
  = OK (filter (wavelength_compatible did) ks).
Proof.
  intros Hks Hq. unfold filter_field, wavelength_compatible.
  destruct (wavelength did) as [|q|s|l|l] eqn:Hw; try discriminate; simpl.
  - now rewrite filter_all.
  - apply filterM_pure. intros k Hk.
    destruct (Hks k Hk) as [Hwl|(lo & c & hi & Hwl)].
    + rewrite Hwl. unfold in_interval. now rewrite Hwl.
    + rewrite (wl_match_interval q k lo c hi Hwl). now rewrite Hwl.
  - apply filterM_pure. intros k Hk.
    destruct (Hks k Hk) as [Hwl|(lo & c & hi & Hwl)]; rewrite Hwl;
      [reflexivity|].
    simpl. now rewrite wl_match_same_type.
Qed.

Lemma get_keys_by_datasetid_compatible R did :
  (∀ k, k ∈ keys R → interval_or_unset k) →
  wavelength_query (wavelength did) = true →
  get_keys_by_datasetid R did = OK (filter (compatible did) (keys R)).
Proof.
  intros HR Hq. unfold get_keys_by_datasetid.
  rewrite filter_field_compatible. simpl.
  rewrite filter_field_wavelength_compatible; [|
    intros k Hk; apply list_elem_of_filter in Hk as [_ Hk]; now apply HR |
    assumption].
  simpl. rewrite (filter_field_compatible resolution). simpl.
  rewrite (filter_field_compatible polarization). simpl.
  rewrite (filter_field_compatible calibration). f_equal.
  rewrite !list_filter_filter. apply list_filter_iff. intros k.
  unfold compatible. rewrite !andb_True. tauto.
Qed.

(** X9: in a registry whose wavelengths are unset or intervals, a
    [DatasetID] query answers with the stored keys that are set and equal on
    every field set in the query, a numeric wavelength of the query being
    tested for containment. [get_key] returns [None] when there is no such
    key, the key when there is one, and raises [KeyError] when there are
    several: it never picks one of them. *)
Theorem get_key_by_datasetid R did :
  (∀ k, k ∈ keys R → interval_or_unset k) →
  wavelength_query (wavelength did) = true →
  get_key R (KId did)
  = match filter (compatible did) (keys R) with
    | [] => OK None
    | [k] => OK (Some k)
    | _ => Raise (KeyError "No unique dataset matching")
    end.
Proof.
  intros HR Hq. unfold get_key.
  now rewrite get_keys_by_datasetid_compatible.
Qed.
End get_key_by_id.

(** ** Assignment, membership and deletion *)

Section registry_methods.
Import DatasetDict DatasetDictMethods.
Implicit Types (h : heap) (R : list (DatasetID * ref)) (k : DatasetID).

Lemma dict_lookup_store {V} (R : list (DatasetID * V)) k (v : V) :
  dict_lookup (dict_store R k v) k = Some v.
Proof.
  induction R as [|[k1 v1] R IH]; simpl.
  - now rewrite did_eqb_refl.
  - destruct (did_eqb k1 k) eqn:E; simpl; now rewrite E.
Qed.

Lemma dict_lookup_existsb {V} (R : list (DatasetID * V)) k (v : V) :
  dict_lookup R k = Some v → existsb (λ k', did_eqb k' k) (keys R) = true.
Proof.
  induction R as [|[k1 v1] R IH]; simpl; [discriminate|].
  destruct (did_eqb k1 k); [reflexivity | exact IH].
Qed.

Lemma store_under_hashable h R k (v : ref) h' R' :
  store_under h R k v = (h', OK R') → did_hashable k = true.
Proof.
  unfold store_under, dict_setitem.
  destruct (_ !! "wavelength_range") as [w|];
    [destruct (negb _); [discriminate|]|];
    destruct (did_hashable k); (reflexivity || discriminate).
Qed.

Lemma store_under_heap h R k (v : ref) h' r :
  store_under h R k v = (h', r) →
  h' = heap_set h v
         (<["polarization" := polarization k]>
          (<["calibration" := calibration k]>
           (<["resolution" := resolution k]>
            (<["name" := name k]> (h v))))).
Proof.
  unfold store_under.
  destruct (_ !! "wavelength_range") as [w|];
    [destruct (negb _)|]; now intros [= <- _].
Qed.

Lemma store_under_wavelength h R k (v : ref) h' R' (w : pyval) :
  store_under h R k v = (h', OK R') →
  h v !! "wavelength_range" = Some w → py_eqb w (wavelength k) = true.
Proof.
  unfold store_under. rewrite !lookup_insert_ne by discriminate.
  intros H Hw. rewrite Hw in H.
  destruct (py_eqb w (wavelength k)); [reflexivity | discriminate H].
Qed.

(** The key a successful assignment under a name has stored under. *)
Lemma setitem_by_name_resolved h R (nm : string) (v : ref) h' R' :
  __setitem__ h R (KVal (PStr nm)) v = (h', OK R') →
  ∃ k, R' = dict_store R k v ∧ did_hashable k = true
       ∧ first_name_match (keys R') (PStr nm) = Some k.
Proof.
  unfold __setitem__, resolve_key. simpl.
  destruct (first_name_match (keys R) (PStr nm)) as [k0|] eqn:Hfind.
  - intros Hset. exists k0.
    pose proof (store_under_hashable _ _ _ _ _ _ Hset) as Hh.
    pose proof (store_under_OK _ _ _ _ _ _ Hset) as ->.
    split; [reflexivity|]. split; [assumption|].
    destruct (first_name_match_Some _ _ _ Hfind) as [Hin _].
    rewrite keys_store_known; [assumption|].
    exists k0. split; [assumption | apply did_eqb_refl].
  - simpl. set (k := {| name := PStr nm |}). intros Hset. exists k.
    pose proof (store_under_hashable _ _ _ _ _ _ Hset) as Hh.
    pose proof (store_under_OK _ _ _ _ _ _ Hset) as ->.
    split; [reflexivity|]. split; [assumption|].
    rewrite keys_store_new.
    + apply first_name_match_last; [assumption | apply py_eqb_refl].
    + intros k' Hk'. unfold did_eqb, k. simpl.
      now rewrite (first_name_match_None _ _ _ Hfind Hk').
Qed.

(** X10: what has been assigned under a name is what the name gives back:
    after a successful [R[name] = v], [R[name]] is [v] and [name in R] is
    true, whatever the registry held before. *)
Theorem setitem_getitem_by_name h R (nm : string) (v : ref) h' R' :
  __setitem__ h R (KVal (PStr nm)) v = (h', OK R') →
  __getitem__ R' (KVal (PStr nm)) = OK v
  ∧ __contains__ R' (KVal (PStr nm)) = OK true.
Proof.
  intros Hset.
  destruct (setitem_by_name_resolved _ _ _ _ _ _ Hset) as (k & -> & Hh & Hfind).
  unfold __getitem__, __contains__, get_key. simpl. rewrite Hfind. simpl.
  unfold dict_getitem, dict_contains. rewrite Hh, dict_lookup_store.
  split; [reflexivity|]. f_equal.
  eapply dict_lookup_existsb, dict_lookup_store.
Qed.

(** X11: a successful assignment leaves the metadata of the value in
    step with the key it is stored under: name, resolution, calibration and
    polarization are those of the key, a [wavelength_range] is equal to its
    wavelength; the metadata of every other object are untouched. *)
Theorem setitem_metadata_follow_key h R (key : pykey) (v : ref) h' R' :
  __setitem__ h R key v = (h', OK R') →
  ∃ k, dict_lookup R' k = Some v
       ∧ h' v !! "name" = Some (name k)
       ∧ h' v !! "resolution" = Some (resolution k)
       ∧ h' v !! "calibration" = Some (calibration k)
       ∧ h' v !! "polarization" = Some (polarization k)
       ∧ (∀ w, h' v !! "wavelength_range" = Some w →
               py_eqb w (wavelength k) = true)
       ∧ ∀ v' : ref, v' ≠ v → h' v' = h v'.
Proof.
  unfold __setitem__.
  destruct (resolve_key (h v) R key) as [k|e]; [|discriminate].
  intros Hset. exists k.
  pose proof (store_under_heap _ _ _ _ _ _ Hset) as ->.
  pose proof (store_under_OK _ _ _ _ _ _ Hset) as ->.
  split; [apply dict_lookup_store|].
  unfold heap_set. rewrite bool_decide_eq_true_2 by reflexivity.
  repeat split.
  - now rewrite !lookup_insert_ne, lookup_insert_eq by discriminate.
  - now rewrite !lookup_insert_ne, lookup_insert_eq by discriminate.
  - now rewrite lookup_insert_ne, lookup_insert_eq by discriminate.
  - now rewrite lookup_insert_eq.
  - intros w. rewrite !lookup_insert_ne by discriminate.
    apply (store_under_wavelength _ _ _ _ _ _ _ Hset).
  - intros v' Hv'. now rewrite bool_decide_eq_false_2.
Qed.
End registry_methods.

Section registry_deletion.
Import DatasetDict DatasetDictMethods.
Context {V : Type}.
Implicit Types (R : list (DatasetID * V)) (k : DatasetID).

Lemma dict_wf_hashable R k :
  dict_wf R = true → k ∈ keys R → did_hashable k = true.
Proof.
  induction R as [|[k1 v1] R IH]; simpl; intros Hwf Hk; [inversion Hk|].
  apply andb_true_iff in Hwf as [Hwf1 Hwf].
  apply andb_true_iff in Hwf1 as [Hh _].
  apply elem_of_cons in Hk as [->|Hk]; [assumption | now apply IH].
Qed.

Lemma dict_wf_remove R k R' :
  dict_wf R = true → dict_remove R k = Some R' →
  sublist R' R ∧ length R = S (length R').
Proof.
  revert R'. induction R as [|[k1 v1] R IH]; simpl; intros R' Hwf; [discriminate|].
  destruct (did_eqb k1 k).
  - intros [= <-]. split; [now apply sublist_cons | reflexivity].
  - destruct (dict_remove R k) as [R1|] eqn:E; [simpl | discriminate].
    intros [= <-].
    apply andb_true_iff in Hwf as [_ Hwf].
    destruct (IH R1 Hwf eq_refl) as [Hsub Hlen].
    split; [now apply sublist_skip | simpl; now rewrite Hlen].
Qed.

(** Removing the one key a predicate singles out leaves none. *)
Lemma remove_singled_out (p : DatasetID → bool) R k R' :
  dict_wf R = true → filter p (keys R) = [k] →
  dict_remove R k = Some R' → filter p (keys R') = [].
Proof.
  revert R'. induction R as [|[k1 v1] R IH]; simpl; intros R' Hwf; [discriminate|].
  apply andb_true_iff in Hwf as [Hwf1 Hwf].
  apply andb_true_iff in Hwf1 as [_ Hfresh].
  rewrite forallb_forall in Hfresh.
  rewrite filter_cons. destruct (p k1) eqn:Hp; simpl.
  - intros [= -> Hrest]. rewrite did_eqb_refl. now intros [= <-].
  - intros Hrest. destruct (did_eqb k1 k) eqn:E.
    + exfalso.
      assert (Hk : k ∈ keys R).
      { assert (Hk' : k ∈ filter p (keys R)) by (rewrite Hrest; constructor).
        now apply list_elem_of_filter in Hk' as [_ Hk']. }
      apply list_elem_of_In, Hfresh in Hk. now rewrite E in Hk.
    + destruct (dict_remove R k) as [R1|] eqn:Hrem; [simpl | discriminate].
      intros [= <-]. simpl. rewrite filter_cons, Hp. simpl.
      now apply (IH R1).
Qed.

(** X12: after a successful [del R[q]] for a [DatasetID] query [q], in a
    registry whose wavelengths are unset or intervals, [q in R] is false;
    the deletion has removed exactly one binding. *)
Theorem delitem_then_absent R (did : DatasetID) R' :
  dict_wf R = true →
  (∀ k, k ∈ keys R → interval_or_unset k) →
  wavelength_query (wavelength did) = true →
  __delitem__ R (KId did) = OK R' →
  __contains__ R' (KId did) = OK false
  ∧ sublist R' R ∧ length R = S (length R').
Proof.
  intros Hwf HR Hq. unfold __delitem__, __contains__.
  rewrite get_key_by_datasetid by assumption.
  destruct (filter (compatible did) (keys R)) as [|k [|k2 ks]] eqn:Hf;
    try discriminate.
  simpl. unfold dict_delitem.
  destruct (did_hashable k); [|discriminate].
  destruct (dict_remove R k) as [R1|] eqn:Hrem; [|discriminate].
  intros [= <-].
  destruct (dict_wf_remove R k R1 Hwf Hrem) as [Hsub Hlen].
  split; [|now split].
  unfold get_key. rewrite get_keys_by_datasetid_compatible; [| |assumption].
  - now rewrite (remove_singled_out _ R k R1 Hwf Hf Hrem).
  - intros k' Hk'. apply HR.
    apply list_elem_of_fmap in Hk' as ([k0 v0] & -> & Hin).
    apply list_elem_of_fmap. exists (k0, v0). split; [reflexivity|].
    eapply elem_of_sublist; eassumption.
Qed.

Lemma remove_first_named R (key : pyval) k :
  first_name_match (keys R) key = Some k →
  ∃ l1 v l2, R = (l1 ++ (k, v) :: l2)%list
             ∧ dict_remove R k = Some (l1 ++ l2)%list
             ∧ ∀ k', k' ∈ keys l1 → py_eqb (name k') key = false.
Proof.
  induction R as [|[k1 v1] R IH]; simpl; [discriminate|].
  unfold _name_match. destruct (py_eqb (name k1) key) eqn:E.
  - intros [= <-]. exists [], v1, R. rewrite did_eqb_refl.
    split; [reflexivity|]. split; [reflexivity|]. intros k' Hk'. inversion Hk'.
  - intros Hfind. destruct (IH Hfind) as (l1 & v & l2 & -> & Hrem & Hl1).
    exists ((k1, v1) :: l1), v, l2. split; [reflexivity|].
    destruct (first_name_match_Some _ _ _ Hfind) as [_ Hname].
    assert (Hne : did_eqb k1 k = false).
    { destruct (did_eqb k1 k) eqn:Heq; [|reflexivity].
      unfold did_eqb in Heq. rewrite !andb_true_iff in Heq.
      destruct Heq as [[[[Hn _] _] _] _].
      now rewrite (py_eqb_trans _ _ _ Hn Hname) in E. }
    rewrite Hne, Hrem. split; [reflexivity|].
    intros k' Hk'. simpl in Hk'.
    apply elem_of_cons in Hk' as [->|Hk']; [assumption | now apply Hl1].
Qed.

(** X13: [del R[name]] removes the first binding, in iteration order,
    whose key has that name, and only that one; without a key of that name
    it raises [KeyError]. Later keys of the same name stay. *)
Theorem delitem_by_name R (nm : string) :
  dict_wf R = true →
  match __delitem__ R (KVal (PStr nm)) with
  | OK R' =>
      ∃ l1 k v l2,
        R = (l1 ++ (k, v) :: l2)%list ∧ R' = (l1 ++ l2)%list
        ∧ name k = PStr nm
        ∧ ∀ k', k' ∈ keys l1 → name k' ≠ PStr nm
  | Raise e =>
      (∀ k, k ∈ keys R → name k ≠ PStr nm) ∧ ∃ msg, e = KeyError msg
  end.
Proof.
  intros Hwf. unfold __delitem__, get_key. simpl.
  destruct (first_name_match (keys R) (PStr nm)) as [k|] eqn:Hfind; simpl.
  - destruct (first_name_match_Some _ _ _ Hfind) as [Hin Hname].
    rewrite (dict_wf_hashable R k Hwf Hin).
    destruct (remove_first_named R _ k Hfind) as (l1 & v & l2 & HR & -> & Hl1).
    exists l1, k, v, l2. split; [assumption|]. split; [reflexivity|]. split.
    + destruct (name k); try discriminate.
      simpl in Hname. apply bool_decide_eq_true in Hname. now subst.
    + intros k' Hk' Heq. specialize (Hl1 k' Hk').
      rewrite Heq in Hl1. simpl in Hl1.
      now rewrite bool_decide_eq_true_2 in Hl1.
  - split; [|eauto]. intros k Hk Heq.
    pose proof (first_name_match_None _ _ _ Hfind Hk) as Hne.
    rewrite Heq in Hne. simpl in Hne. now rewrite bool_decide_eq_true_2 in Hne.
Qed.
End registry_deletion.

Section registry_methods_samples.
Import DatasetDict DatasetDictMethods.

Lemma get_key_by_datasetid_witness :
  get_key Sample2.registry (KId Sample2.query_VIS006) = OK (Some Sample.VIS006).
Proof.
  apply (get_key_by_datasetid Sample2.registry Sample2.query_VIS006);
    [|reflexivity].
  intros k Hk. apply list_elem_of_In in Hk. simpl in Hk.
  destruct Hk as [<-|[<-|[<-|[]]]];
    [right; do 3 eexists; reflexivity.. | left; reflexivity].
Defined.

Lemma setitem_getitem_by_name_witness :
  __getitem__ [(Sample2.by_name_VIS006, 1)] (KVal (PStr "VIS006")) = OK 1
  ∧ __contains__ [(Sample2.by_name_VIS006, 1)] (KVal (PStr "VIS006")) = OK true.
Proof.
  apply (setitem_getitem_by_name Sample.with_ranges [] "VIS006" 1
           (fst (__setitem__ Sample.with_ranges [] (KVal (PStr "VIS006")) 1))).
  reflexivity.
Defined.

Lemma setitem_metadata_follow_key_witness :
  let h' := fst (__setitem__ Sample.with_ranges [] (KVal (PStr "VIS006")) 1) in
  ∃ k, dict_lookup [(Sample2.by_name_VIS006, 1)] k = Some 1
       ∧ h' 1 !! "name" = Some (name k)
       ∧ h' 1 !! "resolution" = Some (resolution k)
       ∧ h' 1 !! "calibration" = Some (calibration k)
       ∧ h' 1 !! "polarization" = Some (polarization k)
       ∧ (∀ w, h' 1 !! "wavelength_range" = Some w →
               py_eqb w (wavelength k) = true)
       ∧ ∀ v' : ref, v' ≠ 1 → h' v' = Sample.with_ranges v'.
Proof.
  intros h'.
  apply (setitem_metadata_follow_key Sample.with_ranges []
           (KVal (PStr "VIS006")) 1).
  reflexivity.
Defined.

Lemma delitem_then_absent_witness :
  __contains__ [(Sample.VIS008, 1); (Sample.cloud_mask, 2)]
    (KId Sample2.query_VIS006) = OK false
  ∧ sublist [(Sample.VIS008, 1); (Sample.cloud_mask, 2)] Sample2.registry
  ∧ length Sample2.registry = 3.
Proof.
  apply (delitem_then_absent Sample2.registry Sample2.query_VIS006);
    try reflexivity.
  intros k Hk. apply list_elem_of_In in Hk. simpl in Hk.
  destruct Hk as [<-|[<-|[<-|[]]]];
    [right; do 3 eexists; reflexivity.. | left; reflexivity].
Defined.

Lemma delitem_by_name_witness :
  match __delitem__ Sample2.registry (KVal (PStr "VIS008")) with
  | OK R' =>
      ∃ l1 k v l2,
        Sample2.registry = (l1 ++ (k, v) :: l2)%list ∧ R' = (l1 ++ l2)%list
        ∧ name k = PStr "VIS008"
        ∧ ∀ k', k' ∈ keys l1 → name k' ≠ PStr "VIS008"
  | Raise e =>
      (∀ k, k ∈ keys Sample2.registry → name k ≠ PStr "VIS008")
      ∧ ∃ msg, e = KeyError msg
  end.
Proof. apply delitem_by_name. reflexivity. Defined.
End registry_methods_samples.

(** ** Assigning files to reader configurations *)

Lemma filter_split_perm {A} (p : A → bool) (l : list A) :
  (filter p l ++ filter (λ x, negb (p x)) l)%list ≡ₚ l.
Proof.
  induction l as [|x l IH]; [reflexivity|].
  rewrite !filter_cons. destruct (p x); simpl.
  - now rewrite IH.
  - rewrite <- Permutation_middle. now rewrite IH.
Qed.

Section assign_matching_files_facts.
Import ReaderFinderFiles.
Context (path_join : string → string → string)
        (globify : string → string)
        (basename : string → string)
        (fnmatch : string → string → bool).
Local Abbreviation claims := (claims path_join globify basename fnmatch).
Local Abbreviation unclaimed := (unclaimed path_join globify basename fnmatch).

Lemma list_remove_middle (x : string) (kept rest : list string) :
  (∀ y, y ∈ kept → y ≠ x) →
  list_remove x (kept ++ x :: rest) = OK (kept ++ rest)%list.
Proof.
  induction kept as [|y kept IH]; intros Hkept; simpl.
  - now rewrite String.eqb_refl.
  - destruct (String.eqb_spec y x) as [->|Hne].
    + now destruct (Hkept x); [constructor|].
    + rewrite IH; [reflexivity|]. intros z Hz. apply Hkept. now constructor.
Qed.

(** One pattern: the files it matches go, in order, to the assigned ones.
    [kept] are the files of the copy already seen and left in place. *)
Lemma assign_pattern_split (pattern : string) (rest assigned kept : list string) :
  let m := λ f, fnmatch (basename f) (basename pattern) in
  (∀ y, y ∈ kept → m y = false) →
  assign_pattern basename fnmatch pattern rest assigned (kept ++ rest)
  = OK ((assigned ++ filter m rest)%list,
        (kept ++ filter (λ f, negb (m f)) rest)%list).
Proof.
  intros m. revert assigned kept.
  induction rest as [|x rest IH]; intros assigned kept Hkept; simpl.
  - now rewrite !app_nil_r.
  - rewrite !filter_cons. fold (m x). destruct (m x) eqn:Hx; simpl.
    + rewrite list_remove_middle.
      2:{ intros y Hy ->. rewrite (Hkept x Hy) in Hx. discriminate. }
      simpl. rewrite IH by assumption. now rewrite <- app_assoc.
    + replace (kept ++ x :: rest)%list with ((kept ++ [x]) ++ rest)%list
        by now rewrite <- app_assoc.
      rewrite IH.
      * now rewrite <- app_assoc.
      * intros y Hy. apply elem_of_app in Hy as [Hy|Hy]; [now apply Hkept|].
        apply list_elem_of_singleton in Hy. now subst.
Qed.

Lemma assign_patterns_split (base_dir : option string)
    (patterns assigned files : list string) :
  ∃ matched,
    assign_patterns path_join globify basename fnmatch base_dir patterns
      assigned files
    = OK ((assigned ++ matched)%list, filter (unclaimed base_dir patterns) files)
    ∧ (matched ++ filter (unclaimed base_dir patterns) files)%list ≡ₚ files
    ∧ ∀ f, f ∈ matched → unclaimed base_dir patterns f = false.
Proof.
  revert assigned files.
  induction patterns as [|p patterns IH]; intros assigned files.
  - exists []. simpl. rewrite app_nil_r. unfold ReaderFinderFiles.unclaimed.
    simpl. rewrite filter_all. split; [reflexivity|]. split; [reflexivity|].
    intros f Hf. inversion Hf.
  - cbn [assign_patterns].
    rewrite (assign_pattern_split _ files assigned []) by (intros y Hy; inversion Hy).
    cbv beta zeta. unfold mbind at 1, result_bind at 1. cbn [app].
    destruct (IH (assigned ++ filter (claims base_dir p) files)%list
                 (filter (λ f, negb (claims base_dir p f)) files))
      as (matched & Heq & Hperm & Hmatched).
    unfold ReaderFinderFiles.claims in Heq. rewrite Heq. clear Heq.
    exists (filter (claims base_dir p) files ++ matched)%list.
    assert (Hrem : filter (unclaimed base_dir patterns)
                     (filter (λ f, negb (claims base_dir p f)) files)
                   = filter (unclaimed base_dir (p :: patterns)) files).
    { rewrite list_filter_filter. apply list_filter_iff. intros f.
      unfold ReaderFinderFiles.unclaimed. simpl.
      rewrite andb_True. tauto. }
    rewrite Hrem in Hperm. split; [|split].
    + rewrite <- app_assoc. apply f_equal, f_equal2; [reflexivity | exact Hrem].
    + rewrite <- app_assoc, Hperm. apply filter_split_perm.
    + intros f Hf. unfold ReaderFinderFiles.unclaimed. simpl.
      apply elem_of_app in Hf as [Hf|Hf].
      * apply list_elem_of_filter in Hf as [Hf _].
        apply Is_true_true in Hf. now rewrite Hf.
      * apply andb_false_iff. right. now apply Hmatched.
Qed.

(** X14: [assign_matching_files] never fails and splits the files: those
    that no pattern of the reader matches come back, in their order; the
    others, and no other file, are appended to the [filenames] of the
    reader; none is lost and none is assigned twice. *)
Theorem assign_matching_files_splits (reader_info : reader_files)
    (files : list string) (base_dir : option string) :
  ∃ matched,
    assign_matching_files path_join globify basename fnmatch
      reader_info files base_dir
    = OK ({| reader_name := reader_name reader_info;
             file_patterns := file_patterns reader_info;
             filenames := (filenames reader_info ++ matched)%list |},
          filter (unclaimed base_dir (file_patterns reader_info)) files)
    ∧ (matched
       ++ filter (unclaimed base_dir (file_patterns reader_info)) files)%list
      ≡ₚ files
    ∧ ∀ f, f ∈ matched →
           unclaimed base_dir (file_patterns reader_info) f = false.
Proof.
  unfold assign_matching_files.
  destruct (assign_patterns_split base_dir (file_patterns reader_info)
              (filenames reader_info) files) as (matched & -> & Hperm & Hm).
  exists matched. simpl. auto.
Qed.
End assign_matching_files_facts.

Lemma filter_ext_in {A} (p q : A → bool) (l : list A) :
  (∀ x, x ∈ l → p x = q x) → filter p l = filter q l.
Proof.
  induction l as [|x l IH]; intros H; [reflexivity|].
  rewrite !filter_cons, (H x) by constructor.
  rewrite IH; [reflexivity|]. intros y Hy. apply H. now constructor.
Qed.

Section find_files_readers_facts.
Import ReaderFinderFiles.
Context (path_join : string → string → string)
        (globify : string → string)
        (basename : string → string)
        (fnmatch : string → string → bool).
Context {Rdr : Type}
        (read_config : string → option (string * list string))
        (load_reader : reader_files → outcome Rdr).
Local Abbreviation unclaimed := (unclaimed path_join globify basename fnmatch).
Local Abbreviation unknown_to :=
  (unknown_to path_join globify basename fnmatch read_config).
Local Abbreviation find_loop :=
  (find_loop path_join globify basename fnmatch read_config load_reader).

(** What the loop has done when it ends without an exception. *)
Local Abbreviation loop_done base_dir configs all_files :=
  (λ (readers : list Rdr) (remaining : list string),
     remaining = filter (unknown_to base_dir configs) all_files
     ∧ ∃ infos,
         Forall2 (λ ri r, load_reader ri = Returned r) infos readers
         ∧ Forall (λ ri, filenames ri ≠ []) infos
         ∧ app (concat (filenames <$> infos)) remaining ≡ₚ all_files).

Lemma find_loop_spec (base_dir : option string) (configs seen files : list string) :
  (∀ f c nm pats, f ∈ files → c ∈ seen → read_config c = Some (nm, pats) →
                  unclaimed base_dir pats f = true) →
  match find_loop base_dir configs seen files with
  | OK (readers, remaining) => loop_done base_dir configs files readers remaining
  | Raise e => ∃ who, e = External who
  end.
Proof.
  revert seen files. induction configs as [|c configs IH]; intros seen files Hseen.
  { simpl. split.
    - unfold ReaderFinderFiles.unknown_to. simpl. now rewrite filter_all.
    - exists []. split; [constructor|]. split; [constructor | reflexivity]. }
  assert (Hskip :
    (∀ f, f ∈ files →
          match read_config c with
          | Some (_, pats) => unclaimed base_dir pats f
          | None => true
          end = true) →
    filter (unknown_to base_dir (c :: configs)) files
    = filter (unknown_to base_dir configs) files).
  { intros H. apply filter_ext_in. intros f Hf.
    unfold ReaderFinderFiles.unknown_to. simpl.
    fold (unknown_to base_dir configs f). now rewrite (H f Hf). }
  cbn [ReaderFinderFiles.find_loop]. case_bool_decide as Hin.
  { specialize (IH seen files Hseen).
    destruct (find_loop base_dir configs seen files) as [[rs rem]|e]; [|exact IH].
    destruct IH as [-> Hinfos]. split; [|exact Hinfos].
    symmetry. apply Hskip. intros f Hf.
    destruct (read_config c) as [[nm pats]|] eqn:Hc; [|reflexivity].
    eapply Hseen; eassumption. }
  destruct (read_config c) as [[nm pats]|] eqn:Hc.
  2:{ specialize (IH seen files Hseen).
      destruct (find_loop base_dir configs seen files) as [[rs rem]|e]; [|exact IH].
      destruct IH as [-> Hinfos]. split; [|exact Hinfos].
      symmetry. now apply Hskip. }
  destruct (assign_matching_files_splits path_join globify basename fnmatch
              {| reader_name := nm; file_patterns := pats; filenames := [] |}
              files base_dir) as (matched & Heq & Hperm & _).
  rewrite Heq. clear Heq. cbn [file_patterns filenames reader_name app] in *.
  set (files1 := filter (unclaimed base_dir pats) files) in *.
  set (ri := {| reader_name := nm; file_patterns := pats; filenames := matched |}).
  assert (Hrem : ∀ confs,
    filter (unknown_to base_dir confs) files1
    = filter (λ f, unclaimed base_dir pats f && unknown_to base_dir confs f) files).
  { intros confs. unfold files1. rewrite list_filter_filter.
    apply list_filter_iff. intros f. rewrite andb_True. tauto. }
  assert (Hcons :
    filter (unknown_to base_dir (c :: configs)) files
    = filter (unknown_to base_dir configs) files1).
  { rewrite Hrem. apply list_filter_iff. intros f.
    unfold ReaderFinderFiles.unknown_to. simpl. now rewrite Hc. }
  unfold mbind at 1, result_bind at 1. cbv beta iota.
  assert (Hyield :
    match (match matched with
           | [] => OK []
           | _ :: _ => call (load_reader ri) ≫= (λ r, OK [r])
           end : result (list Rdr)) with
    | OK yielded =>
        ∃ infos, Forall2 (λ ri r, load_reader ri = Returned r) infos yielded
                 ∧ Forall (λ ri, filenames ri ≠ []) infos
                 ∧ concat (filenames <$> infos) = matched
    | Raise e => ∃ who, e = External who
    end).
  { destruct matched as [|m ms] eqn:Hm.
    - exists []. split; [constructor|]. split; [constructor | reflexivity].
    - destruct (load_reader ri) as [r|who] eqn:Hload; simpl; [|eauto].
      exists [ri]. split; [now repeat constructor|].
      split; [repeat constructor; discriminate|].
      simpl. now rewrite app_nil_r. }
  change (filenames ri) with matched.
  destruct (match matched with [] => _ | _ => _ end) as [yielded|e];
    [|exact Hyield].
  destruct Hyield as (infos0 & Hload0 & Hne0 & Hconcat0).
  unfold mbind at 1, result_bind at 1.
  destruct files1 as [|f1 fs1] eqn:Hfiles1.
  { cbv beta iota. split; [now rewrite Hcons|]. exists infos0.
    split; [assumption|]. split; [assumption|].
    now rewrite Hconcat0. }
  rewrite <- Hfiles1 in *. clear Hfiles1.
  specialize (IH (c :: seen) files1).
  destruct (find_loop base_dir configs (c :: seen) files1) as [[more rem]|e].
  2:{ apply IH. intros f c' nm' pats' Hf Hc' Hread.
      apply list_elem_of_filter in Hf as [Hf Hin'].
      apply elem_of_cons in Hc' as [->|Hc'].
      - rewrite Hc in Hread. injection Hread as <- <-. now apply Is_true_true.
      - eapply Hseen; eassumption. }
  destruct IH as [-> (infos & Hload & Hne & Hconcat)].
  { intros f c' nm' pats' Hf Hc' Hread.
    apply list_elem_of_filter in Hf as [Hf Hin'].
    apply elem_of_cons in Hc' as [->|Hc'].
    - rewrite Hc in Hread. injection Hread as <- <-. now apply Is_true_true.
    - eapply Hseen; eassumption. }
  unfold mbind at 1, result_bind at 1. cbv beta iota.
  split; [now rewrite Hcons|].
  exists (infos0 ++ infos)%list.
  split; [now apply Forall2_app|]. split; [now apply Forall_app|].
  rewrite fmap_app, concat_app, Hconcat0, <- app_assoc, Hconcat.
  exact Hperm.
Qed.

End find_files_readers_facts.

(** ** Classifying files by file type *)

Section identify_file_types_facts.
Import ConfigBasedReaderFiles.
Context {Ring MD : Type}.
Local Abbreviation handle := (GenericFileReader.t Ring MD).
Context (globify : string → string)
        (fnmatch : string → string → bool).
Local Abbreviation matches := (matches globify fnmatch).
Local Abbreviation unmatched := (unmatched globify fnmatch).
Local Abbreviation unidentified_by := (unidentified_by globify fnmatch).

(** The handles [hs] were made by [cls] out of the file names [ns]. *)
Local Abbreviation made cls :=
  (Forall2 (λ (h : handle) (fn : string), cls fn = Returned h)).

Lemma match_pattern_split (cls : string → outcome handle) (p : string)
    (remaining : list string) :
  match match_pattern globify fnmatch cls p remaining with
  | OK (hs, rem) =>
      rem = filter (λ fn, negb (matches p fn)) remaining
      ∧ made cls hs (filter (matches p) remaining)
  | Raise e => ∃ who, e = External who
  end.
Proof.
  induction remaining as [|fn rest IH]; simpl; [now split|].
  rewrite !filter_cons. destruct (matches p fn) eqn:Hm; simpl.
  - destruct (cls fn) as [h|who] eqn:Hcls; simpl; [|eauto].
    destruct (match_pattern _ _ cls p rest) as [[hs rem]|e]; simpl; [|exact IH].
    destruct IH as [-> Hmade]. split; [reflexivity | now constructor].
  - destruct (match_pattern _ _ cls p rest) as [[hs rem]|e]; simpl; [|exact IH].
    destruct IH as [-> Hmade]. now split.
Qed.

Lemma match_patterns_split (cls : string → outcome handle)
    (patterns remaining : list string) :
  match match_patterns globify fnmatch cls patterns remaining with
  | OK (hs, rem) =>
      rem = filter (unmatched patterns) remaining
      ∧ ∃ ns, made cls hs ns
              ∧ app ns rem ≡ₚ remaining
              ∧ Forall (λ fn, unmatched patterns fn = false) ns
  | Raise e => ∃ who, e = External who
  end.
Proof.
  revert remaining. induction patterns as [|p patterns IH]; intros remaining.
  - simpl. unfold ConfigBasedReaderFiles.unmatched. simpl. rewrite filter_all.
    split; [reflexivity|]. exists [].
    split; [constructor|]. split; [reflexivity | constructor].
  - cbn [match_patterns].
    pose proof (match_pattern_split cls p remaining) as Hp.
    destruct (match_pattern _ _ cls p remaining) as [[hs1 rem1]|e];
      [|exact Hp].
    destruct Hp as [-> Hmade1].
    unfold mbind at 1, result_bind at 1. cbv beta iota.
    specialize (IH (filter (λ fn, negb (matches p fn)) remaining)).
    destruct (match_patterns _ _ cls patterns _) as [[hs2 rem2]|e];
      [|exact IH].
    destruct IH as [-> (ns & Hmade2 & Hperm & Hns)].
    unfold mbind at 1, result_bind at 1. cbv beta iota.
    assert (Hrem : filter (unmatched patterns)
                     (filter (λ fn, negb (matches p fn)) remaining)
                   = filter (unmatched (p :: patterns)) remaining).
    { rewrite list_filter_filter. apply list_filter_iff. intros fn.
      unfold ConfigBasedReaderFiles.unmatched. simpl.
      rewrite andb_True. tauto. }
    rewrite Hrem in *. split; [reflexivity|].
    exists (filter (matches p) remaining ++ ns)%list.
    split; [now apply Forall2_app|]. split.
    + rewrite <- app_assoc, Hperm. apply filter_split_perm.
    + apply Forall_app. split.
      * apply Forall_forall. intros fn Hfn.
        apply list_elem_of_filter in Hfn as [Hfn _]. apply Is_true_true in Hfn.
        unfold ConfigBasedReaderFiles.unmatched. simpl. now rewrite Hfn.
      * eapply Forall_impl; [exact Hns|]. intros fn Hfn.
        unfold ConfigBasedReaderFiles.unmatched in *. simpl.
        apply andb_false_iff. now right.
Qed.
End identify_file_types_facts.

Section identify_loop_facts.
Import ConfigBasedReaderFiles.
Context {Ring MD : Type}.
Local Abbreviation handle := (GenericFileReader.t Ring MD).
Context (globify : string → string)
        (fnmatch : string → string → bool)
        (file_reader_class : string → outcome (string → outcome handle)).
Local Abbreviation unmatched := (unmatched globify fnmatch).
Local Abbreviation unidentified_by := (unidentified_by globify fnmatch).
Local Abbreviation made cls :=
  (Forall2 (λ (h : handle) (fn : string), cls fn = Returned h)).

(** The readers of a file type were made by its class out of the file
    names of the entry of the same name. *)
Local Abbreviation made_of :=
  (λ (b : string * list handle) (n : string * list string),
     b.1 = n.1
     ∧ ∃ cls, file_reader_class b.1 = Returned cls ∧ made cls b.2 n.2).

(** The file names of an entry match a pattern of its file type and no
    pattern of the file types configured before it. *)
Local Abbreviation first_match file_types :=
  (λ n : string * list string,
     ∃ l1 pats l2,
       file_types = app l1 ((n.1, pats) :: l2)
       ∧ Forall (λ fn, unmatched pats fn = false
                       ∧ unidentified_by l1 fn = true) n.2).

Local Abbreviation classified file_types filenames :=
  (λ (identified : list (string * list handle)) (unidentified : list string),
     unidentified = filter (unidentified_by file_types) filenames
     ∧ Forall (λ b, b.2 ≠ []) identified
     ∧ ∃ names : list (string * list string),
         Forall2 made_of identified names
         ∧ app (concat names.*2) unidentified ≡ₚ filenames
         ∧ Forall (first_match file_types) names).

Lemma entry_made (ty : string) (cls : string → outcome handle)
    (pats : list string) (rest : list (string * list string))
    (hs : list handle) (ns : list string) :
  file_reader_class ty = Returned cls → made cls hs ns →
  Forall (λ fn, unmatched pats fn = false) ns →
  ∃ names,
    Forall2 made_of (match hs with [] => [] | _ => [(ty, hs)] end) names
    ∧ concat names.*2 = ns
    ∧ Forall (first_match ((ty, pats) :: rest)) names
    ∧ Forall (λ b : string * list handle, b.2 ≠ [])
        (match hs with [] => [] | _ => [(ty, hs)] end).
Proof.
  intros Hcls Hmade Hns. destruct Hmade as [|h fn hs ns Hh Hmade].
  - exists []. repeat split; constructor.
  - exists [(ty, fn :: ns)]. split; [|split; [|split]].
    + constructor; [|constructor]. split; [reflexivity|].
      exists cls. split; [assumption | now constructor].
    + simpl. now rewrite app_nil_r.
    + constructor; [|constructor]. exists [], pats, rest.
      split; [reflexivity|]. eapply Forall_impl; [exact Hns|].
      intros x Hx. now split.
    + constructor; [discriminate | constructor].
Qed.

Lemma identify_loop_classifies (file_types : list (string * list string))
    (filenames : list string) :
  match identify_loop globify fnmatch file_reader_class file_types filenames with
  | OK (identified, unidentified) =>
      classified file_types filenames identified unidentified
  | Raise e => ∃ who, e = External who
  end.
Proof.
  revert filenames.
  induction file_types as [|[ty pats] file_types IH]; intros filenames.
  { simpl. split.
    - unfold ConfigBasedReaderFiles.unidentified_by. simpl. now rewrite filter_all.
    - split; [constructor|]. exists [].
      split; [constructor|]. split; [reflexivity | constructor]. }
  cbn [identify_loop].
  destruct (file_reader_class ty) as [cls|who] eqn:Hcls; [|simpl; eauto].
  unfold call. unfold mbind at 1, result_bind at 1. cbv beta iota.
  pose proof (match_patterns_split globify fnmatch cls pats filenames) as Hp.
  destruct (match_patterns _ _ cls pats filenames) as [[hs rem]|e]; [|exact Hp].
  destruct Hp as [Hrem (ns & Hmade & Hperm & Hns)].
  unfold mbind at 1, result_bind at 1. cbv beta iota.
  destruct (entry_made ty cls pats file_types hs ns Hcls Hmade Hns)
    as (names0 & Hmade0 & Hconcat0 & Hfirst0 & Hne0).
  assert (Hcons :
    filter (unidentified_by ((ty, pats) :: file_types)) filenames
    = filter (unidentified_by file_types) rem).
  { rewrite Hrem, list_filter_filter. apply list_filter_iff. intros fn.
    unfold ConfigBasedReaderFiles.unidentified_by. simpl.
    rewrite andb_True. tauto. }
  destruct rem as [|r rem'] eqn:Hrem'.
  { cbv beta iota. split; [now rewrite Hcons|]. split; [assumption|].
    exists names0. split; [assumption|]. split; [|assumption].
    now rewrite Hconcat0. }
  rewrite <- Hrem' in *. clear Hrem'.
  specialize (IH rem).
  destruct (identify_loop _ _ _ file_types rem) as [[more un]|e]; [|exact IH].
  destruct IH as [-> (Hne & names & Hmade' & Hperm' & Hfirst)].
  unfold mbind at 1, result_bind at 1. cbv beta iota.
  split; [now rewrite Hcons|]. split; [now apply Forall_app|].
  exists (names0 ++ names)%list.
  split; [now apply Forall2_app|]. split.
  - rewrite fmap_app, concat_app, Hconcat0, <- app_assoc, Hperm'. exact Hperm.
  - apply Forall_app. split; [assumption|].
    apply Forall_forall. intros n Hn.
    pose proof (proj1 (Forall_forall _ _) Hfirst n Hn)
      as (l1 & pats' & l2 & -> & Hfns).
    exists ((ty, pats) :: l1), pats', l2. split; [reflexivity|].
    apply Forall_forall. intros fn Hfn.
    pose proof (proj1 (Forall_forall _ _) Hfns fn Hfn) as [Hun Hl1].
    split; [assumption|].
    unfold ConfigBasedReaderFiles.unidentified_by in *. simpl.
    rewrite Hl1, andb_true_r.
    assert (Hin : fn ∈ rem).
    { rewrite <- Hperm'. apply elem_of_app. left.
      apply list_elem_of_In, in_concat. exists n.2.
      split; apply list_elem_of_In; [|assumption].
      apply list_elem_of_fmap. exists n. auto. }
    rewrite Hrem in Hin. apply list_elem_of_filter in Hin as [Hin _].
    now apply Is_true_true.
Qed.

(** X16: [identify_file_types] puts every file name under the first file
    type, in the order of the configuration, one of whose patterns matches
    it, and makes one reader of it with the class of that type. Every file
    name is under one type at most, those under none are the ones no pattern
    matches, and no file type comes out without a reader. The only failures
    are those of the import of a class or of the making of a reader. *)
Theorem identify_file_types_classifies
    (file_types : list (string * list string)) (filenames : list string) :
  match identify_file_types globify fnmatch file_reader_class
          file_types filenames with
  | OK identified =>
      Forall (λ b, b.2 ≠ []) identified
      ∧ ∃ names : list (string * list string),
          Forall2 made_of identified names
          ∧ app (concat names.*2)
                (filter (unidentified_by file_types) filenames) ≡ₚ filenames
          ∧ Forall (first_match file_types) names
  | Raise e => ∃ who, e = External who
  end.
Proof.
  unfold identify_file_types.
  pose proof (identify_loop_classifies file_types filenames) as H.
  destruct (identify_loop _ _ _ file_types filenames) as [[identified un]|e];
    simpl; [|exact H].
  destruct H as [-> (Hne & names & Hmade & Hperm & Hfirst)]. eauto.
Qed.
End identify_loop_facts.

(** ** The file readers of a new instance *)

Section init_file_readers_facts.
Import ConfigBasedReaderFiles.
Context {Area Ring MD : Type} (intersects : Area → Ring → bool).
Local Abbreviation handle := (GenericFileReader.t Ring MD).
Context (globify : string → string)
        (fnmatch : string → string → bool)
        (file_reader_class : string → outcome (string → outcome handle)).

(** The multi-file reader made for an identified file type. *)
Local Abbreviation reader_of file_keys :=
  (λ b : string * list handle,
     (b.1, {| MultiFileReader.file_type := b.1;
              MultiFileReader.file_readers := b.2;
              MultiFileReader.file_keys := file_keys |})).

Lemma build_file_readers_built (self : ConfigBasedReader.options)
    (file_keys : gmap string string)
    (identified : list (string * list handle)) (num_files : nat)
    (readers : list (string * MultiFileReader.t)) :
  build_file_readers intersects self file_keys identified num_files
  = Built readers →
  readers = reader_of file_keys <$> identified
  ∧ ∃ n, (num_files ≠ 0 → n = num_files)
         ∧ Forall (λ b, ∃ segment,
                     ConfigBasedReader._get_swathsegment intersects self b.2
                     = OK segment
                     ∧ length segment = n ∧ n ≠ 0) identified.
Proof.
  revert num_files readers.
  induction identified as [|[ty files] identified IH]; intros num_files readers.
  - simpl. intros [= <-]. split; [reflexivity|]. exists num_files.
    split; [auto | constructor].
  - cbn [build_file_readers].
    destruct (ConfigBasedReader._get_swathsegment intersects self files)
      as [segment|e] eqn:Hseg; [|discriminate].
    destruct segment as [|g segment]; [discriminate|].
    set (m := length (g :: segment)) in *.
    destruct (negb (num_files =? 0)%nat && negb (m =? num_files)%nat) eqn:Hn;
      [discriminate|].
    destruct (build_file_readers intersects self file_keys identified m)
      as [more| | |] eqn:Hmore; try discriminate.
    intros [= <-].
    destruct (IH m more Hmore) as [-> (n & Hn' & Hall)].
    assert (Hm : m ≠ 0) by (unfold m; simpl; lia).
    specialize (Hn' Hm). subst n.
    split; [reflexivity|]. exists m. split.
    + intros Hnum. apply andb_false_iff in Hn as [Hn|Hn].
      * apply negb_false_iff, Nat.eqb_eq in Hn. contradiction.
      * now apply negb_false_iff, Nat.eqb_eq in Hn.
    + constructor; [|exact Hall]. exists (g :: segment). auto.
Qed.

(** X17: when a new instance gets its file readers, every identified
    file type has a multi-file reader over all the files identified for it,
    in the order of identification: the granule filter is run on them, and
    has to select one granule at least and as many for every file type, but
    what it selects, and its order, is not what the readers are given. *)
Theorem init_file_readers_built (self : ConfigBasedReader.options)
    (file_keys : gmap string string)
    (file_types : list (string * list string)) (filenames : list string)
    (readers : list (string * MultiFileReader.t)) :
  init_file_readers intersects globify fnmatch file_reader_class
    self file_keys file_types filenames = Built readers →
  ∃ identified,
    identify_file_types globify fnmatch file_reader_class file_types filenames
    = OK identified
    ∧ identified ≠ []
    ∧ readers = reader_of file_keys <$> identified
    ∧ ∃ n, n ≠ 0
           ∧ Forall (λ b, ∃ segment,
                       ConfigBasedReader._get_swathsegment intersects self b.2
                       = OK segment
                       ∧ length segment = n) identified.
Proof.
  unfold init_file_readers.
  destruct (identify_file_types _ _ _ file_types filenames)
    as [[|b identified]|e]; try discriminate.
  intros Hbuilt. exists (b :: identified). split; [reflexivity|].
  split; [discriminate|].
  destruct (build_file_readers_built _ _ _ _ _ Hbuilt) as [-> (n & _ & Hall)].
  split; [reflexivity|]. exists n. split.
  - now inversion Hall as [|? ? (seg & _ & _ & Hn) _].
  - eapply Forall_impl; [exact Hall|]. intros x (seg & Hseg & Hlen & _). eauto.
Qed.
End init_file_readers_facts.

Section init_file_readers_samples.
Import ConfigBasedReaderFiles.

Lemma init_file_readers_built_witness :
  ∃ identified,
    identify_file_types SampleFinder.globify_pattern SampleFileTypes.fnmatch
      SampleFileTypes.file_reader_class SampleFileTypes.file_types
      SampleFileTypes.filenames = OK identified
    ∧ identified ≠ []
    ∧ SampleFileTypes.file_readers
      = (λ b : string * list (GenericFileReader.t unit Z),
           (b.1, {| MultiFileReader.file_type := b.1;
                    MultiFileReader.file_readers := b.2;
                    MultiFileReader.file_keys := {[ "radiance" := "float32" ]} |}))
        <$> identified
    ∧ ∃ n, n ≠ 0
           ∧ Forall (λ b, ∃ segment,
                       ConfigBasedReader._get_swathsegment Sample.no_area
                         Sample2.unfiltered b.2 = OK segment
                       ∧ length segment = n) identified.
Proof.
  apply (init_file_readers_built Sample.no_area SampleFinder.globify_pattern
           SampleFileTypes.fnmatch SampleFileTypes.file_reader_class
           Sample2.unfiltered {[ "radiance" := "float32" ]}
           SampleFileTypes.file_types SampleFileTypes.filenames
           SampleFileTypes.file_readers).
  vm_compute. reflexivity.
Defined.
End init_file_readers_samples.

(** ** The file names found on disk *)

Lemma string_leb_trans (a b c : string) :
  String.leb a b = true → String.leb b c = true → String.leb a c = true.
Proof.
  unfold String.leb. revert b c.
  induction a as [|x a IH]; intros [|y b] [|z c]; simpl; try congruence.
  unfold Ascii.compare.
  destruct (N.compare_spec (Ascii.N_of_ascii x) (Ascii.N_of_ascii y)) as [Hxy|Hxy|Hxy],
           (N.compare_spec (Ascii.N_of_ascii y) (Ascii.N_of_ascii z)) as [Hyz|Hyz|Hyz],
           (N.compare_spec (Ascii.N_of_ascii x) (Ascii.N_of_ascii z)) as [Hxz|Hxz|Hxz];
    try congruence; try lia.
  apply IH.
Qed.

Lemma filterM_OK_filter {A} (p : A → result bool) (l r : list A) :
  filterM p l = OK r →
  r = filter (λ x, (match p x with OK b => b | Raise _ => false end : bool)) l.
Proof.
  revert r. induction l as [|x l IH]; simpl; intros r.
  - now intros [= <-].
  - rewrite filter_cons.
    destruct (p x) as [b|e]; [simpl | discriminate].
    destruct (filterM p l) as [r'|e]; [simpl | discriminate].
    intros [= <-]. rewrite <- (IH r' eq_refl). now destruct b.
Qed.

Section get_filenames_facts.
Import ReaderFinder.
Context (path_join : string → string → string)
        (globify : string → gmap string pyval → string)
        (iglob : string → list string)
        (parse : string → string → option metadata).
Local Abbreviation get_filenames :=
  (get_filenames path_join globify iglob parse).

(** The pattern under the base directory, if one is given. *)
Local Abbreviation joined base_dir :=
  (λ pattern : string,
     match base_dir with
     | Some (String _ _ as dir) => path_join dir pattern
     | _ => pattern
     end).

(** [self.info] without its keys ending in [_time]. *)
Local Abbreviation without_times self_info :=
  (filter (λ kv : string * pyval, ¬ endswith kv.1 "_time") self_info).

(** The files a pattern finds that pass the time test. *)
Local Abbreviation wanted_of info base_dir reader_start reader_end :=
  (λ pattern : string,
     filter (λ filename,
               (match file_wanted parse reader_start reader_end
                        (joined base_dir pattern) filename with
                | OK b => b
                | Raise _ => false
                end : bool))
            (iglob (globify (joined base_dir pattern) info))).

Lemma scan_found info base_dir reader_start reader_end patterns globbed found :
  scan path_join globify iglob parse info base_dir reader_start reader_end
    patterns = (globbed, OK found) →
  globbed = (λ p, globify (joined base_dir p) info) <$> patterns
  ∧ found = concat (wanted_of info base_dir reader_start reader_end <$> patterns).
Proof.
  revert globbed found. induction patterns as [|p ps IH]; intros globbed found.
  - simpl. now intros [= <- <-].
  - cbn [scan].
    destruct (filterM _ _) as [fs|e] eqn:Hfs; [|discriminate].
    destruct (scan _ _ _ _ _ _ _ _ ps) as [tr r].
    destruct r as [more|e]; simpl; [|discriminate].
    intros [= <- <-]. destruct (IH tr more eq_refl) as [-> ->].
    apply filterM_OK_filter in Hfs as ->. split; reflexivity.
Qed.

Lemma get_filenames_spec self_info ri base_dir globbed names :
  get_filenames self_info ri base_dir = (globbed, OK names) →
  ∃ reader_start,
    start_time ri = Some (Some reader_start)
    ∧ globbed = (λ p, globify (joined base_dir p) (without_times self_info))
                <$> file_patterns ri
    ∧ names = sorted_by String.leb id
                (concat (wanted_of (without_times self_info) base_dir
                           reader_start (end_time ri) <$> file_patterns ri)).
Proof.
  unfold ReaderFinder.get_filenames.
  destruct (start_time ri) as [[reader_start|]|]; try discriminate.
  destruct (scan _ _ _ _ _ _ _ _ _) as [tr r] eqn:Hscan.
  destruct r as [found|e]; simpl; [|discriminate].
  intros [= <- <-]. exists reader_start.
  apply scan_found in Hscan as [-> ->]. auto.
Qed.

(** X18: the names [get_filenames] returns are, in ascending order, the
    files found by the patterns that pass the time test, pattern by
    pattern: each pattern, put under the base directory if one is given, is
    globbed once with the keys of [self.info] that do not end in [_time],
    and a file found by two patterns is returned twice. *)
Theorem get_filenames_found self_info ri base_dir globbed names :
  get_filenames self_info ri base_dir = (globbed, OK names) →
  ∃ reader_start,
    start_time ri = Some (Some reader_start)
    ∧ globbed = (λ p, globify (joined base_dir p) (without_times self_info))
                <$> file_patterns ri
    ∧ names ≡ₚ concat (wanted_of (without_times self_info) base_dir
                         reader_start (end_time ri) <$> file_patterns ri)
    ∧ StronglySorted (λ a b, String.leb a b = true) names.
Proof.
  intros H. apply get_filenames_spec in H as (reader_start & Hst & Hg & ->).
  exists reader_start. split; [exact Hst|]. split; [exact Hg|]. split.
  - apply sorted_by_perm.
  - apply (sorted_by_sorted String.leb id).
    + intros a b Hab. destruct (String.leb_total a b) as [H|H]; congruence.
    + intros a b c. apply string_leb_trans.
Qed.

(** X19: the times of the request take no part in the search as keys of
    [self.info]: two requests that differ in their [_time] keys only find
    the same files for the same reader. *)
Theorem get_filenames_ignores_request_times
    (info1 info2 : gmap string pyval) ri base_dir :
  (∀ k, endswith k "_time" = false → info1 !! k = info2 !! k) →
  get_filenames info1 ri base_dir = get_filenames info2 ri base_dir.
Proof.
  intros Hagree.
  assert (Heq : without_times info1 = without_times info2).
  { apply map_eq. intros k. apply option_eq. intros v.
    rewrite !map_lookup_filter_Some. simpl.
    split; intros [Hk Hne]; (split; [|exact Hne]);
      destruct (endswith k "_time") eqn:E;
      try (exfalso; apply Hne; exact I);
      [rewrite <- (Hagree k E) | rewrite (Hagree k E)]; exact Hk. }
  unfold ReaderFinder.get_filenames. rewrite Heq. reflexivity.
Qed.

(** X20: when the file name gives both times, the end time is put on or
    after the start time before the time test: an end time before the
    start time keeps its time of day and moves to the first day that
    places it at or after the start, less than a day later; any other end
    time is kept. *)
Theorem fix_end_time_after_start (md md' : metadata) (s e : Z) :
  md_start_time md = Some s → md_end_time md = Some e →
  fix_end_time md = OK md' →
  md_start_time md' = Some s
  ∧ md_nominal_time md' = md_nominal_time md
  ∧ ∃ e', md_end_time md' = Some e'
          ∧ (s ≤ e')%Z
          ∧ time e' = time e
          ∧ ((e < s)%Z → (e' < s + day)%Z)
          ∧ ((s ≤ e)%Z → e' = e).
Proof.
  intros Hs He. unfold fix_end_time. rewrite Hs, He.
  destruct (e <? s)%Z eqn:Hlt.
  - apply Z.ltb_lt in Hlt. intros [= <-]. simpl.
    split; [reflexivity|]. split; [reflexivity|].
    eexists. split; [reflexivity|].
    unfold combine, date, time, day in *.
    pose proof (Z.div_mod s 86400000000 ltac:(lia)) as Hds.
    pose proof (Z.mod_pos_bound s 86400000000 ltac:(lia)) as Hbs.
    pose proof (Z.mod_pos_bound e 86400000000 ltac:(lia)) as Hbe.
    assert (Htime : ∀ d, ((d * 86400000000 + e mod 86400000000)
                          mod 86400000000 = e mod 86400000000)%Z).
    { intros d. rewrite Z.add_comm, Z_mod_plus_full. apply Z.mod_mod. lia. }
    destruct (e mod 86400000000 <? s mod 86400000000)%Z eqn:Hday;
      [apply Z.ltb_lt in Hday | apply Z.ltb_ge in Hday];
      (split; [lia|]); (split; [apply Htime|]); split; lia.
  - apply Z.ltb_ge in Hlt. intros [= <-].
    split; [exact Hs|]. split; [reflexivity|].
    exists e. repeat split; try assumption; lia.
Qed.

(** X21: with an end time in the reader information, a file whose name
    says it starts before the requested interval and ends after it is not
    among the names returned, although its times hold the whole
    interval. *)
Theorem get_filenames_skips_covering_file self_info ri base_dir globbed names
    (reader_start reader_end : Z) (filename : string) (md : metadata) (s e : Z) :
  get_filenames self_info ri base_dir = (globbed, OK names) →
  start_time ri = Some (Some reader_start) →
  end_time ri = Some reader_end →
  (reader_start ≤ reader_end)%Z →
  (∀ pattern, parse pattern filename = Some md) →
  md_start_time md = Some s → md_end_time md = Some e →
  (s < reader_start)%Z → (reader_end < e)%Z →
  filename ∉ names.
Proof.
  intros H Hst Het Hle Hparse Hs He Hbefore Hafter Hin.
  apply get_filenames_spec in H as (reader_start' & Hst' & _ & ->).
  rewrite Hst in Hst'. injection Hst' as <-. rewrite Het in Hin.
  rewrite (sorted_by_perm String.leb id) in Hin.
  apply list_elem_of_In, in_concat in Hin as (fs & Hfs & Hin).
  apply list_elem_of_In, list_elem_of_fmap in Hfs as (p & -> & _).
  apply list_elem_of_In, list_elem_of_filter in Hin as [Hwanted _].
  revert Hwanted. unfold file_wanted. rewrite Hparse. simpl.
  unfold fix_end_time. rewrite Hs, He.
  replace (e <? s)%Z with false by (symmetry; apply Z.ltb_ge; lia).
  unfold mbind at 1, result_bind at 1. unfold in_time. rewrite Hs, He. simpl.
  replace (reader_start <=? s)%Z with false by (symmetry; apply Z.leb_gt; lia).
  replace (e <=? reader_end)%Z with false by (symmetry; apply Z.leb_gt; lia).
  rewrite andb_false_r. simpl. exact id.
Qed.
End get_filenames_facts.

Section get_filenames_samples.
Import ReaderFinder.

Lemma get_filenames_found_witness :
  ∃ reader_start,
    start_time SampleFiles.twice_5_30 = Some (Some reader_start)
    ∧ ["*.nc"; "*.nc"]
      = (λ p, Sample.globify p
                (filter (λ kv : string * pyval, ¬ endswith kv.1 "_time")
                        Sample.request))
        <$> file_patterns SampleFiles.twice_5_30
    ∧ ["a_0010.nc"; "a_0010.nc"; "b_0020.nc"; "b_0020.nc"]
      ≡ₚ concat
           ((λ pattern : string,
               filter (λ filename,
                         (match file_wanted Sample.parse reader_start
                                  (end_time SampleFiles.twice_5_30)
                                  pattern filename with
                          | OK b => b
                          | Raise _ => false
                          end : bool))
                      (Sample.iglob
                         (Sample.globify pattern
                            (filter (λ kv : string * pyval,
                                       ¬ endswith kv.1 "_time")
                                    Sample.request))))
            <$> file_patterns SampleFiles.twice_5_30)
    ∧ StronglySorted (λ a b, String.leb a b = true)
        ["a_0010.nc"; "a_0010.nc"; "b_0020.nc"; "b_0020.nc"].
Proof.
  apply (get_filenames_found Sample.path_join Sample.globify Sample.iglob
           Sample.parse Sample.request SampleFiles.twice_5_30 None).
  vm_compute. reflexivity.
Defined.

Lemma get_filenames_ignores_request_times_witness :
  get_filenames Sample.path_join Sample.globify Sample.iglob Sample.parse
    Sample.request Sample.reader_5_30 None
  = get_filenames Sample.path_join Sample.globify Sample.iglob Sample.parse
      SampleFiles.request_later Sample.reader_5_30 None.
Proof.
  apply get_filenames_ignores_request_times.
  intros k Hk. unfold Sample.request, SampleFiles.request_later.
  destruct (decide (k = "platform")) as [->|Hp]; [reflexivity|].
  destruct (decide (k = "start_time")) as [->|Ht]; [discriminate Hk|].
  rewrite !lookup_insert_ne, !lookup_singleton_ne by congruence. reflexivity.
Defined.

Lemma fix_end_time_after_start_witness :
  ∃ md', fix_end_time SampleFiles.overnight = OK md'
    ∧ md_start_time md' = Some 84600000000%Z
    ∧ md_nominal_time md' = None
    ∧ ∃ e', md_end_time md' = Some e'
            ∧ (84600000000 ≤ e')%Z
            ∧ time e' = time 600000000
            ∧ ((600000000 < 84600000000)%Z → (e' < 84600000000 + day)%Z)
            ∧ ((84600000000 ≤ 600000000)%Z → e' = 600000000%Z).
Proof.
  eexists. split; [reflexivity|].
  apply (fix_end_time_after_start SampleFiles.overnight _
           84600000000 600000000); reflexivity.
Defined.

Lemma get_filenames_skips_covering_file_witness :
  "long_0000_0100.nc" ∉ ["a_0010.nc"].
Proof.
  apply (get_filenames_skips_covering_file Sample.path_join Sample.globify
           SampleFiles.iglob SampleFiles.parse Sample.request
           Sample.reader_5_30 None ["*.nc"] ["a_0010.nc"] 5 30
           "long_0000_0100.nc"
           {| md_start_time := Some 0%Z; md_end_time := Some 100%Z;
              md_nominal_time := None |} 0 100).
  - vm_compute. reflexivity.
  - reflexivity.
  - reflexivity.
  - lia.
  - intros pattern. reflexivity.
  - reflexivity.
  - reflexivity.
  - lia.
  - lia.
Defined.
End get_filenames_samples.

(** ** Granules of one dimension, and arrays on disk *)

Section get_swath_data_facts.
Import MultiFileReader.
Context {Ring MD : Type}.
Local Abbreviation handle := (GenericFileReader.t Ring MD).

(** The granule accepts the rows, of the trailing dimensions [cols], that
    are meant for it. *)
Local Abbreviation fills_rows item cols :=
  (λ (fr : handle) (sh : list nat),
     GenericFileReader.get_shape fr item = Returned sh
     ∧ sh ≠ []
     ∧ GenericFileReader.get_swath_data fr item (hd 0 sh :: cols)
       = Returned ()).

Local Arguments slice_rows : simpl never.

Lemma fill_row_slices_of (item : string) (n : nat) (cols : list nat)
    (readers : list handle) (shapes : list (list nat)) (idx : nat) :
  Forall2 (fills_rows item cols) readers shapes →
  (idx + foldr Nat.add 0 (hd 0 <$> shapes) ≤ n)%nat →
  fill item (n :: cols) idx (zip shapes readers)
  = OK (row_slices idx (hd 0 <$> shapes)).
Proof.
  intros H. revert idx.
  induction H as [|fr sh readers shapes (Hsh & Hne & Hfill) _ IH];
    intros idx Hle; [reflexivity|].
  destruct sh as [|r sh']; [congruence|]. simpl in *.
  change (list_fmap (list nat) nat (hd 0) shapes) with (hd 0 <$> shapes) in *.
  rewrite slice_rows_exact by lia.
  rewrite Hfill. simpl. rewrite IH by lia. reflexivity.
Qed.

(** X22: granules whose first has a native shape of one dimension are
    joined into an array of one dimension, of the sum of the leading
    dimensions: every granule is handed its rows of that array, in order,
    whatever the number of dimensions of the granules after the first. *)
Theorem get_swath_data_one_dimension (self : t (Ring:=Ring) (MD:=MD))
    (item dtype : string) (rows : nat) (others : list (list nat)) :
  file_keys self !! item = Some dtype →
  Forall2 (fills_rows item []) (file_readers self) ([rows] :: others) →
  get_swath_data self item None
  = OK {| ma_shape := [foldr Nat.add 0 (hd 0 <$> [rows] :: others)];
          ma_dtype := dtype;
          ma_filled := row_slices 0 (hd 0 <$> [rows] :: others) |}.
Proof.
  intros Hkey Hall. unfold get_swath_data. rewrite Hkey.
  rewrite (mapM_result_Forall2 _ _ ([rows] :: others)).
  2:{ eapply Forall2_impl; [exact Hall|]. intros fr sh (-> & _). reflexivity. }
  unfold mbind at 1, result_bind at 1.
  rewrite shape_first_all.
  2:{ eapply Forall2_Forall_r; [exact Hall|].
      apply Forall_forall. intros sh _ fr (_ & Hne & _). exact Hne. }
  unfold mbind at 1, result_bind at 1.
  rewrite bool_decide_eq_true_2 by (simpl; lia).
  unfold mbind at 1, result_bind at 1.
  rewrite (fill_row_slices_of item _ [] _ ([rows] :: others) 0 Hall)
    by (simpl; lia).
  reflexivity.
Qed.

(** X23: asked to save the array under a file name, [get_swath_data]
    never returns an array: once the item is known and the granules have
    given their shapes it raises [NotImplementedError], and before that
    whatever stopped it. *)
Theorem get_swath_data_to_file (self : t (Ring:=Ring) (MD:=MD))
    (item filename : string) :
  filename ≠ "" →
  (∀ array, get_swath_data self item (Some filename) ≠ OK array)
  ∧ ∀ dtype shapes,
      file_keys self !! item = Some dtype →
      Forall2 (λ fr sh, GenericFileReader.get_shape fr item = Returned sh
                        ∧ sh ≠ [])
        (file_readers self) shapes →
      shapes ≠ [] →
      get_swath_data self item (Some filename)
      = Raise (NotImplementedError
                 "Saving data arrays to disk is not supported yet").
Proof.
  intros Hname. destruct filename as [|ch filename]; [congruence|]. split.
  - intros array. unfold get_swath_data.
    destruct (file_keys self !! item); [|discriminate].
    destruct (mapM_result _ (file_readers self)) as [shapes|]; [|discriminate].
    unfold mbind at 1, result_bind at 1.
    destruct (mapM_result shape_first shapes); [|discriminate].
    unfold mbind at 1, result_bind at 1.
    destruct shapes as [|first shapes]; [discriminate|].
    destruct (bool_decide (length first < 2));
      [discriminate | destruct (shape_last first); discriminate].
  - intros dtype shapes Hkey Hall Hne. unfold get_swath_data. rewrite Hkey.
    rewrite (mapM_result_Forall2 _ _ shapes).
    2:{ eapply Forall2_impl; [exact Hall|]. intros fr sh (-> & _). reflexivity. }
    unfold mbind at 1, result_bind at 1.
    rewrite shape_first_all.
    2:{ eapply Forall2_Forall_r; [exact Hall|].
        apply Forall_forall. intros sh _ fr (_ & Hsh). exact Hsh. }
    unfold mbind at 1, result_bind at 1.
    destruct shapes as [|first shapes]; [congruence|].
    assert (Hfirst : first ≠ []).
    { inversion Hall as [|? ? ? ? [_ H]]. exact H. }
    destruct (bool_decide (length first < 2)); [reflexivity|].
    unfold shape_last. destruct (last first) eqn:E; [reflexivity|].
    apply last_None in E. contradiction.
Qed.
End get_swath_data_facts.

Section get_swath_data_more_samples.
Import MultiFileReader.

Lemma get_swath_data_one_dimension_witness :
  get_swath_data (Sample.swath [SampleVectors.t1; SampleVectors.t2])
    "radiance" None
  = OK {| ma_shape := [7]; ma_dtype := "float32";
          ma_filled := [(0, 3); (3, 7)] |}.
Proof.
  apply (get_swath_data_one_dimension
           (Sample.swath [SampleVectors.t1; SampleVectors.t2])
           "radiance" "float32" 3 [[4]]).
  - reflexivity.
  - repeat constructor; discriminate.
Defined.

Lemma get_swath_data_to_file_witness :
  (∀ array,
     get_swath_data (Sample.swath [Sample.g1; Sample.g2]) "radiance"
       (Some "swath.dat") ≠ OK array)
  ∧ get_swath_data (Sample.swath [Sample.g1; Sample.g2]) "radiance"
      (Some "swath.dat")
    = Raise (NotImplementedError
               "Saving data arrays to disk is not supported yet").
Proof.
  destruct (get_swath_data_to_file (Sample.swath [Sample.g1; Sample.g2])
              "radiance" "swath.dat") as [Hnever Hraises]; [discriminate|].
  split; [exact Hnever|].
  apply (Hraises "float32" [[3; 5]; [2; 5]]).
  - reflexivity.
  - repeat constructor; discriminate.
  - discriminate.
Defined.
End get_swath_data_more_samples.

(** ** The reader asked for by name *)

Section find_reader_facts.
Import ReaderFinderFiles ReaderFinderReader.
Context (path_join : string → string → string)
        (basename : string → string)
        (path_exists : string → bool)
        (fnmatch : string → string → bool)
        (iglob : string → list string)
        (globify_pattern : string → string)
        (globify : string → gmap string pyval → string)
        (parse : string → string → option ReaderFinder.metadata).
Context {Rdr : Type}
        (config_search_paths : string → list string)
        (_read_reader_config : list string → result config)
        (_load_reader : reader_files → outcome Rdr).
Local Abbreviation _find_reader :=
  (_find_reader path_join basename path_exists fnmatch iglob globify_pattern
     globify parse config_search_paths _read_reader_config _load_reader).
Local Abbreviation unclaimed :=
  (unclaimed path_join globify_pattern basename fnmatch).

(** The configuration read for a reader given by a string. *)
Local Abbreviation config_of reader :=
  (config_files ←
     config_files_of path_join basename path_exists config_search_paths reader;
   _read_reader_config config_files).

(** The reader information made of a configuration and file names. *)
Local Abbreviation info_of cfg names :=
  {| reader_name := cfg_name cfg;
     file_patterns := cfg_file_patterns cfg;
     filenames := names |}.

(** X24: asked for a reader by name with files, the finder takes all of
    them or none. It returns the reader, loaded with the files given, each
    once, when every file is matched by a pattern of the configuration; it
    raises the [IOError] on the files that no pattern matches when there is
    one; it never searches the disk. *)
Theorem find_reader_given_files (self_info : gmap string pyval)
    (base_dir : option string) (reader : string) (files : list string) :
  files ≠ [] →
  match _find_reader self_info base_dir (Named reader) (Some files) with
  | (globbed, Found r) =>
      globbed = []
      ∧ ∃ cfg assigned,
          config_of reader = OK cfg
          ∧ assigned ≡ₚ files
          ∧ Forall (λ f, unclaimed base_dir (cfg_file_patterns cfg) f = false)
                   files
          ∧ _load_reader (info_of cfg assigned) = Returned r
  | (globbed, CannotOpen remaining) =>
      globbed = [] ∧ remaining ≠ []
      ∧ ∃ cfg,
          config_of reader = OK cfg
          ∧ remaining
            = filter (unclaimed base_dir (cfg_file_patterns cfg)) files
  | (_, NoFilenames _) => False
  | (globbed, Interrupted e) =>
      globbed = [] ∧ (config_of reader = Raise e ∨ ∃ who, e = External who)
  end.
Proof.
  intros Hne. destruct files as [|f files]; [congruence|].
  unfold ReaderFinderReader._find_reader.
  destruct (config_of reader) as [cfg|e]; [|auto].
  unfold assign_matching_files. cbn [file_patterns filenames reader_name].
  destruct (assign_patterns_split path_join globify_pattern basename fnmatch
              base_dir (cfg_file_patterns cfg) [] (f :: files))
    as (matched & -> & Hperm & Hmatched).
  unfold mbind at 1, result_bind at 1. cbv beta iota. cbn [app].
  destruct (filter (unclaimed base_dir (cfg_file_patterns cfg)) (f :: files))
    as [|u remaining] eqn:Hrem.
  - rewrite app_nil_r in Hperm. unfold load.
    destruct (_load_reader (info_of cfg matched)) as [r|who] eqn:Hload.
    + split; [reflexivity|]. exists cfg, matched.
      split; [reflexivity|]. split; [exact Hperm|]. split; [|exact Hload].
      rewrite <- Hperm. apply Forall_forall. exact Hmatched.
    + split; [reflexivity|]. right. eauto.
  - split; [reflexivity|]. split; [discriminate|]. exists cfg. auto.
Qed.

(** X25: asked for a reader by name without files, the finder returns a
    reader only with a start time in its configuration: without one it
    raises the [ValueError] of [get_filenames] before it has searched the
    disk or loaded the reader; and a reader it returns was loaded with the
    names found on disk, one at least. *)
Theorem find_reader_needs_start_time (self_info : gmap string pyval)
    (base_dir : option string) (reader : string)
    (filenames : option (list string)) (cfg : config) :
  filenames = None ∨ filenames = Some [] →
  config_of reader = OK cfg →
  (cfg_start_time cfg = None →
   _find_reader self_info base_dir (Named reader) filenames
   = ([], Interrupted (ValueError
        "'start_time' keyword required with 'sensor' and 'reader' keyword arguments")))
  ∧ ∀ globbed r,
      _find_reader self_info base_dir (Named reader) filenames
      = (globbed, Found r) →
      ∃ reader_start names,
        cfg_start_time cfg = Some reader_start
        ∧ ReaderFinder.get_filenames path_join globify iglob parse self_info
            {| ReaderFinder.start_time := Some (Some reader_start);
               ReaderFinder.end_time := cfg_end_time cfg;
               ReaderFinder.file_patterns := cfg_file_patterns cfg |}
            base_dir
          = (globbed, OK names)
        ∧ names ≠ []
        ∧ _load_reader (info_of cfg names) = Returned r.
Proof.
  intros Hfiles Hcfg. unfold ReaderFinderReader._find_reader. rewrite Hcfg.
  assert (Hbranch : ∀ (A : Type) (a : list string → A) (b : A),
            match filenames with Some ((_ :: _) as files) => a files | _ => b end
            = b).
  { intros A a b. destruct Hfiles as [-> | ->]; reflexivity. }
  rewrite Hbranch. clear Hbranch. split.
  - intros ->. reflexivity.
  - intros globbed r.
    destruct (cfg_start_time cfg) as [reader_start|]; [|discriminate].
    destruct (ReaderFinder.get_filenames _ _ _ _ _ _ _) as [tr [names|e]]
      eqn:Hget; [|discriminate].
    destruct names as [|n names]; [discriminate|].
    unfold load.
    destruct (_load_reader _) as [r'|who] eqn:Hload; [|discriminate].
    intros [= <- <-]. exists reader_start, (n :: names).
    split; [reflexivity|]. split; [exact Hget|]. split; [discriminate|].
    exact Hload.
Qed.
End find_reader_facts.

Section find_reader_samples.
Import ReaderFinderFiles ReaderFinderReader.
Local Abbreviation sample_find_reader :=
  (_find_reader Sample.path_join SampleFinder.basename SampleFinder.path_exists
     SampleFinder.fnmatch Sample.iglob SampleFinder.globify_pattern
     Sample.globify Sample.parse SampleFinder.config_search_paths
     SampleFinder._read_reader_config SampleFinder._load_reader).

Lemma find_reader_given_files_witness :
  match sample_find_reader Sample.request None (Named "hrit")
          (Some ["b_0020.nc"; "notes.txt"; "a_0010.nc"]) with
  | (globbed, CannotOpen remaining) =>
      globbed = [] ∧ remaining ≠ []
      ∧ ∃ cfg,
          (config_files ←
             config_files_of Sample.path_join SampleFinder.basename
               SampleFinder.path_exists SampleFinder.config_search_paths "hrit";
           SampleFinder._read_reader_config config_files) = OK cfg
          ∧ remaining
            = filter (unclaimed Sample.path_join SampleFinder.globify_pattern
                        SampleFinder.basename SampleFinder.fnmatch None
                        (cfg_file_patterns cfg))
                     ["b_0020.nc"; "notes.txt"; "a_0010.nc"]
  | _ => False
  end.
Proof.
  exact (find_reader_given_files Sample.path_join SampleFinder.basename
           SampleFinder.path_exists SampleFinder.fnmatch Sample.iglob
           SampleFinder.globify_pattern Sample.globify Sample.parse
           SampleFinder.config_search_paths SampleFinder._read_reader_config
           SampleFinder._load_reader Sample.request None "hrit"
           ["b_0020.nc"; "notes.txt"; "a_0010.nc"] ltac:(discriminate)).
Defined.

Lemma find_reader_needs_start_time_witness :
  sample_find_reader Sample.request None (Named "untimed") None
  = ([], Interrupted (ValueError
       "'start_time' keyword required with 'sensor' and 'reader' keyword arguments")).
Proof.
  apply (find_reader_needs_start_time Sample.path_join SampleFinder.basename
           SampleFinder.path_exists SampleFinder.fnmatch Sample.iglob
           SampleFinder.globify_pattern Sample.globify Sample.parse
           SampleFinder.config_search_paths SampleFinder._read_reader_config
           SampleFinder._load_reader Sample.request None "untimed" None
           {| cfg_name := "untimed"; cfg_file_patterns := ["*.nc"];
              cfg_start_time := None; cfg_end_time := None |}).
  - left. reflexivity.
  - reflexivity.
  - reflexivity.
Defined.
End find_reader_samples.
